(** * NoireCalendar: range queries, day layout and settings storage

    A shallow embedding of the calendar's server storage layer
    ([server/storage.ts], [server/routes.ts]), of the date-range hook
    ([client/src/hooks/useCalendar.ts]) and of the timed-event layout of
    the day and week views ([DayView.tsx], [WeekView.tsx]); of the
    navigation of the hook and of the calendar page, of the grids of the
    month and year views ([MonthView.tsx], [YearView.tsx]) and of the
    time slots of [lib/utils.ts].

    Modelling conventions.
    - A JavaScript [Date] is its millisecond time value, an integer [Z].
      The views read dates in the browser's local zone; the model takes
      that zone to have a constant offset and measures time values on the
      local time line, so that local midnight is a multiple of a day.
    - JavaScript numbers that hold percentages are modelled as exact
      rationals [Q]; rounding of IEEE doubles is not modelled.
    - Code that can throw returns in the exception monad [Exc].
    - SQL tables are lists of rows in the order a [select] yields them.
      An insert checks the primary key and the foreign key of the new
      row.  SQL leaves the order of rows open where the query has no
      [orderBy]: the properties state what a table holds up to the order
      of its rows. *)

From Stdlib Require Import ZArith QArith Qminmax List String Ascii Bool Lia.
From Stdlib Require Import Sorted Permutation DecimalString.
Import ListNotations.

Local Open Scope string_scope.
Local Open Scope list_scope.
Local Open Scope Z_scope.

(** ** Exceptions *)

Inductive Error : Type :=
| RangeError            (* date-fns: "Invalid interval" *)
| TypeError             (* member access on [undefined] *)
| EventHasNoUserId      (* storage.ts: Error("Event has no user ID") *)
| UniqueViolation       (* the database: duplicate key *)
| ForeignKeyViolation.  (* the database: the row names a user that is not stored *)

Inductive Exc (A : Type) : Type :=
| Ret (a : A)
| Throw (e : Error).

Arguments Ret {A} a.
Arguments Throw {A} e.

Definition bind {A B : Type} (c : Exc A) (k : A -> Exc B) : Exc B :=
  match c with
  | Ret a => k a
  | Throw e => Throw e
  end.

Declare Scope exc_scope.
Delimit Scope exc_scope with exc.
Notation "x <- c ;; k" := (bind c (fun x => k))
  (at level 61, c at next level, right associativity) : exc_scope.
Local Open Scope exc_scope.

(** [Array.prototype.filter] with a predicate that may throw: the first
    throwing element aborts the whole call. *)
Fixpoint filterM {A : Type} (p : A -> Exc bool) (l : list A) : Exc (list A) :=
  match l with
  | [] => Ret []
  | x :: rest =>
      b <- p x ;;
      kept <- filterM p rest ;;
      Ret (if b then x :: kept else kept)
  end.

(** [Array.prototype.map] with a callback that may throw. *)
Fixpoint mapM {A B : Type} (f : A -> Exc B) (l : list A) : Exc (list B) :=
  match l with
  | [] => Ret []
  | x :: rest =>
      y <- f x ;;
      ys <- mapM f rest ;;
      Ret (y :: ys)
  end.

(** ** Dates and the date-fns functions the program calls

    date-fns is a dependency, not code of the repository: the functions
    below follow the library's documented behaviour on the local time
    line described above. *)

Module DateFns.

Definition Date := Z.

Definition MS_PER_MINUTE : Z := 60000.
Definition MS_PER_HOUR : Z := 3600000.
Definition MS_PER_DAY : Z := 86400000.

(** The library is not part of the repository. Its interval functions
    changed between major releases: 2.x throws [RangeError] when an
    interval has [start > end], 3.x and later sort the two bounds. *)
Inductive Release : Type := V2 | V3.

Record Interval : Type := mkInterval { start : Date; end_ : Date }.

(** Days since 1970-01-01 of a proleptic Gregorian date, month 1..12. *)
Definition daysFromCivil (y m d : Z) : Z :=
  let y' := if m <=? 2 then y - 1 else y in
  let era := y' / 400 in
  let yoe := y' - era * 400 in
  let mp := if 2 <? m then m - 3 else m + 9 in
  let doy := (153 * mp + 2) / 5 + d - 1 in
  let doe := yoe * 365 + yoe / 4 - yoe / 100 + doy in
  era * 146097 + doe - 719468.

(** Inverse of [daysFromCivil]: (year, month 1..12, day of month). *)
Definition civilFromDays (z : Z) : Z * Z * Z :=
  let z' := z + 719468 in
  let era := z' / 146097 in
  let doe := z' - era * 146097 in
  let yoe := (doe - doe / 1460 + doe / 36524 - doe / 146096) / 365 in
  let doy := doe - (365 * yoe + yoe / 4 - yoe / 100) in
  let mp := (5 * doy + 2) / 153 in
  let d := doy - (153 * mp + 2) / 5 + 1 in
  let m := if mp <? 10 then mp + 3 else mp - 9 in
  (if m <=? 2 then yoe + era * 400 + 1 else yoe + era * 400, m, d).

(** [new Date(year, monthIndex, day, hours, minutes, seconds, ms)];
    [monthIndex] is zero-based and overflows into the year, [day]
    overflows into the month (day 0 is the last day of the month
    before). *)
Definition newDate (year monthIndex day hours minutes seconds ms : Z) : Date :=
  let y := year + monthIndex / 12 in
  let m := monthIndex mod 12 + 1 in
  (daysFromCivil y m 1 + (day - 1)) * MS_PER_DAY
  + hours * MS_PER_HOUR + minutes * MS_PER_MINUTE + seconds * 1000 + ms.

Definition dayNumber (d : Date) : Z := d / MS_PER_DAY.

Definition getFullYear (d : Date) : Z := fst (fst (civilFromDays (dayNumber d))).
Definition getMonth (d : Date) : Z := snd (fst (civilFromDays (dayNumber d))) - 1.
Definition getDate (d : Date) : Z := snd (civilFromDays (dayNumber d)).
Definition getHours (d : Date) : Z := (d mod MS_PER_DAY) / MS_PER_HOUR.
Definition getMinutes (d : Date) : Z := (d mod MS_PER_HOUR) / MS_PER_MINUTE.

(** 0 is Sunday; 1970-01-01 was a Thursday. *)
Definition getDay (d : Date) : Z := (dayNumber d + 4) mod 7.

Definition startOfDay (d : Date) : Date := dayNumber d * MS_PER_DAY.
Definition endOfDay (d : Date) : Date := startOfDay d + (MS_PER_DAY - 1).

(** [date.setHours(h, m, 0, 0)] *)
Definition setHours (d : Date) (h m : Z) : Date :=
  startOfDay d + h * MS_PER_HOUR + m * MS_PER_MINUTE.

Definition addDays (d : Date) (n : Z) : Date := d + n * MS_PER_DAY.

Definition isSameDay (a b : Date) : bool := startOfDay a =? startOfDay b.

(** [differenceInMinutes(later, earlier)]: the full minutes between the
    two dates, rounded towards zero in every release. *)
Definition differenceInMinutes (later earlier : Date) : Z :=
  Z.quot (later - earlier) MS_PER_MINUTE.

(** [startOfWeek(date, { weekStartsOn })] *)
Definition startOfWeek (d : Date) (weekStartsOn : Z) : Date :=
  let day := getDay d in
  let diff := (if day <? weekStartsOn then 7 else 0) + day - weekStartsOn in
  startOfDay (addDays d (- diff)).

(** [endOfWeek(date, { weekStartsOn })] *)
Definition endOfWeek (d : Date) (weekStartsOn : Z) : Date :=
  let day := getDay d in
  let diff := (if day <? weekStartsOn then -7 else 0) + 6 - (day - weekStartsOn) in
  endOfDay (addDays d diff).

Definition startOfMonth (d : Date) : Date :=
  newDate (getFullYear d) (getMonth d) 1 0 0 0 0.

Definition endOfMonth (d : Date) : Date :=
  newDate (getFullYear d) (getMonth d + 1) 0 23 59 59 999.

Definition startOfYear (d : Date) : Date :=
  newDate (getFullYear d) 0 1 0 0 0 0.

Definition endOfYear (d : Date) : Date :=
  newDate (getFullYear d + 1) 0 0 23 59 59 999.

(** The bounds of an interval as the release reads them. *)
Definition bounds (r : Release) (i : Interval) : Exc (Date * Date) :=
  match r with
  | V2 => if start i <=? end_ i then Ret (start i, end_ i) else Throw RangeError
  | V3 => Ret (Z.min (start i) (end_ i), Z.max (start i) (end_ i))
  end.

(** [areIntervalsOverlapping(left, right)], without [inclusive]. *)
Definition areIntervalsOverlapping (r : Release) (left right : Interval) : Exc bool :=
  l <- bounds r left ;;
  rt <- bounds r right ;;
  Ret ((fst l <? snd rt) && (fst rt <? snd l)).

(** [isWithinInterval(date, interval)] *)
Definition isWithinInterval (r : Release) (d : Date) (i : Interval) : Exc bool :=
  b <- bounds r i ;;
  Ret ((fst b <=? d) && (d <=? snd b)).

(** [eachDayOfInterval({ start, end })] for [start <= end]: the start
    of every day from the day of [start] to the day of [end]. *)
Definition eachDayOfInterval (i : Interval) : list Date :=
  map (fun k => addDays (startOfDay (start i)) (Z.of_nat k))
      (seq 0 (Z.to_nat (dayNumber (end_ i) - dayNumber (start i) + 1))).

Definition digit (n : Z) : string :=
  String (ascii_of_nat (48 + Z.to_nat n)) EmptyString.

(** [format(date, 'h:mm a')] *)
Definition format_h_mm_a (d : Date) : string :=
  let h := getHours d in
  let h12 := if h mod 12 =? 0 then 12 else h mod 12 in
  let mi := getMinutes d in
  let hh := if h12 <? 10 then digit h12
            else append (digit (h12 / 10)) (digit (h12 mod 10)) in
  let mm := append (digit (mi / 10)) (digit (mi mod 10)) in
  let a := if h <? 12 then " AM"%string else " PM"%string in
  append hh (append ":" (append mm a)).

(** [date.setFullYear(year)], [date.setMonth(month)] and
    [date.setDate(day)]: the other calendar fields and the clock time are
    kept; a month outside 0..11 overflows into the years, a day outside
    the month into the months. *)
Definition setFullYear (d : Date) (year : Z) : Date :=
  newDate year (getMonth d) (getDate d) 0 0 0 0 + (d - startOfDay d).

Definition setMonth (d : Date) (month : Z) : Date :=
  newDate (getFullYear d) month (getDate d) 0 0 0 0 + (d - startOfDay d).

Definition setDate (d : Date) (day : Z) : Date :=
  newDate (getFullYear d) (getMonth d) day 0 0 0 0 + (d - startOfDay d).

(** [new Date(year, monthIndex, day)]: the constructor reads a year from
    0 to 99 as a year of the twentieth century. *)
Definition newDateYMD (year monthIndex day : Z) : Date :=
  newDate (if (0 <=? year) && (year <=? 99) then 1900 + year else year)
          monthIndex day 0 0 0 0.

(** [addMonths(date, amount)]: the same day of the month [amount] months
    on, or the last day of that month when it is shorter; the clock time
    is kept. *)
Definition addMonths (d : Date) (amount : Z) : Date :=
  if amount =? 0 then d
  else
    let dayOfMonth := getDate d in
    let clock := d - startOfDay d in
    let endOfDesiredMonth :=
      newDate (getFullYear d) (getMonth d + amount + 1) 0 0 0 0 0 + clock in
    let daysInMonth := getDate endOfDesiredMonth in
    if daysInMonth <=? dayOfMonth then endOfDesiredMonth
    else newDate (getFullYear endOfDesiredMonth) (getMonth endOfDesiredMonth)
                 dayOfMonth 0 0 0 0 + clock.

End DateFns.

Import DateFns.

(** ** shared/schema.ts *)

Module Schema.

(** A row of the [settings] table. The four settings columns are
    [text]: the table does not restrict them to the enumerations. *)
Record SettingsRow : Type := mkSettingsRow {
  row_id : Z;
  row_userId : option Z;
  row_theme : string;
  row_startOfWeek : string;
  row_timeFormat : string;
  row_eventDisplayMode : string
}.

(** [CalendarSettings] as the storage layer returns it: the values are
    cast to the literal types, not checked. *)
Record CalendarSettings : Type := mkSettings {
  theme : string;
  startOfWeek : string;
  timeFormat : string;
  eventDisplayMode : string
}.

(** [Partial<CalendarSettings>] as it arrives in a request body:
    [None] is an omitted field, a present field holds a JSON string
    (other JSON values are not modelled). *)
Record PartialSettings : Type := mkPartial {
  new_theme : option string;
  new_startOfWeek : option string;
  new_timeFormat : option string;
  new_eventDisplayMode : option string
}.

(** The closed enumerations of [calendarSettingsSchema]. *)
Definition themeEnum : list string := ["dark"; "light"]%string.
Definition startOfWeekEnum : list string := ["sunday"; "monday"]%string.
Definition timeFormatEnum : list string := ["12h"; "24h"]%string.
Definition eventDisplayModeEnum : list string :=
  ["dots"; "text"; "box"; "color"]%string.

Definition inEnum (enum : list string) (s : string) : bool :=
  existsb (String.eqb s) enum.

(** A row of the [events] table ([DbEvent]). *)
Record DbEvent : Type := mkDbEvent {
  db_id : Z;
  db_userId : option Z;
  db_title : string;
  db_description : option string;
  db_startDate : Date;
  db_endDate : Date;
  db_allDay : bool;
  db_color : option string;
  db_location : option string;
  db_notifications : option bool;
  db_createdAt : option Date;
  db_updatedAt : option Date
}.

(** The domain [Event]. *)
Record Event : Type := mkEvent {
  id : Z;
  userId : Z;
  title : string;
  description : option string;
  startDate : Date;
  endDate : Date;
  allDay : bool;
  color : string;
  location : option string;
  notifications : bool;
  createdAt : option Date;
  updatedAt : option Date
}.

(** [InsertEvent] *)
Record InsertEvent : Type := mkInsertEvent {
  ins_userId : option Z;
  ins_title : string;
  ins_description : option string;
  ins_startDate : Date;
  ins_endDate : Date;
  ins_allDay : option bool;
  ins_color : option string;
  ins_location : option string;
  ins_notifications : option bool
}.

(** [Partial<InsertEvent>] as [updateEvent] reads it. An outer [None] is
    a field left [undefined]; for the nullable columns an inner [None] is
    an explicit [null]. The colour is read with [||], for which
    [undefined], [null] and the empty string are alike. *)
Record PartialInsertEvent : Type := mkPartialInsertEvent {
  upd_title : option string;
  upd_description : option (option string);
  upd_startDate : option Date;
  upd_endDate : option Date;
  upd_allDay : option bool;
  upd_color : option string;
  upd_location : option (option string);
  upd_notifications : option (option bool)
}.

(** A row of the [users] table; [username] is unique. *)
Record UserRow : Type := mkUserRow {
  user_id : Z;
  username : string;
  password : string
}.

End Schema.

Import Schema.

(** ** JavaScript operators on the values the storage layer handles *)

Module Js.

(** [a || b] where [a] is a string: the empty string is falsy. *)
Definition strOr (a b : string) : string :=
  if String.eqb a "" then b else a.

(** [a || b] where [a] is an optional string. *)
Definition optStrOr (a : option string) (b : string) : string :=
  match a with
  | Some s => strOr s b
  | None => b
  end.

(** [a ?? b] *)
Definition nullish {A : Type} (a : option A) (b : A) : A :=
  match a with
  | Some x => x
  | None => b
  end.

(** [a || b] where [a] is an optional number: 0 is falsy. *)
Definition optNumOr (a : option Z) (b : Z) : Z :=
  match a with
  | Some n => if n =? 0 then b else n
  | None => b
  end.

(** [a || false] where [a] is an optional boolean. *)
Definition optBoolOr (a : option bool) (b : bool) : bool :=
  match a with
  | Some true => true
  | _ => b
  end.

(** Stable insertion sort, for [orderBy]. *)
Fixpoint insertBy {A : Type} (le : A -> A -> bool) (x : A) (l : list A) : list A :=
  match l with
  | [] => [x]
  | y :: ys => if le x y then x :: y :: ys else y :: insertBy le x ys
  end.

Definition sortBy {A : Type} (le : A -> A -> bool) (l : list A) : list A :=
  fold_right (insertBy le) [] l.

(** [Array.prototype.findIndex]: -1 when no element passes. *)
Fixpoint findIndex {A : Type} (p : A -> bool) (l : list A) : Z :=
  match l with
  | [] => -1
  | x :: rest =>
      if p x then 0
      else let i := findIndex p rest in if i =? -1 then -1 else i + 1
  end.

(** [Array.prototype.slice(from, to)] for [0 <= from <= to]. *)
Definition slice {A : Type} (l : list A) (from to : Z) : list A :=
  firstn (Z.to_nat (to - from)) (skipn (Z.to_nat from) l).

End Js.

Import Js.

(** ** server/storage.ts *)

Module Storage.

(** The three tables the storage layer reads and writes, with the
    [serial] sequences that number new rows of [settings] and [events]. *)
Record Db : Type := mkDb {
  users : list UserRow;
  settings : list SettingsRow;
  events : list DbEvent;
  settingsSeq : Z;
  eventsSeq : Z
}.

Definition defaultUserId : Z := 1.

(** A parameter declared [userId = this.defaultUserId]. *)
Definition orDefaultUser (userId : option Z) : Z :=
  match userId with
  | Some u => u
  | None => defaultUserId
  end.

(** SQL [eq(column, value)] on a nullable column: NULL matches nothing. *)
Definition eq (column : option Z) (value : Z) : bool :=
  match column with
  | Some c => c =? value
  | None => false
  end.

(** [userId: integer("user_id").references(() => users.id)], on
    [settings] and on [events]: a new row must name a stored user. *)
Definition userExists (userId : Z) (db : Db) : bool :=
  existsb (fun x => user_id x =? userId) (users db).

Definition toCalendarSettings (r : SettingsRow) : CalendarSettings :=
  {| theme := row_theme r;
     startOfWeek := row_startOfWeek r;
     timeFormat := row_timeFormat r;
     eventDisplayMode := strOr (row_eventDisplayMode r) "dots" |}.

Definition defaultSettings : CalendarSettings :=
  {| theme := "dark"; startOfWeek := "sunday";
     timeFormat := "12h"; eventDisplayMode := "dots" |}.

Definition getSettings (userId : option Z) (db : Db) : CalendarSettings :=
  let u := orDefaultUser userId in
  let userSettings := filter (fun r => eq (row_userId r) u) (settings db) in
  match userSettings with
  | setting :: _ => toCalendarSettings setting
  | [] => defaultSettings
  end.

Definition updateSettings (newSettings : PartialSettings) (userId : option Z)
    (db : Db) : Exc (Db * CalendarSettings) :=
  let u := orDefaultUser userId in
  let existingSettings := filter (fun r => eq (row_userId r) u) (settings db) in
  match existingSettings with
  | existing0 :: _ =>
      let set (r : SettingsRow) : SettingsRow :=
        {| row_id := row_id r;
           row_userId := row_userId r;
           row_theme := optStrOr (new_theme newSettings) (row_theme existing0);
           row_startOfWeek :=
             optStrOr (new_startOfWeek newSettings) (row_startOfWeek existing0);
           row_timeFormat :=
             optStrOr (new_timeFormat newSettings) (row_timeFormat existing0);
           row_eventDisplayMode :=
             optStrOr (new_eventDisplayMode newSettings)
                      (strOr (row_eventDisplayMode existing0) "dots") |} in
      let rows := map (fun r => if eq (row_userId r) u then set r else r)
                      (settings db) in
      let returning := filter (fun r => eq (row_userId r) u) rows in
      match returning with
      | updated :: _ =>
          Ret ({| users := users db; settings := rows; events := events db;
                  settingsSeq := settingsSeq db; eventsSeq := eventsSeq db |},
               toCalendarSettings updated)
      | [] => Throw TypeError
      end
  | [] =>
      let created :=
        {| row_id := settingsSeq db;
           row_userId := Some u;
           row_theme := optStrOr (new_theme newSettings) "dark";
           row_startOfWeek := optStrOr (new_startOfWeek newSettings) "sunday";
           row_timeFormat := optStrOr (new_timeFormat newSettings) "12h";
           row_eventDisplayMode :=
             optStrOr (new_eventDisplayMode newSettings) "dots" |} in
      if existsb (fun r => row_id r =? row_id created) (settings db)
      then Throw UniqueViolation
      else if negb (userExists u db) then Throw ForeignKeyViolation
      else
        Ret ({| users := users db;
                settings := settings db ++ [created]; events := events db;
                settingsSeq := settingsSeq db + 1; eventsSeq := eventsSeq db |},
             toCalendarSettings created)
  end.

Definition mapDbEventToEvent (dbEvent : DbEvent) : Exc Event :=
  match db_userId dbEvent with
  | None => Throw EventHasNoUserId
  | Some u =>
      Ret {| id := db_id dbEvent;
             userId := u;
             title := db_title dbEvent;
             description := db_description dbEvent;
             startDate := db_startDate dbEvent;
             endDate := db_endDate dbEvent;
             allDay := db_allDay dbEvent;
             color := nullish (db_color dbEvent) "#3498db";
             location := db_location dbEvent;
             notifications := nullish (db_notifications dbEvent) false;
             createdAt := db_createdAt dbEvent;
             updatedAt := db_updatedAt dbEvent |}
  end.

Definition getEvent (id : Z) (db : Db) : Exc (option Event) :=
  match filter (fun r => db_id r =? id) (events db) with
  | [] => Ret None
  | event :: _ => e <- mapDbEventToEvent event ;; Ret (Some e)
  end.

Definition getEvents (userId : option Z) (db : Db) : Exc (list Event) :=
  let u := orDefaultUser userId in
  let dbEvents :=
    sortBy (fun a b => db_startDate b <=? db_startDate a)
           (filter (fun r => eq (db_userId r) u) (events db)) in
  mapM mapDbEventToEvent dbEvents.

Definition getEventsByDateRange (start end_ : Date) (userId : option Z)
    (db : Db) : Exc (list Event) :=
  let u := orDefaultUser userId in
  let dbEvents :=
    sortBy (fun a b => db_startDate a <=? db_startDate b)
           (filter (fun r => eq (db_userId r) u
                             && (start <=? db_startDate r)
                             && (db_endDate r <=? end_))
                   (events db)) in
  mapM mapDbEventToEvent dbEvents.

(** [now] is the clock the database reads for [defaultNow()]. *)
Definition createEvent (event : InsertEvent) (now : Date) (db : Db)
    : Exc (Db * Event) :=
  let userId := optNumOr (ins_userId event) defaultUserId in
  let created :=
    {| db_id := eventsSeq db;
       db_userId := Some userId;
       db_title := ins_title event;
       db_description :=
         match ins_description event with
         | Some s => if String.eqb s "" then None else Some s
         | None => None
         end;
       db_startDate := ins_startDate event;
       db_endDate := ins_endDate event;
       db_allDay := optBoolOr (ins_allDay event) false;
       db_color := Some (optStrOr (ins_color event) "#3498db");
       db_location :=
         match ins_location event with
         | Some s => if String.eqb s "" then None else Some s
         | None => None
         end;
       db_notifications := Some (optBoolOr (ins_notifications event) false);
       db_createdAt := Some now;
       db_updatedAt := Some now |} in
  if existsb (fun r => db_id r =? db_id created) (events db)
  then Throw UniqueViolation
  else if negb (userExists userId db) then Throw ForeignKeyViolation
  else
    e <- mapDbEventToEvent created ;;
    Ret ({| users := users db;
            settings := settings db; events := events db ++ [created];
            settingsSeq := settingsSeq db; eventsSeq := eventsSeq db + 1 |}, e).

(** [now] is the clock read by [new Date()]. A field that is
    [undefined] in the object given to [set] leaves its column as it is. *)
Definition updateEvent (id : Z) (event : PartialInsertEvent) (now : Date)
    (db : Db) : Exc (Db * option Event) :=
  found <- getEvent id db ;;
  match found with
  | None => Ret (db, None)
  | Some existing =>
      let set (r : DbEvent) : DbEvent :=
        {| db_id := db_id r;
           db_userId := db_userId r;
           db_title := nullish (upd_title event) (title existing);
           db_description := nullish (upd_description event) (description existing);
           db_startDate := nullish (upd_startDate event) (startDate existing);
           db_endDate := nullish (upd_endDate event) (endDate existing);
           db_allDay := nullish (upd_allDay event) (allDay existing);
           db_color := Some (optStrOr (upd_color event) (color existing));
           db_location := nullish (upd_location event) (location existing);
           db_notifications :=
             nullish (upd_notifications event) (Some (notifications existing));
           db_createdAt := db_createdAt r;
           db_updatedAt := Some now |} in
      let rows := map (fun r => if db_id r =? id then set r else r) (events db) in
      match filter (fun r => db_id r =? id) rows with
      | updated :: _ =>
          e <- mapDbEventToEvent updated ;;
          Ret ({| users := users db; settings := settings db; events := rows;
                  settingsSeq := settingsSeq db; eventsSeq := eventsSeq db |},
               Some e)
      | [] => Throw TypeError
      end
  end.

Definition deleteEvent (id : Z) (db : Db) : Db * bool :=
  let result := filter (fun r => db_id r =? id) (events db) in
  ({| users := users db; settings := settings db;
      events := filter (fun r => negb (db_id r =? id)) (events db);
      settingsSeq := settingsSeq db; eventsSeq := eventsSeq db |},
   (0 <? List.length result)%nat).

(** [initializeDatabase]. The insert into [users] names its id and ends
    in [onConflictDoNothing]: it adds no row when the id or the user name
    is taken. *)
Definition initializeDatabase (db : Db) : Exc Db :=
  let defaultUser := filter (fun u => user_id u =? defaultUserId) (users db) in
  if (List.length defaultUser =? 0)%nat then
    let users' :=
      if existsb (fun u => (user_id u =? defaultUserId)
                           || String.eqb (username u) "default") (users db)
      then users db
      else users db ++ [ {| user_id := defaultUserId; username := "default";
                            password := "defaultpassword" |} ] in
    updated <- updateSettings
                 {| new_theme := Some "dark"; new_startOfWeek := Some "sunday";
                    new_timeFormat := Some "12h"; new_eventDisplayMode := None |}
                 None
                 {| users := users'; settings := settings db; events := events db;
                    settingsSeq := settingsSeq db; eventsSeq := eventsSeq db |} ;;
    Ret (fst updated)
  else Ret db.

End Storage.

(** ** server/routes.ts *)

Module Routes.

Inductive Response (A : Type) : Type :=
| Json (status : Z) (body : A)
| Failed (status : Z).

Arguments Json {A} status body.
Arguments Failed {A} status.

(** [app.get("/api/settings")] *)
Definition getSettingsRoute (userId : option Z) (db : Storage.Db)
    : Response CalendarSettings :=
  Json 200 (Storage.getSettings userId db).

(** [app.post("/api/settings")]: the body goes to [updateSettings] as it
    is; [calendarSettingsSchema] is imported and not applied. *)
Definition postSettingsRoute (body : PartialSettings) (userId : option Z)
    (db : Storage.Db) : Storage.Db * Response CalendarSettings :=
  match Storage.updateSettings body userId db with
  | Ret (db', updatedSettings) => (db', Json 200 updatedSettings)
  | Throw _ => (db, Failed 500)
  end.

(** [app.get("/api/events")] after the query string has been parsed:
    [range] holds the two dates when both [start] and [end] are given. *)
Definition getEventsRoute (range : option (Date * Date)) (userId : option Z)
    (db : Storage.Db) : Response (list Event) :=
  match range with
  | Some (startDate, endDate) =>
      match Storage.getEventsByDateRange startDate endDate userId db with
      | Ret events => Json 200 events
      | Throw _ => Failed 500
      end
  | None =>
      match Storage.getEvents userId db with
      | Ret events => Json 200 events
      | Throw _ => Failed 500
      end
  end.

(** The routes on one event. [id] is [None] when [parseInt] of the path
    parameter is NaN. *)

(** [app.get("/api/events/:id")] *)
Definition getEventRoute (id : option Z) (db : Storage.Db) : Response Event :=
  match id with
  | None => Failed 400
  | Some id =>
      match Storage.getEvent id db with
      | Ret (Some event) => Json 200 event
      | Ret None => Failed 404
      | Throw _ => Failed 500
      end
  end.

(** [app.put("/api/events/:id")], for a body whose dates parse. *)
Definition putEventRoute (id : option Z) (body : PartialInsertEvent)
    (now : Date) (db : Storage.Db) : Storage.Db * Response Event :=
  match id with
  | None => (db, Failed 400)
  | Some id =>
      match Storage.updateEvent id body now db with
      | Ret (db', Some updatedEvent) => (db', Json 200 updatedEvent)
      | Ret (db', None) => (db', Failed 404)
      | Throw _ => (db, Failed 500)
      end
  end.

(** [app.delete("/api/events/:id")]; the answer is its status, 204
    carries no body. *)
Definition deleteEventRoute (id : option Z) (db : Storage.Db) : Storage.Db * Z :=
  match id with
  | None => (db, 400)
  | Some id =>
      let (db', success) := Storage.deleteEvent id db in
      if success then (db', 204) else (db', 404)
  end.

End Routes.

(** ** client/src/hooks/useCalendar.ts *)

Module UseCalendar.

Inductive CalendarViewType : Type := year | month | week | day.

(** [dateRange]: the window whose events the hook fetches. The hook has
    no access to the stored settings; the week always starts on day 0. *)
Definition dateRange (currentDate : Date) (view : CalendarViewType) : Interval :=
  match view with
  | year =>
      {| start := startOfYear currentDate; end_ := endOfYear currentDate |}
  | month =>
      {| start := startOfMonth currentDate; end_ := endOfMonth currentDate |}
  | week =>
      {| start := DateFns.startOfWeek currentDate 0;
         end_ := endOfWeek currentDate 0 |}
  | day =>
      {| start := startOfDay currentDate; end_ := endOfDay currentDate |}
  end.

(** [handlePrevious] and [handleNext]: the date the hook moves to. *)
Definition handlePrevious (view : CalendarViewType) (prevDate : Date) : Date :=
  match view with
  | year => newDateYMD (getFullYear prevDate - 1) 0 1
  | month => addMonths prevDate (-1)
  | week => addDays prevDate (-7)
  | day => addDays prevDate (-1)
  end.

Definition handleNext (view : CalendarViewType) (prevDate : Date) : Date :=
  match view with
  | year => newDateYMD (getFullYear prevDate + 1) 0 1
  | month => addMonths prevDate 1
  | week => addDays prevDate 7
  | day => addDays prevDate 1
  end.

End UseCalendar.

(** ** The calendar page (the component [Calendar]) *)

Module CalendarPage.

Import UseCalendar.

(** [getDateRange] *)
Definition getDateRange (currentDate : Date) (view : CalendarViewType) : Interval :=
  match view with
  | year =>
      {| start := startOfYear currentDate; end_ := endOfYear currentDate |}
  | month =>
      {| start := startOfMonth currentDate; end_ := endOfMonth currentDate |}
  | week =>
      {| start := DateFns.startOfWeek currentDate 0;
         end_ := endOfWeek currentDate 0 |}
  | day =>
      {| start := startOfDay currentDate; end_ := endOfDay currentDate |}
  end.

(** [handlePrevious] and [handleNext]: a copy of the date, moved with the
    setters of [Date]. *)
Definition handlePrevious (view : CalendarViewType) (prevDate : Date) : Date :=
  match view with
  | year => setFullYear prevDate (getFullYear prevDate - 1)
  | month => setMonth prevDate (getMonth prevDate - 1)
  | week => setDate prevDate (getDate prevDate - 7)
  | day => setDate prevDate (getDate prevDate - 1)
  end.

Definition handleNext (view : CalendarViewType) (prevDate : Date) : Date :=
  match view with
  | year => setFullYear prevDate (getFullYear prevDate + 1)
  | month => setMonth prevDate (getMonth prevDate + 1)
  | week => setDate prevDate (getDate prevDate + 7)
  | day => setDate prevDate (getDate prevDate + 1)
  end.

End CalendarPage.

(** ** The timed layout of DayView.tsx and WeekView.tsx *)

Module Layout.

(** An event with its position on the 24-hour axis of one day. *)
Record PositionedEvent : Type := mkPositioned {
  event : Event;
  topPercentage : Q;
  heightPercentage : Q;
  displayStartTime : string;
  displayEndTime : string
}.

(** The callback both views map over the timed events is the same text
    (the day is [currentDate] in DayView and [day] in WeekView). *)

Definition startMinutes (day : Date) (e : Event) : Z :=
  let eventStart := startDate e in
  let dayStart := startOfDay day in
  let eventStartHour :=
    setHours dayStart
      (if isSameDay eventStart day then getHours eventStart else 0)
      (if isSameDay eventStart day then getMinutes eventStart else 0) in
  getHours eventStartHour * 60 + getMinutes eventStartHour.

Definition durationMinutes (day : Date) (e : Event) : Z :=
  let eventStart := startDate e in
  let eventEnd := endDate e in
  if negb (isSameDay eventStart eventEnd)
  then differenceInMinutes (endOfDay day) eventStart
  else differenceInMinutes eventEnd eventStart.

Definition positionEvent (day : Date) (e : Event) : PositionedEvent :=
  let topPercentage := (inject_Z (startMinutes day e) / (24 * 60) * 100)%Q in
  let heightPercentage := (inject_Z (durationMinutes day e) / (24 * 60) * 100)%Q in
  {| event := e;
     topPercentage := topPercentage;
     heightPercentage := Qmax heightPercentage 1;
     displayStartTime := format_h_mm_a (startDate e);
     displayEndTime := format_h_mm_a (endDate e) |}.

Definition dayWindow (day : Date) : Interval :=
  {| start := startOfDay day; end_ := endOfDay day |}.

Definition eventInterval (e : Event) : Interval :=
  {| start := startDate e; end_ := endDate e |}.

End Layout.

Import Layout.

Module DayView.

(** [allDayEvents] *)
Definition allDayEvents (r : Release) (currentDate : Date) (events : list Event)
    : Exc (list Event) :=
  filterM (fun event =>
             if allDay event
             then isWithinInterval r currentDate (eventInterval event)
             else Ret false)
          events.

(** [processedEvents]: position every timed event, then keep those that
    overlap the day. *)
Definition processedEvents (r : Release) (currentDate : Date)
    (events : list Event) : Exc (list PositionedEvent) :=
  let timedEvents := filter (fun event => negb (allDay event)) events in
  filterM (fun p =>
             areIntervalsOverlapping r (dayWindow currentDate)
                                     (eventInterval (event p)))
          (map (positionEvent currentDate) timedEvents).

End DayView.

Module WeekView.

(** [weekDays]: [startOfWeek]/[endOfWeek] with the locale's default
    first day, Sunday. *)
Definition weekDays (currentDate : Date) : list Date :=
  eachDayOfInterval {| start := DateFns.startOfWeek currentDate 0;
                       end_ := endOfWeek currentDate 0 |}.

(** The timed events of one day of the week, positioned. *)
Definition processedDayEvents (r : Release) (day : Date) (events : list Event)
    : Exc (list PositionedEvent) :=
  dayEvents <- filterM (fun event =>
                          if allDay event then Ret false
                          else areIntervalsOverlapping r (dayWindow day)
                                                       (eventInterval event))
                       events ;;
  Ret (map (positionEvent day) dayEvents).

(** [processedEvents]: the map from each day of the week to its
    positioned events; the key is the day (the source formats it as
    yyyy-MM-dd). *)
Definition processedEvents (r : Release) (currentDate : Date)
    (events : list Event) : Exc (list (Date * list PositionedEvent)) :=
  mapM (fun day =>
          processedDayEvents <- processedDayEvents r day events ;;
          Ret (day, processedDayEvents))
       (weekDays currentDate).

(** [getAllDayEventsForDay] *)
Definition getAllDayEventsForDay (r : Release) (day : Date)
    (events : list Event) : Exc (list Event) :=
  filterM (fun event =>
             if allDay event
             then areIntervalsOverlapping r (dayWindow day) (eventInterval event)
             else Ret false)
          events.

(** [displayDays]: all seven days, or on a narrow screen three of them
    around today ([today] is the date [new Date()] returns). *)
Definition displayDays (isMobile : bool) (today : Date) (weekDays : list Date)
    : list Date :=
  if negb isMobile then weekDays
  else
    let todayIndex := findIndex (fun day => isSameDay day today) weekDays in
    if negb (todayIndex =? -1) then
      let startIndex :=
        Z.max 0 (Z.min (todayIndex - 1) (Z.of_nat (List.length weekDays) - 3)) in
      slice weekDays startIndex (startIndex + 3)
    else slice weekDays 0 3.

End WeekView.

(** ** MonthView.tsx and YearView.tsx *)

Module MonthView.

(** [calendarDays]: the days of the month, with the days before and
    after it that complete its first and last week. *)
Definition calendarDays (currentDate : Date) : list Date :=
  let monthStart := startOfMonth currentDate in
  let monthEnd := endOfMonth currentDate in
  let calendarStart := DateFns.startOfWeek monthStart 0 in
  let calendarEnd := endOfWeek monthEnd 0 in
  eachDayOfInterval {| start := calendarStart; end_ := calendarEnd |}.

(** The loop of [calendarWeeks]: [week] collects days and is pushed onto
    [weeks] after a Saturday and after the last day. *)
Fixpoint groupWeeks (days week : list Date) (weeks : list (list Date))
    : list (list Date) :=
  match days with
  | [] => weeks
  | d :: rest =>
      let week' := week ++ [d] in
      if (getDay d =? 6) || (match rest with [] => true | _ :: _ => false end)
      then groupWeeks rest [] (weeks ++ [week'])
      else groupWeeks rest week' weeks
  end.

Definition calendarWeeks (calendarDays : list Date) : list (list Date) :=
  groupWeeks calendarDays [] [].

(** [getEventsForDay]: every event, all-day or timed, that overlaps. *)
Definition getEventsForDay (r : Release) (day : Date) (events : list Event)
    : Exc (list Event) :=
  filterM (fun event =>
             areIntervalsOverlapping r (dayWindow day) (eventInterval event))
          events.

End MonthView.

Module YearView.

(** [months]: the first day of each of the twelve months of
    [currentYear]. *)
Definition months (currentDate : Date) : list Date :=
  let currentYear := getFullYear currentDate in
  map (fun i => newDateYMD currentYear i 1) [0; 1; 2; 3; 4; 5; 6; 7; 8; 9; 10; 11].

(** [getDaysInMonth]: the days of the month in a grid of seven columns;
    [None] is an empty cell. *)
Definition getDaysInMonth (date : Date) : list (option Date) :=
  let monthStart := startOfMonth date in
  let monthEnd := endOfMonth date in
  let days := eachDayOfInterval {| start := monthStart; end_ := monthEnd |} in
  let startDay := getDay monthStart in
  let calendarDays := repeat None (Z.to_nat startDay) ++ map Some days in
  let remaining := (7 - Z.of_nat (List.length calendarDays) mod 7) mod 7 in
  calendarDays ++ repeat None (Z.to_nat remaining).

(** [getEventsForMonth] *)
Definition getEventsForMonth (r : Release) (month : Date) (events : list Event)
    : Exc (list Event) :=
  filterM (fun event =>
             areIntervalsOverlapping r
               {| start := startOfMonth month; end_ := endOfMonth month |}
               (eventInterval event))
          events.

(** [getEventsForDay]; [None] is an empty cell of the grid. *)
Definition getEventsForDay (r : Release) (day : option Date)
    (events : list Event) : Exc (list Event) :=
  match day with
  | None => Ret []
  | Some day =>
      filterM (fun event =>
                 areIntervalsOverlapping r (dayWindow day) (eventInterval event))
              events
  end.

End YearView.

(** ** lib/utils.ts *)

Module Utils.

Record TimeSlot : Type := mkTimeSlot {
  hour : Z;
  minute : Z;
  label : string
}.

(** [n.toString()] for an integer. *)
Definition toString (n : Z) : string :=
  DecimalString.NilZero.string_of_int (Z.to_int n).

(** [s.padStart(2, "0")] *)
Definition padStart2 (s : string) : string :=
  match s with
  | EmptyString => "00"
  | String c EmptyString => String "0" (String c EmptyString)
  | _ => s
  end.

(** [formatTimeSlot]; [%] is the remainder that takes the sign of the
    hour. *)
Definition formatTimeSlot (hour minute : Z) : string :=
  let period := if 12 <=? hour then "PM" else "AM" in
  let displayHour := if Z.rem hour 12 =? 0 then 12 else Z.rem hour 12 in
  let displayMinute := padStart2 (toString minute) in
  append (toString displayHour)
         (append ":" (append displayMinute (append " " period))).

(** The inner loop of [generateTimeSlots], from minute [min] on. [fuel]
    bounds the number of tests of the loop condition; [None] is a loop
    that has not ended when the fuel runs out. *)
Fixpoint minuteLoop (fuel : nat) (hour endHour intervalMinutes min : Z)
    (slots : list TimeSlot) : option (list TimeSlot) :=
  match fuel with
  | O => None
  | S fuel' =>
      if min <? 60 then
        if (hour =? endHour) && (0 <? min) then Some slots
        else minuteLoop fuel' hour endHour intervalMinutes (min + intervalMinutes)
               (slots ++ [ {| hour := hour; minute := min;
                              label := formatTimeSlot hour min |} ])
      else Some slots
  end.

(** The outer loop, over the hours [hour], [hour + 1], ... that remain. *)
Fixpoint hourLoop (fuel : nat) (remaining : nat) (hour endHour intervalMinutes : Z)
    (slots : list TimeSlot) : option (list TimeSlot) :=
  match remaining with
  | O => Some slots
  | S remaining' =>
      match minuteLoop fuel hour endHour intervalMinutes 0 slots with
      | Some slots' =>
          hourLoop fuel remaining' (hour + 1) endHour intervalMinutes slots'
      | None => None
      end
  end.

(** [generateTimeSlots(startHour, endHour, intervalMinutes)] *)
Definition generateTimeSlots (fuel : nat) (startHour endHour intervalMinutes : Z)
    : option (list TimeSlot) :=
  hourLoop fuel (Z.to_nat (endHour - startHour + 1)) startHour endHour
           intervalMinutes [].

End Utils.

(** * Properties *)

(** ** Dates used in the examples *)

Definition timedEvent (i : Z) (s e : Date) : Event :=
  {| id := i; userId := 1; title := "event"; description := None;
     startDate := s; endDate := e; allDay := false; color := "#3498db";
     location := None; notifications := false;
     createdAt := None; updatedAt := None |}.

Definition eventRow (i : Z) (u : option Z) (s e : Date) (a : bool) : DbEvent :=
  {| db_id := i; db_userId := u; db_title := "event"; db_description := None;
     db_startDate := s; db_endDate := e; db_allDay := a; db_color := None;
     db_location := None; db_notifications := None;
     db_createdAt := None; db_updatedAt := None |}.

(** The rows of [users] the examples need. *)
Definition defaultUser : UserRow := mkUserRow 1 "default" "defaultpassword".
Definition secondUser : UserRow := mkUserRow 2 "second" "secondpassword".

Definition dbOfEvents (rows : list DbEvent) : Storage.Db :=
  {| Storage.users := [defaultUser];
     Storage.settings := []; Storage.events := rows;
     Storage.settingsSeq := 1; Storage.eventsSeq := 1 + Z.of_nat (List.length rows) |}.

(** ** The statements of the specification, as predicates *)

(** Half-open overlap of an event with the window [start, end). *)
Definition overlapsHalfOpen (start end_ : Date) (e : Event) : bool :=
  (startDate e <? end_) && (start <? endDate e).

(** The floor under which no rendered height falls. *)
Definition MIN_VISIBLE_HEIGHT : Q := 1.

(** Steps 2, 3, 5 and 7 of the layout algorithm of the specification:
    the event cut to the day, the minutes it lasts on the day, and its
    height. *)
Definition specEffectiveStart (day : Date) (e : Event) : Date :=
  Z.max (startDate e) (startOfDay day).

Definition specEffectiveEnd (day : Date) (e : Event) : Date :=
  Z.min (endDate e) (endOfDay day).

Definition specDurationMinutes (day : Date) (e : Event) : Q :=
  (inject_Z (specEffectiveEnd day e - specEffectiveStart day e)
   / inject_Z MS_PER_MINUTE)%Q.

Definition specHeightPercentage (day : Date) (e : Event) : Q :=
  Qmax (specDurationMinutes day e / 1440 * 100) MIN_VISIBLE_HEIGHT.

(** The day of the week a [startOfWeek] setting names. *)
Definition weekStartDay (setting : string) : Z :=
  if String.eqb setting "monday" then 1 else 0.

(** [w] is the week of [anchor] for weeks that begin on [firstDay]: it
    starts at midnight of the latest such day at or before the anchor and
    ends with the last millisecond of the sixth day after. *)
Definition resolvesWeek (firstDay : Z) (anchor : Date) (w : Interval) : Prop :=
  getDay (start w) = firstDay /\
  start w = startOfDay (start w) /\
  start w <= anchor < start w + 7 * MS_PER_DAY /\
  end_ w = endOfDay (addDays (start w) 6).

(** The event lies inside the day and lasts a positive time. *)
Definition fullyInside (day : Date) (e : Event) : Prop :=
  startOfDay day <= startDate e /\
  endDate e <= endOfDay day /\
  startDate e < endDate e.

(** A field of a partial update that is present holds a non-empty string
    (every member of the four enumerations does). *)
Definition presentNonEmpty (o : option string) : Prop := o <> Some "".

Definition wellFormedPartial (p : PartialSettings) : Prop :=
  presentNonEmpty (new_theme p) /\
  presentNonEmpty (new_startOfWeek p) /\
  presentNonEmpty (new_timeFormat p) /\
  presentNonEmpty (new_eventDisplayMode p).

(** The user has a row of settings. *)
Definition hasSettingsRow (u : Z) (db : Storage.Db) : Prop :=
  exists r, In r (Storage.settings db) /\ Storage.eq (row_userId r) u = true.

(** A first row of settings can be inserted for the user: the user is
    stored and the next id of the sequence is unused. *)
Definition canInsertSettings (u : Z) (db : Storage.Db) : Prop :=
  Storage.userExists u db = true /\
  ~ In (Storage.settingsSeq db) (map row_id (Storage.settings db)).

Definition canStoreSettings (u : Z) (db : Storage.Db) : Prop :=
  hasSettingsRow u db \/ canInsertSettings u db.

(** The merge of a partial update over a base: present fields override. *)
Definition mergeSettings (base : CalendarSettings) (p : PartialSettings)
    : CalendarSettings :=
  {| theme := nullish (new_theme p) (theme base);
     startOfWeek := nullish (new_startOfWeek p) (startOfWeek base);
     timeFormat := nullish (new_timeFormat p) (timeFormat base);
     eventDisplayMode :=
       nullish (new_eventDisplayMode p) (eventDisplayMode base) |}.

(** The settings columns of a row are replaced, its key columns kept. *)
Definition withSettings (s : CalendarSettings) (r : SettingsRow) : SettingsRow :=
  {| row_id := row_id r; row_userId := row_userId r;
     row_theme := theme s; row_startOfWeek := startOfWeek s;
     row_timeFormat := timeFormat s;
     row_eventDisplayMode := eventDisplayMode s |}.

Definition ownedBy (u : Z) (r : SettingsRow) : bool := Storage.eq (row_userId r) u.

(** A number of minutes as a percentage of the 24-hour axis. *)
Definition percentOfDay (minutes : Z) : Q := (inject_Z minutes / (24 * 60) * 100)%Q.

(** The overlap test both views apply to an event and a day. *)
Definition overlapsDay (r : Release) (day : Date) (e : Event) : Exc bool :=
  areIntervalsOverlapping r (dayWindow day) (eventInterval e).

(** Two users, a settings table with one row for user 1, and two partial
    updates. *)
Definition storedDark : Storage.Db :=
  {| Storage.users := [defaultUser; secondUser];
     Storage.settings := [mkSettingsRow 1 (Some 1) "dark" "sunday" "12h" "dots"];
     Storage.events := [];
     Storage.settingsSeq := 2;
     Storage.eventsSeq := 1 |}.

Definition themeLight : PartialSettings := mkPartial (Some "light") None None None.
Definition themePurple : PartialSettings := mkPartial (Some "purple") None None None.

(** Days and events used in the examples. *)
Definition jan1 : Date := newDate 2024 0 1 0 0 0 0.
Definition jan2 : Date := newDate 2024 0 2 0 0 0 0.

Definition overnight : Event :=
  timedEvent 1 (newDate 2024 0 1 22 0 0 0) (newDate 2024 0 2 2 0 0 0).
Definition lateShort : Event :=
  timedEvent 2 (newDate 2024 0 1 23 55 0 0) (newDate 2024 0 1 23 58 0 0).
Definition oneMinute : Event :=
  timedEvent 3 (newDate 2024 0 1 10 0 0 0) (newDate 2024 0 1 10 1 0 0).
Definition zeroLength : Event :=
  timedEvent 4 (newDate 2024 0 1 10 0 0 0) (newDate 2024 0 1 10 0 0 0).
Definition meeting : Event :=
  timedEvent 5 (newDate 2024 0 1 9 0 0 0) (newDate 2024 0 1 10 30 0 0).

Definition zeroLengthRow : DbEvent :=
  eventRow 4 (Some 1) (newDate 2024 0 1 10 0 0 0) (newDate 2024 0 1 10 0 0 0) false.

(** An event flagged all-day whose dates carry office hours, 09:00 to
    17:00 on 2024-03-15. *)
Definition officeHours : Event :=
  {| id := 6; userId := 1; title := "event"; description := None;
     startDate := newDate 2024 2 15 9 0 0 0;
     endDate := newDate 2024 2 15 17 0 0 0;
     allDay := true; color := "#3498db";
     location := None; notifications := false;
     createdAt := None; updatedAt := None |}.

(** The event spans whole days, from a midnight to the last millisecond
    of a day, as the event form builds all-day events. *)
Definition wholeDays (e : Event) : Prop :=
  startDate e = startOfDay (startDate e) /\
  endDate e = endOfDay (endDate e) /\
  startDate e <= endDate e.

(** Every stored event has an id below the next value of the sequence. *)
Definition idsBelowSeq (db : Storage.Db) : Prop :=
  Forall (fun r => db_id r < Storage.eventsSeq db) (Storage.events db).

(** A partial update as the [||] of [updateSettings] reads it: a present
    empty string counts as omitted. *)
Definition applyPartial (base : CalendarSettings) (p : PartialSettings)
    : CalendarSettings :=
  {| theme := optStrOr (new_theme p) (theme base);
     startOfWeek := optStrOr (new_startOfWeek p) (startOfWeek base);
     timeFormat := optStrOr (new_timeFormat p) (timeFormat base);
     eventDisplayMode :=
       optStrOr (new_eventDisplayMode p) (eventDisplayMode base) |}.

(** No user has two rows of settings. *)
Definition oneRowPerUser (db : Storage.Db) : Prop :=
  forall u, (List.length (filter (ownedBy u) (Storage.settings db)) <= 1)%nat.

Definition newestFirst (a b : Event) : Prop := startDate b <= startDate a.
Definition oldestFirst (a b : Event) : Prop := startDate a <= startDate b.

(** A database that holds the zero-length event under id 4, the
    sequence standing at 5, and the settings row of [storedDark]. *)
Definition oneEventDb : Storage.Db :=
  {| Storage.users := Storage.users storedDark;
     Storage.settings := Storage.settings storedDark;
     Storage.events := [zeroLengthRow];
     Storage.settingsSeq := 2;
     Storage.eventsSeq := 5 |}.

Definition standup : InsertEvent :=
  mkInsertEvent None "standup" None (newDate 2024 0 1 9 0 0 0)
                (newDate 2024 0 1 9 15 0 0) None None None None.

(** The calendar algorithm counts years from 1 March. [marchMonth] is
    the month 1..12 of the month [mp] = 0..11 after March, [marchYear]
    the year it falls in, [marchDays] the day number of 1 March of year
    [yoe] of the 400-year era [era]. *)
Definition marchMonth (mp : Z) : Z := if mp <? 10 then mp + 3 else mp - 9.

Definition marchYear (era yoe mp : Z) : Z :=
  if marchMonth mp <=? 2 then yoe + era * 400 + 1 else yoe + era * 400.

Definition marchDays (era yoe : Z) : Z :=
  era * 146097 + (yoe * 365 + yoe / 4 - yoe / 100) - 719468.

(** 1 when the year that ends the March year [yoe] is a leap year. *)
Definition leapAfter (yoe : Z) : Z :=
  if (yoe + 1) mod 4 =? 0
  then if (yoe + 1) mod 100 =? 0
       then if (yoe + 1) mod 400 =? 0 then 1 else 0
       else 1
  else 0.

(** The number of days a view's window spans. *)
Definition windowDays (view : UseCalendar.CalendarViewType) (n : Z) : Prop :=
  match view with
  | UseCalendar.year => n = 365 \/ n = 366
  | UseCalendar.month => 28 <= n <= 31
  | UseCalendar.week => n = 7
  | UseCalendar.day => n = 1
  end.

Ltac edlia := Z.to_euclidean_division_equations; lia.

(** The seven days of week [i] counted from the day [s]. *)
Definition weekFrom (s : Date) (i : Z) : list Date :=
  map (fun k => addDays s (7 * i + k)) [0; 1; 2; 3; 4; 5; 6].

(** The dates of a grid, without its empty cells. *)
Definition datesOf (cells : list (option Date)) : list Date :=
  flat_map (fun c => match c with Some d => [d] | None => [] end) cells.

(** The day number of the first day of month [M], months counted from
    January of year 0. *)
Definition monthStart (M : Z) : Z := daysFromCivil (M / 12) (M mod 12 + 1) 1.

(** The month a date lies in, counted from January of year 0. *)
Definition monthOf (d : Date) : Z := 12 * getFullYear d + getMonth d.

(** The year the [Date] constructor makes of a year. *)
Definition constructedYear (y : Z) : Z :=
  if (0 <=? y) && (y <=? 99) then 1900 + y else y.

(** Goals about days, hours and minutes reduce to linear arithmetic over
    the quotients and remainders of the three constants. *)
Ltac day_unfold :=
  unfold isSameDay, endOfDay, startOfDay, setHours, addDays, dayNumber, getDay,
    getHours, getMinutes, differenceInMinutes,
    MS_PER_DAY, MS_PER_HOUR, MS_PER_MINUTE in *.

Ltac day_arith := day_unfold; Z.to_euclidean_division_equations; lia.

(** ** The calendar functions on known dates *)

Example date_2024_03_15 :
  let d := newDate 2024 2 15 14 30 0 0 in
  (getFullYear d, getMonth d, getDate d, getDay d, getHours d, getMinutes d)
  = (2024, 2, 15, 5, 14, 30).
Proof. vm_compute. reflexivity. Qed.

Example format_example :
  format_h_mm_a (newDate 2024 0 1 22 5 0 0) = "10:05 PM"%string.
Proof. vm_compute. reflexivity. Qed.

Example month_of_2024_03_15 :
  let d := newDate 2024 2 15 14 30 0 0 in
  startOfMonth d = newDate 2024 2 1 0 0 0 0 /\
  endOfMonth d = newDate 2024 2 31 23 59 59 999 /\
  startOfYear d = newDate 2024 0 1 0 0 0 0 /\
  endOfYear d = newDate 2024 11 31 23 59 59 999.
Proof. vm_compute. repeat split. Qed.

(** ** Lists, sorting and the exception monad *)

Lemma In_insertBy {A : Type} (le : A -> A -> bool) (a x : A) (l : list A) :
  In x (insertBy le a l) <-> x = a \/ In x l.
Proof.
  induction l as [|y ys IH]; simpl.
  - intuition congruence.
  - destruct (le a y); simpl; rewrite ?IH; intuition congruence.
Qed.

Lemma In_sortBy {A : Type} (le : A -> A -> bool) (x : A) (l : list A) :
  In x (sortBy le l) <-> In x l.
Proof.
  induction l as [|y ys IH]; simpl.
  - tauto.
  - rewrite In_insertBy, IH. intuition congruence.
Qed.

Lemma Forall_sortBy {A : Type} (le : A -> A -> bool) (P : A -> Prop) (l : list A) :
  Forall P l -> Forall P (sortBy le l).
Proof.
  rewrite !Forall_forall. intros H x Hx. apply H. now apply In_sortBy in Hx.
Qed.

Lemma filterM_ext {A : Type} (p q : A -> Exc bool) (l : list A) :
  (forall x, In x l -> p x = q x) -> filterM p l = filterM q l.
Proof.
  induction l as [|x xs IH]; simpl; intros H; [reflexivity|].
  rewrite (H x) by now left. rewrite IH by (intros; apply H; now right).
  reflexivity.
Qed.

(** ** Storage: reading events *)

Lemma mapDbEventToEvent_owned (u : Z) (r : DbEvent) :
  db_userId r = Some u ->
  exists e, Storage.mapDbEventToEvent r = Ret e /\ userId e = u /\
            id e = db_id r /\ startDate e = db_startDate r /\
            endDate e = db_endDate r /\ allDay e = db_allDay r.
Proof.
  intros H. unfold Storage.mapDbEventToEvent. rewrite H.
  eexists. split; [reflexivity|]. simpl. repeat split.
Qed.

(** Mapping rows that all have an owner never throws, and every event of
    the result comes from a row. *)
Lemma mapM_mapDbEventToEvent (u : Z) (rows : list DbEvent) :
  Forall (fun r => db_userId r = Some u) rows ->
  exists l, mapM Storage.mapDbEventToEvent rows = Ret l /\
            forall e, In e l <->
                      exists r, In r rows /\ Storage.mapDbEventToEvent r = Ret e.
Proof.
  induction 1 as [|r rs Hr _ IH]; simpl.
  - exists []. split; [reflexivity|].
    intros e; split; [intros []|intros (r & [] & _)].
  - destruct (mapDbEventToEvent_owned u r Hr) as (e0 & He0 & _).
    destruct IH as (l & Hl & Hin). rewrite He0, Hl. simpl.
    exists (e0 :: l). split; [reflexivity|].
    intros e; simpl; rewrite Hin. split.
    + intros [<-|(r' & Hr' & He)]; [exists r; auto | exists r'; auto].
    + intros (r' & [<-|Hr'] & He); [left; congruence | right; exists r'; auto].
Qed.

Lemma eq_true_iff (c : option Z) (u : Z) : Storage.eq c u = true <-> c = Some u.
Proof.
  destruct c as [c|]; simpl; [|split; discriminate].
  rewrite Z.eqb_eq. split; congruence.
Qed.

(** What the range query returns: the user's events contained in the
    closed window, nothing else, and it does not throw. *)
Lemma getEventsByDateRange_contained (start end_ : Date) (userId : option Z)
    (db : Storage.Db) :
  exists l, Storage.getEventsByDateRange start end_ userId db = Ret l /\
    forall e, In e l <->
      exists r, In r (Storage.events db) /\
                Storage.mapDbEventToEvent r = Ret e /\
                Schema.userId e = Storage.orDefaultUser userId /\
                start <= startDate e /\ endDate e <= end_.
Proof.
  unfold Storage.getEventsByDateRange.
  set (u := Storage.orDefaultUser userId).
  set (keep := fun r : DbEvent => (Storage.eq _ _ && _ && _)%bool).
  destruct (mapM_mapDbEventToEvent u
              (sortBy (fun a b => db_startDate a <=? db_startDate b)
                      (filter keep (Storage.events db)))) as (l & Hl & Hin).
  { apply Forall_sortBy, Forall_forall. intros r Hr.
    apply filter_In in Hr. destruct Hr as [_ Hr]. subst keep. simpl in Hr.
    apply andb_true_iff in Hr. destruct Hr as [Hr _].
    apply andb_true_iff in Hr. destruct Hr as [Hr _].
    now apply eq_true_iff. }
  exists l. split; [exact Hl|].
  intros e. rewrite Hin. split.
  - intros (r & Hr & He). apply In_sortBy, filter_In in Hr.
    destruct Hr as [Hr Hk]. subst keep. simpl in Hk.
    rewrite !andb_true_iff, eq_true_iff, !Z.leb_le in Hk.
    destruct Hk as [[Hu Hs] Hend].
    destruct (mapDbEventToEvent_owned u r Hu) as (e' & He' & Hue & _ & Hse & Hee & _).
    assert (e' = e) by congruence. subst e'.
    exists r. repeat split; auto; lia.
  - intros (r & Hr & He & Hu & Hs & Hend).
    exists r. split; [|exact He].
    apply In_sortBy, filter_In. split; [exact Hr|]. subst keep. simpl.
    unfold Storage.mapDbEventToEvent in He.
    destruct (db_userId r) as [u'|] eqn:Hdu; [|discriminate].
    injection He as <-. simpl in *.
    rewrite !andb_true_iff, !Z.leb_le, Z.eqb_eq. repeat split; auto.
Qed.

Lemma getEvents_owned (userId : option Z) (db : Storage.Db) :
  exists l, Storage.getEvents userId db = Ret l /\
    forall e, In e l <->
      exists r, In r (Storage.events db) /\
                Storage.mapDbEventToEvent r = Ret e /\
                Schema.userId e = Storage.orDefaultUser userId.
Proof.
  unfold Storage.getEvents.
  set (u := Storage.orDefaultUser userId).
  set (rows := sortBy _ _).
  assert (Hrows : forall r, In r rows <->
                            In r (Storage.events db) /\ db_userId r = Some u).
  { intros r. subst rows. rewrite In_sortBy, filter_In, eq_true_iff. tauto. }
  destruct (mapM_mapDbEventToEvent u rows) as (l & Hl & Hin).
  { apply Forall_forall. intros r Hr. now apply Hrows in Hr. }
  exists l. split; [exact Hl|].
  intros e. rewrite Hin. split.
  - intros (r & Hr & He). apply Hrows in Hr. destruct Hr as [Hr Hu].
    destruct (mapDbEventToEvent_owned u r Hu) as (e' & He' & Hue & _).
    exists r. repeat split; auto; congruence.
  - intros (r & Hr & He & Hu). exists r. split; [|exact He].
    apply Hrows. split; [exact Hr|].
    unfold Storage.mapDbEventToEvent in He.
    destruct (db_userId r); [|discriminate].
    injection He as <-. simpl in Hu. congruence.
Qed.

(** C10. Whatever user is asked for (user 1 when the parameter is
    omitted), [getEvents] and [getEventsByDateRange] return without
    throwing and every event they return belongs to that user. *)
Theorem queries_never_return_another_users_events
    (db : Storage.Db) (userId : option Z) (start end_ : Date) :
  Storage.orDefaultUser None = 1 /\
  (exists l, Storage.getEvents userId db = Ret l /\
     Forall (fun e => Schema.userId e = Storage.orDefaultUser userId) l) /\
  (exists l, Storage.getEventsByDateRange start end_ userId db = Ret l /\
     Forall (fun e => Schema.userId e = Storage.orDefaultUser userId) l).
Proof.
  split; [reflexivity|]. split.
  - destruct (getEvents_owned userId db) as (l & Hl & Hin).
    exists l. split; [exact Hl|]. apply Forall_forall. intros e He.
    apply Hin in He. now destruct He as (_ & _ & _ & Hu).
  - destruct (getEventsByDateRange_contained start end_ userId db)
      as (l & Hl & Hin).
    exists l. split; [exact Hl|]. apply Forall_forall. intros e He.
    apply Hin in He. now destruct He as (_ & _ & _ & Hu & _).
Qed.

(** C1, on the code. An event of user 1 that starts on Saturday
    2024-03-09 at 22:00 and ends on Sunday 2024-03-10 at 02:00 overlaps
    the week window of 2024-03-15, and the views' own overlap test places
    it on Sunday 2024-03-10, yet the range query leaves it out: the query
    keeps the events contained in the window. *)
Theorem range_query_drops_event_entering_window :
  let w := UseCalendar.dateRange (newDate 2024 2 15 0 0 0 0) UseCalendar.week in
  let row := eventRow 7 (Some 1) (newDate 2024 2 9 22 0 0 0)
                      (newDate 2024 2 10 2 0 0 0) false in
  exists e,
    Storage.mapDbEventToEvent row = Ret e /\
    overlapsHalfOpen (start w) (end_ w) e = true /\
    overlapsDay V3 (start w) e = Ret true /\
    Storage.getEventsByDateRange (start w) (end_ w) (Some 1) (dbOfEvents [row])
    = Ret [].
Proof.
  eexists. split; [reflexivity|]. repeat split; vm_compute; reflexivity.
Qed.

(** ** Storage: settings *)

Lemma strOr_nonempty (s d : string) : s <> "" -> strOr s d = s.
Proof.
  intros H. unfold strOr. destruct (String.eqb_spec s ""); congruence.
Qed.

Lemma optStrOr_nullish (o : option string) (d : string) :
  presentNonEmpty o -> optStrOr o d = nullish o d.
Proof.
  unfold presentNonEmpty. destruct o as [s|]; simpl; [|reflexivity].
  intros H. apply strOr_nonempty. congruence.
Qed.

Lemma nullish_nonempty (o : option string) (d : string) :
  presentNonEmpty o -> d <> "" -> nullish o d <> "".
Proof.
  unfold presentNonEmpty. destruct o as [s|]; simpl; congruence.
Qed.

Lemma strOr_dots_nonempty (s : string) : strOr s "dots" <> "".
Proof.
  unfold strOr. destruct (String.eqb_spec s ""); [discriminate|assumption].
Qed.

(** The rows an [update ... where userId = u] returns are the images of
    the rows that matched. *)
Lemma filter_owned_map (u : Z) (set : SettingsRow -> SettingsRow)
    (rows : list SettingsRow) :
  (forall r, row_userId (set r) = row_userId r) ->
  filter (ownedBy u) (map (fun r => if ownedBy u r then set r else r) rows)
  = map set (filter (ownedBy u) rows).
Proof.
  intros Hset. induction rows as [|r rs IH]; simpl; [reflexivity|].
  destruct (ownedBy u r) eqn:Hr; simpl.
  - unfold ownedBy at 1. rewrite Hset. fold (ownedBy u r). rewrite Hr.
    simpl. now rewrite IH.
  - rewrite Hr. exact IH.
Qed.

Lemma optStrOr_nonempty (o : option string) (d : string) :
  d <> "" -> optStrOr o d <> "".
Proof.
  intros Hd. destruct o as [s|]; simpl; [|exact Hd].
  unfold strOr. destruct (String.eqb_spec s ""); assumption.
Qed.

Lemma optStrOr_idem (o : option string) (d : string) :
  optStrOr o (optStrOr o d) = optStrOr o d.
Proof.
  destruct o as [s|]; simpl; [|reflexivity].
  unfold strOr. destruct (String.eqb_spec s ""); reflexivity.
Qed.

Lemma ownedBy_iff (u : Z) (r : SettingsRow) :
  ownedBy u r = true <-> row_userId r = Some u.
Proof. apply eq_true_iff. Qed.

Lemma hasSettingsRow_iff (u : Z) (db : Storage.Db) :
  hasSettingsRow u db <-> filter (ownedBy u) (Storage.settings db) <> [].
Proof.
  unfold hasSettingsRow. fold (ownedBy u). split.
  - intros (r & Hin & Hr) Hnil.
    assert (H : In r (filter (ownedBy u) (Storage.settings db)))
      by (apply filter_In; split; assumption).
    rewrite Hnil in H. exact H.
  - destruct (filter (ownedBy u) (Storage.settings db)) as [|r rest] eqn:Hex;
      [congruence|]. intros _.
    assert (H : In r (filter (ownedBy u) (Storage.settings db)))
      by (rewrite Hex; now left).
    apply filter_In in H. exists r. exact H.
Qed.

Lemma settings_id_taken (k : Z) (rows : list SettingsRow) :
  existsb (fun r => row_id r =? k) rows = true <-> In k (map row_id rows).
Proof.
  rewrite existsb_exists, in_map_iff. split.
  - intros (r & Hr & Hid). apply Z.eqb_eq in Hid. eauto.
  - intros (r & Hid & Hr). exists r. split; [exact Hr|]. now apply Z.eqb_eq.
Qed.

(** What [updateSettings] does when it can store the settings: the
    settings it returns, and reads back, are the ones read before with
    the non-empty present fields put in; a row is appended when the user
    had none, otherwise the user's rows are rewritten. *)
Lemma updateSettings_any (newSettings : PartialSettings) (userId : option Z)
    (db : Storage.Db) :
  let u := Storage.orDefaultUser userId in
  let eff := applyPartial (Storage.getSettings userId db) newSettings in
  canStoreSettings u db ->
  exists db',
    Storage.updateSettings newSettings userId db = Ret (db', eff) /\
    Storage.getSettings userId db' = eff /\
    Storage.users db' = Storage.users db /\
    Storage.events db' = Storage.events db /\
    Storage.eventsSeq db' = Storage.eventsSeq db /\
    eventDisplayMode eff <> "" /\
    Storage.settings db' =
      match filter (ownedBy u) (Storage.settings db) with
      | [] =>
          Storage.settings db ++
          [ {| row_id := Storage.settingsSeq db; row_userId := Some u;
               row_theme := theme eff;
               row_startOfWeek := startOfWeek eff;
               row_timeFormat := timeFormat eff;
               row_eventDisplayMode := eventDisplayMode eff |} ]
      | _ :: _ =>
          map (fun r => if ownedBy u r then withSettings eff r else r)
              (Storage.settings db)
      end /\
    Storage.settingsSeq db' =
      match filter (ownedBy u) (Storage.settings db) with
      | [] => Storage.settingsSeq db + 1
      | _ :: _ => Storage.settingsSeq db
      end.
Proof.
  intros u eff Hcan.
  assert (Hget : forall d, Storage.getSettings userId d =
            match filter (ownedBy u) (Storage.settings d) with
            | [] => Storage.defaultSettings
            | setting :: _ => Storage.toCalendarSettings setting
            end) by reflexivity.
  unfold Storage.updateSettings.
  change (Storage.orDefaultUser userId) with u.
  change (fun r : SettingsRow => Storage.eq (row_userId r) u) with (ownedBy u).
  assert (Heff : eff = applyPartial (Storage.getSettings userId db) newSettings)
    by reflexivity.
  clearbody eff. rewrite Hget in Heff.
  destruct (filter (ownedBy u) (Storage.settings db)) as [|existing0 rest] eqn:Hex.
  - destruct Hcan as [Hrow|(Huser & Hfresh)];
      [apply hasSettingsRow_iff in Hrow; congruence|].
    cbn [row_id].
    replace (existsb (fun r => row_id r =? Storage.settingsSeq db) (Storage.settings db))
      with false
      by (symmetry; apply not_true_is_false; now rewrite settings_id_taken).
    rewrite Huser. cbn [negb].
    set (created := mkSettingsRow (Storage.settingsSeq db) _ _ _ _ _).
    assert (Hrow : created =
              {| row_id := Storage.settingsSeq db; row_userId := Some u;
                 row_theme := theme eff;
                 row_startOfWeek := startOfWeek eff;
                 row_timeFormat := timeFormat eff;
                 row_eventDisplayMode := eventDisplayMode eff |}).
    { subst created eff. reflexivity. }
    assert (Hne : eventDisplayMode eff <> "").
    { subst eff. simpl. apply optStrOr_nonempty. discriminate. }
    assert (Hto : Storage.toCalendarSettings created = eff).
    { rewrite Hrow. unfold Storage.toCalendarSettings. simpl.
      rewrite strOr_nonempty by exact Hne. now destruct eff. }
    eexists. split; [rewrite Hto; reflexivity|].
    split; [|split; [reflexivity|split; [reflexivity|split;
                [reflexivity|split; [exact Hne|]]]]].
    + rewrite Hget. simpl. rewrite filter_app, Hex. simpl.
      unfold ownedBy at 1. subst created. simpl. rewrite Z.eqb_refl. exact Hto.
    + split; [simpl; now rewrite Hrow|reflexivity].
  - pose (set := fun r : SettingsRow =>
      {| row_id := row_id r;
         row_userId := row_userId r;
         row_theme := optStrOr (new_theme newSettings) (row_theme existing0);
         row_startOfWeek :=
           optStrOr (new_startOfWeek newSettings) (row_startOfWeek existing0);
         row_timeFormat :=
           optStrOr (new_timeFormat newSettings) (row_timeFormat existing0);
         row_eventDisplayMode :=
           optStrOr (new_eventDisplayMode newSettings)
                    (strOr (row_eventDisplayMode existing0) "dots") |}).
    match goal with
    | |- context [map ?f (Storage.settings db)] =>
        change f with (fun r : SettingsRow => if ownedBy u r then set r else r)
    end.
    assert (Hset : forall r, set r = withSettings eff r).
    { intros r. subst set eff. reflexivity. }
    assert (Hne : eventDisplayMode eff <> "").
    { subst eff. simpl. apply optStrOr_nonempty, strOr_dots_nonempty. }
    assert (Hto : Storage.toCalendarSettings (set existing0) = eff).
    { rewrite Hset. unfold Storage.toCalendarSettings, withSettings. simpl.
      rewrite strOr_nonempty by exact Hne. now destruct eff. }
    rewrite (filter_owned_map u set) by (intros r; reflexivity).
    rewrite Hex. simpl.
    eexists. split; [rewrite Hto; reflexivity|].
    split; [|split; [reflexivity|split; [reflexivity|split;
                [reflexivity|split; [exact Hne|]]]]].
    + rewrite Hget. simpl.
      rewrite (filter_owned_map u set) by (intros r; reflexivity).
      rewrite Hex. simpl. exact Hto.
    + split; [|reflexivity]. simpl. apply map_ext. intros r. now rewrite Hset.
Qed.

(** When it cannot store the settings, [updateSettings] throws: the
    insert fails on the primary key when the id is taken, and otherwise
    on the foreign key. *)
Lemma updateSettings_refused (newSettings : PartialSettings) (userId : option Z)
    (db : Storage.Db) :
  let u := Storage.orDefaultUser userId in
  ~ hasSettingsRow u db ->
  (In (Storage.settingsSeq db) (map row_id (Storage.settings db)) ->
   Storage.updateSettings newSettings userId db = Throw UniqueViolation) /\
  (~ In (Storage.settingsSeq db) (map row_id (Storage.settings db)) ->
   Storage.userExists u db = false ->
   Storage.updateSettings newSettings userId db = Throw ForeignKeyViolation).
Proof.
  intros u Hrow. rewrite hasSettingsRow_iff in Hrow.
  unfold Storage.updateSettings.
  change (Storage.orDefaultUser userId) with u.
  change (fun r : SettingsRow => Storage.eq (row_userId r) u) with (ownedBy u).
  destruct (filter (ownedBy u) (Storage.settings db)) as [|r0 rest];
    [|exfalso; apply Hrow; discriminate].
  cbn [row_id]. split.
  - intros Htaken. apply settings_id_taken in Htaken. now rewrite Htaken.
  - intros Hfree Huser.
    replace (existsb (fun r => row_id r =? Storage.settingsSeq db) (Storage.settings db))
      with false
      by (symmetry; apply not_true_is_false; now rewrite settings_id_taken).
    now rewrite Huser.
Qed.

(** A call that returned could store the settings. *)
Lemma updateSettings_stored (newSettings : PartialSettings) (userId : option Z)
    (db db' : Storage.Db) (s : CalendarSettings) :
  Storage.updateSettings newSettings userId db = Ret (db', s) ->
  canStoreSettings (Storage.orDefaultUser userId) db.
Proof.
  intros Hupd. set (u := Storage.orDefaultUser userId).
  destruct (filter (ownedBy u) (Storage.settings db)) as [|r0 rest] eqn:Hex.
  - right.
    assert (Hrow : ~ hasSettingsRow u db) by (rewrite hasSettingsRow_iff; congruence).
    destruct (updateSettings_refused newSettings userId db Hrow) as [Hpk Hfk].
    fold u in Hfk.
    destruct (in_dec Z.eq_dec (Storage.settingsSeq db)
                     (map row_id (Storage.settings db))) as [Hin|Hout].
    + rewrite (Hpk Hin) in Hupd. discriminate Hupd.
    + split; [|exact Hout].
      destruct (Storage.userExists u db) eqn:Huser; [reflexivity|].
      rewrite (Hfk Hout eq_refl) in Hupd. discriminate Hupd.
  - left. apply hasSettingsRow_iff. fold u. congruence.
Qed.

Lemma applyPartial_merge (base : CalendarSettings) (p : PartialSettings) :
  wellFormedPartial p -> applyPartial base p = mergeSettings base p.
Proof.
  intros (Ht & Hw & Hf & Hm). unfold applyPartial, mergeSettings.
  now rewrite !optStrOr_nullish by assumption.
Qed.

(** C8, as the code has it. For a user whose settings can be stored (the
    user has a row of settings, or is a stored user for whom a first row
    can be inserted), [updateSettings] returns the settings read before
    the call ([getSettings]: the stored row, or the defaults) with the
    non-empty present fields of the partial put in, and the omitted
    fields kept; for a partial whose present fields are non-empty strings
    that is the merge of the partial over the stored settings.  The
    same value is read back afterwards.  A row is inserted when the user
    had none, and otherwise the user's rows are updated; all other rows,
    the users and the events are untouched. *)
Theorem updateSettings_merges_partial_over_stored
    (newSettings : PartialSettings) (userId : option Z) (db : Storage.Db) :
  let u := Storage.orDefaultUser userId in
  let stored := Storage.getSettings userId db in
  let written := applyPartial stored newSettings in
  canStoreSettings u db ->
  (wellFormedPartial newSettings -> written = mergeSettings stored newSettings) /\
  exists db',
    Storage.updateSettings newSettings userId db = Ret (db', written) /\
    Storage.getSettings userId db' = written /\
    Storage.users db' = Storage.users db /\
    Storage.events db' = Storage.events db /\
    Permutation (Storage.settings db')
      match filter (ownedBy u) (Storage.settings db) with
      | [] =>
          {| row_id := Storage.settingsSeq db; row_userId := Some u;
             row_theme := theme written;
             row_startOfWeek := startOfWeek written;
             row_timeFormat := timeFormat written;
             row_eventDisplayMode := eventDisplayMode written |}
          :: Storage.settings db
      | _ :: _ =>
          map (fun r => if ownedBy u r then withSettings written r else r)
              (Storage.settings db)
      end.
Proof.
  intros u stored written Hcan.
  split; [intros Hwf; now apply applyPartial_merge|].
  destruct (updateSettings_any newSettings userId db Hcan)
    as (db' & Hupd & Hget & Husers & Hev & _ & _ & Hrows & _).
  exists db'. repeat (split; [assumption|]).
  fold u stored written in Hrows. rewrite Hrows.
  destruct (filter (ownedBy u) (Storage.settings db)).
  - symmetry. apply Permutation_cons_append.
  - apply Permutation_refl.
Qed.

(** The spec's example: [{theme: "light"}] over a stored dark row. *)
Lemma updateSettings_merges_example :
  canStoreSettings 1 storedDark /\
  wellFormedPartial themeLight /\
  exists db',
    Storage.updateSettings themeLight None storedDark
    = Ret (db', mkSettings "light" "sunday" "12h" "dots").
Proof.
  assert (Hcan : canStoreSettings (Storage.orDefaultUser None) storedDark).
  { left. eexists. split; [left; reflexivity|reflexivity]. }
  assert (H : wellFormedPartial themeLight) by (repeat split; discriminate).
  split; [exact Hcan|]. split; [exact H|].
  destruct (updateSettings_merges_partial_over_stored themeLight None storedDark Hcan)
    as (_ & db' & Hupd & _).
  exists db'. exact Hupd.
Defined.

(** C8, counterexamples. A present field that holds the empty string
    does not override the stored value: [{theme: ""}] over the stored
    dark row returns, and leaves, the theme "dark".  For a user that is
    not stored and has no row of settings nothing is written back: the
    insert throws. *)
Lemma updateSettings_keeps_stored_over_empty_string :
  let emptyTheme := mkPartial (Some "") None None None in
  theme (mergeSettings (Storage.getSettings None storedDark) emptyTheme) = "" /\
  Storage.updateSettings emptyTheme None storedDark
  = Ret (storedDark, mkSettings "dark" "sunday" "12h" "dots") /\
  Storage.userExists 3 storedDark = false /\
  Storage.updateSettings themeLight (Some 3) storedDark = Throw ForeignKeyViolation.
Proof. repeat split. Qed.

(** C9, on the code. A request body whose theme is outside the
    enumeration is answered with status 200 and stored, both when the
    user has a row and when the row is first created. *)
Theorem post_settings_stores_value_outside_enumeration :
  inEnum themeEnum "purple" = false /\
  (exists db',
     Routes.postSettingsRoute themePurple None storedDark
     = (db', Routes.Json 200 (mkSettings "purple" "sunday" "12h" "dots")) /\
     map row_theme (Storage.settings db') = ["purple"]) /\
  (exists db',
     Routes.postSettingsRoute themePurple (Some 2) storedDark
     = (db', Routes.Json 200 (mkSettings "purple" "sunday" "12h" "dots")) /\
     map row_theme (Storage.settings db') = ["dark"; "purple"]).
Proof.
  split; [reflexivity|].
  split; eexists; split; vm_compute; reflexivity.
Qed.

(** ** Day arithmetic *)

Lemma startOfDay_bounds (d : Date) : startOfDay d <= d < startOfDay d + MS_PER_DAY.
Proof. day_arith. Qed.

Lemma startOfDay_idem (d : Date) : startOfDay (startOfDay d) = startOfDay d.
Proof. day_arith. Qed.

Lemma isSameDay_iff (a b : Date) :
  isSameDay a b = true <-> startOfDay b <= a < startOfDay b + MS_PER_DAY.
Proof. unfold isSameDay. rewrite Z.eqb_eq. day_arith. Qed.

Lemma clock_of_minutes (k h m : Z) :
  0 <= h < 24 -> 0 <= m < 60 ->
  let x := k * MS_PER_DAY + h * MS_PER_HOUR + m * MS_PER_MINUTE in
  getHours x = h /\ getMinutes x = m.
Proof. intros Hh Hm x. subst x. day_arith. Qed.

Lemma clock_minutes (t : Date) :
  getHours t * 60 + getMinutes t = (t - startOfDay t) / MS_PER_MINUTE /\
  0 <= getHours t < 24 /\ 0 <= getMinutes t < 60.
Proof. day_arith. Qed.

Lemma dayNumber_addDays (d : Date) (n : Z) :
  dayNumber (addDays d n) = dayNumber d + n.
Proof. unfold dayNumber, addDays, MS_PER_DAY. now rewrite Z.div_add by lia. Qed.

Lemma dayNumber_startOfDay (d : Date) : dayNumber (startOfDay d) = dayNumber d.
Proof. day_arith. Qed.

Lemma startOfDay_addDays (d : Date) (n : Z) :
  startOfDay (addDays d n) = addDays (startOfDay d) n.
Proof.
  unfold startOfDay at 1. rewrite dayNumber_addDays.
  unfold startOfDay, addDays. lia.
Qed.

(** The minutes since midnight at which the event is drawn: those of its
    start when it starts on the day, 0 otherwise. *)
Lemma startMinutes_eq (day : Date) (e : Event) :
  startMinutes day e =
  if isSameDay (startDate e) day
  then (startDate e - startOfDay day) / MS_PER_MINUTE
  else 0.
Proof.
  unfold startMinutes, setHours. rewrite startOfDay_idem.
  destruct (isSameDay (startDate e) day) eqn:Hsame.
  - destruct (clock_minutes (startDate e)) as (Hsum & Hh & Hm).
    destruct (clock_of_minutes (dayNumber day) _ _ Hh Hm) as [Hx Hy].
    unfold startOfDay at 1 2. rewrite Hx, Hy, Hsum.
    unfold isSameDay in Hsame. apply Z.eqb_eq in Hsame.
    now rewrite Hsame.
  - destruct (clock_of_minutes (dayNumber day) 0 0) as [Hx Hy]; [lia|lia|].
    unfold startOfDay. rewrite Hx, Hy. reflexivity.
Qed.

Lemma startMinutes_range (day : Date) (e : Event) : 0 <= startMinutes day e <= 1439.
Proof.
  rewrite startMinutes_eq. destruct (isSameDay (startDate e) day) eqn:Hsame; [|lia].
  apply isSameDay_iff in Hsame. day_arith.
Qed.

(** ** Percentages *)

Lemma percentOfDay_le (a b : Z) : a <= b -> (percentOfDay a <= percentOfDay b)%Q.
Proof. intros H. unfold percentOfDay, Qle. simpl. lia. Qed.

Lemma percentOfDay_plus (a b : Z) :
  (percentOfDay a + percentOfDay b == percentOfDay (a + b))%Q.
Proof. unfold percentOfDay, Qeq. simpl. lia. Qed.

Lemma percentOfDay_floor (a : Z) : 15 <= a -> (1 <= percentOfDay a)%Q.
Proof. intros H. unfold percentOfDay, Qle. simpl. lia. Qed.

Lemma position_top (day : Date) (e : Event) :
  topPercentage (positionEvent day e) = percentOfDay (startMinutes day e).
Proof. reflexivity. Qed.

Lemma position_height (day : Date) (e : Event) :
  heightPercentage (positionEvent day e)
  = Qmax (percentOfDay (durationMinutes day e)) MIN_VISIBLE_HEIGHT.
Proof. reflexivity. Qed.

(** ** The overlap test and the two views *)

Lemma bounds_dayWindow (r : Release) (day : Date) :
  bounds r (dayWindow day) = Ret (startOfDay day, endOfDay day).
Proof.
  assert (H : startOfDay day <= endOfDay day) by (unfold endOfDay, MS_PER_DAY; lia).
  destruct r; simpl.
  - apply Z.leb_le in H. now rewrite H.
  - now rewrite Z.min_l, Z.max_r by exact H.
Qed.

(** On an interval that is the right way round both releases agree. *)
Lemma overlapsDay_ordered (r : Release) (day : Date) (e : Event) :
  startDate e <= endDate e ->
  overlapsDay r day e
  = Ret ((startOfDay day <? endDate e) && (startDate e <? endOfDay day)).
Proof.
  intros H. unfold overlapsDay, areIntervalsOverlapping.
  rewrite bounds_dayWindow. simpl. destruct r; simpl.
  - apply Z.leb_le in H. now rewrite H.
  - now rewrite Z.min_l, Z.max_r by exact H.
Qed.

Lemma overlapsDay_reversed_V2 (day : Date) (e : Event) :
  endDate e < startDate e -> overlapsDay V2 day e = Throw RangeError.
Proof.
  intros H. unfold overlapsDay, areIntervalsOverlapping.
  rewrite bounds_dayWindow. simpl. apply Z.leb_gt in H. now rewrite H.
Qed.

Lemma overlapsDay_reversed_V3 (day : Date) (e : Event) :
  endDate e < startDate e ->
  overlapsDay V3 day e
  = Ret ((startOfDay day <? startDate e) && (endDate e <? endOfDay day)).
Proof.
  intros H. unfold overlapsDay, areIntervalsOverlapping.
  rewrite bounds_dayWindow. simpl.
  now rewrite Z.min_r, Z.max_l by lia.
Qed.

Lemma filterM_map {A B : Type} (f : A -> B) (p : B -> Exc bool) (l : list A) :
  filterM p (map f l)
  = (kept <- filterM (fun x => p (f x)) l ;; Ret (map f kept)).
Proof.
  induction l as [|x xs IH]; simpl; [reflexivity|].
  destruct (p (f x)) as [b|err]; simpl; [|reflexivity].
  rewrite IH. destruct (filterM (fun x => p (f x)) xs); simpl; [|reflexivity].
  now destruct b.
Qed.

Lemma filterM_guard {A : Type} (c : A -> bool) (p : A -> Exc bool) (l : list A) :
  filterM (fun x => if c x then Ret false else p x) l
  = filterM p (filter (fun x => negb (c x)) l).
Proof.
  induction l as [|x xs IH]; simpl; [reflexivity|].
  destruct (c x); simpl; rewrite IH; [|reflexivity].
  now destruct (filterM p _).
Qed.

(** DayView positions and then filters, WeekView filters and then
    positions: both keep the timed events that pass the overlap test. *)
Lemma DayView_processedEvents_eq (r : Release) (day : Date) (events : list Event) :
  DayView.processedEvents r day events
  = (kept <- filterM (overlapsDay r day)
                     (filter (fun e => negb (allDay e)) events) ;;
     Ret (map (positionEvent day) kept)).
Proof. unfold DayView.processedEvents. now rewrite filterM_map. Qed.

Lemma WeekView_processedDayEvents_eq (r : Release) (day : Date)
    (events : list Event) :
  WeekView.processedDayEvents r day events = DayView.processedEvents r day events.
Proof.
  rewrite DayView_processedEvents_eq. unfold WeekView.processedDayEvents.
  now rewrite (filterM_guard allDay).
Qed.

(** Every record a view produces is the position of a timed event of
    the input that passed the overlap test. *)
Lemma filterM_In {A : Type} (p : A -> Exc bool) (l kept : list A) :
  filterM p l = Ret kept ->
  forall x, In x kept <-> In x l /\ p x = Ret true.
Proof.
  revert kept. induction l as [|y ys IH]; simpl; intros kept H x.
  - injection H as <-. simpl. tauto.
  - destruct (p y) as [b|err] eqn:Hy; simpl in H; [|discriminate].
    destruct (filterM p ys) as [kept'|err] eqn:Hys; simpl in H; [|discriminate].
    injection H as <-. specialize (IH kept' eq_refl x).
    destruct b; simpl; rewrite ?IH; split.
    + intros [<-|[Hin Hp]]; auto.
    + intros [[<-|Hin] Hp]; auto.
    + intros [Hin Hp]; auto.
    + intros [[<-|Hin] Hp]; [congruence|auto].
Qed.

Lemma DayView_processedEvents_In (r : Release) (day : Date)
    (events : list Event) (out : list PositionedEvent) :
  DayView.processedEvents r day events = Ret out ->
  forall p, In p out <->
    exists e, p = positionEvent day e /\ In e events /\ allDay e = false /\
              overlapsDay r day e = Ret true.
Proof.
  rewrite DayView_processedEvents_eq. intros H p.
  destruct (filterM _ _) as [kept|err] eqn:Hk; simpl in H; [|discriminate].
  injection H as <-. rewrite in_map_iff.
  split.
  - intros (e & <- & He). apply (filterM_In _ _ _ Hk) in He.
    destruct He as [He Hov]. apply filter_In in He. destruct He as [He Hall].
    exists e. repeat split; auto. now destruct (allDay e).
  - intros (e & -> & He & Hall & Hov). exists e. split; [reflexivity|].
    apply (filterM_In _ _ _ Hk). split; [|exact Hov].
    apply filter_In. split; [exact He|]. now rewrite Hall.
Qed.

Lemma overlapsDay_V3_total (day : Date) (e : Event) :
  exists b, overlapsDay V3 day e = Ret b.
Proof.
  unfold overlapsDay, areIntervalsOverlapping.
  rewrite bounds_dayWindow. simpl. eauto.
Qed.

(** With a release that sorts interval bounds the day layout always
    returns. *)
Lemma DayView_processedEvents_V3_total (day : Date) (events : list Event) :
  exists out, DayView.processedEvents V3 day events = Ret out.
Proof.
  rewrite DayView_processedEvents_eq.
  induction (filter (fun e => negb (allDay e)) events) as [|e es IH].
  - simpl. eauto.
  - destruct IH as (out & Hout).
    destruct (filterM (overlapsDay V3 day) es) as [kept|] eqn:Hk; [|discriminate].
    destruct (overlapsDay_V3_total day e) as (b & Hb).
    cbn [filterM]. rewrite Hb, Hk. simpl. eauto.
Qed.

(** The layout of a single timed event. *)
Lemma DayView_processedEvents_single (r : Release) (day : Date) (e : Event) (b : bool) :
  allDay e = false ->
  overlapsDay r day e = Ret b ->
  DayView.processedEvents r day [e] = Ret (if b then [positionEvent day e] else []).
Proof.
  intros Hall Hov. rewrite DayView_processedEvents_eq. simpl.
  rewrite Hall. simpl. rewrite Hov. simpl. now destruct b.
Qed.

(** ** Events inside one day *)

Lemma fullyInside_sameDay (day : Date) (e : Event) :
  fullyInside day e ->
  isSameDay (startDate e) day = true /\
  isSameDay (startDate e) (endDate e) = true.
Proof.
  intros (Hs & He & Hpos). unfold isSameDay. rewrite !Z.eqb_eq. day_arith.
Qed.

Lemma fullyInside_minutes (day : Date) (e : Event) :
  fullyInside day e ->
  0 <= durationMinutes day e /\
  startMinutes day e + durationMinutes day e <= 1439.
Proof.
  intros H. destruct (fullyInside_sameDay day e H) as [Hd Hse].
  rewrite startMinutes_eq, Hd. unfold durationMinutes. rewrite Hse. simpl.
  destruct H as (Hs & He & Hpos).
  unfold differenceInMinutes. rewrite Z.quot_div_nonneg by (unfold MS_PER_MINUTE; lia).
  day_arith.
Qed.

Lemma fullyInside_overlaps (r : Release) (day : Date) (e : Event) :
  fullyInside day e -> overlapsDay r day e = Ret true.
Proof.
  intros (Hs & He & Hpos). rewrite overlapsDay_ordered by lia.
  f_equal. apply andb_true_iff. rewrite !Z.ltb_lt. lia.
Qed.

(** ** Heights *)

(** For an event inside the day that lasts whole minutes, the duration
    the views compute is the one of the specification. *)
Lemma fullyInside_duration (day : Date) (e : Event) :
  fullyInside day e ->
  (endDate e - startDate e) mod MS_PER_MINUTE = 0 ->
  (inject_Z (durationMinutes day e) == specDurationMinutes day e)%Q.
Proof.
  intros Hin Hwhole. destruct (fullyInside_sameDay day e Hin) as [_ Hse].
  destruct Hin as (Hs & He & Hpos).
  unfold durationMinutes. rewrite Hse. cbn [negb].
  unfold specDurationMinutes, specEffectiveEnd, specEffectiveStart.
  rewrite Z.min_l, Z.max_l by lia.
  unfold differenceInMinutes.
  rewrite Z.quot_div_nonneg by (unfold MS_PER_MINUTE; lia).
  apply Z.div_exact in Hwhole; [|discriminate].
  rewrite Hwhole at 2. unfold MS_PER_MINUTE.
  rewrite inject_Z_mult. field.
Qed.

(** C6, on the code. Both views render every timed event that overlaps
    the day, and every record they produce is at least MIN_VISIBLE_HEIGHT
    = 1 high.  For an event inside the day that lasts whole minutes the
    height is the one of the specification, max(durationMinutes / 1440 *
    100, MIN_VISIBLE_HEIGHT) with the duration of the event cut to the
    day; so it is for the one-minute event, drawn 1% high.  For the
    event from 2024-01-01 22:00 to 2024-01-02 02:00 on its second day it
    is not: the specification's duration is the 120 minutes from
    midnight to 02:00 and its height 8.33%, the views compute 1559
    minutes and draw the event 108.26% high. *)
Theorem rendered_height_is_not_cut_to_the_day :
  (MIN_VISIBLE_HEIGHT == 1)%Q /\
  (forall (r : Release) (day : Date) (events : list Event)
          (out : list PositionedEvent),
     DayView.processedEvents r day events = Ret out ->
     WeekView.processedDayEvents r day events = Ret out /\
     (forall e, In e events -> allDay e = false ->
                overlapsDay r day e = Ret true ->
                In (positionEvent day e) out) /\
     Forall (fun p => (MIN_VISIBLE_HEIGHT <= heightPercentage p)%Q) out) /\
  (forall (day : Date) (events : list Event),
     exists out, DayView.processedEvents V3 day events = Ret out) /\
  (forall (r : Release) (day : Date) (e : Event),
     allDay e = false -> fullyInside day e ->
     (endDate e - startDate e) mod MS_PER_MINUTE = 0 ->
     DayView.processedEvents r day [e] = Ret [positionEvent day e] /\
     WeekView.processedDayEvents r day [e] = Ret [positionEvent day e] /\
     (heightPercentage (positionEvent day e) == specHeightPercentage day e)%Q) /\
  (forall r : Release,
     DayView.processedEvents r jan1 [oneMinute] = Ret [positionEvent jan1 oneMinute] /\
     WeekView.processedDayEvents r jan1 [oneMinute]
     = Ret [positionEvent jan1 oneMinute]) /\
  (specDurationMinutes jan1 oneMinute == 1)%Q /\
  (percentOfDay 1 < 7 # 100)%Q /\
  (heightPercentage (positionEvent jan1 oneMinute) == MIN_VISIBLE_HEIGHT)%Q /\
  (forall r : Release,
     DayView.processedEvents r jan2 [overnight] = Ret [positionEvent jan2 overnight] /\
     WeekView.processedDayEvents r jan2 [overnight]
     = Ret [positionEvent jan2 overnight]) /\
  (specDurationMinutes jan2 overnight == 120)%Q /\
  (specHeightPercentage jan2 overnight == 25 # 3)%Q /\
  durationMinutes jan2 overnight = 1559 /\
  (heightPercentage (positionEvent jan2 overnight) == percentOfDay 1559)%Q /\
  (percentOfDay 1559 == 38975 # 360)%Q /\
  ~ (heightPercentage (positionEvent jan2 overnight)
     == specHeightPercentage jan2 overnight)%Q.
Proof.
  split; [reflexivity|].
  split.
  { intros r day events out Hd.
    split; [now rewrite WeekView_processedDayEvents_eq|]. split.
    - intros e He Hall Hov. apply (DayView_processedEvents_In _ _ _ _ Hd).
      exists e. repeat split; assumption.
    - apply Forall_forall. intros p Hp.
      apply (DayView_processedEvents_In _ _ _ _ Hd) in Hp.
      destruct Hp as (e & -> & _). rewrite position_height. apply Q.le_max_r. }
  split; [exact DayView_processedEvents_V3_total|].
  split.
  { intros r day e Hall Hin Hwhole.
    assert (Hd : DayView.processedEvents r day [e] = Ret [positionEvent day e])
      by exact (DayView_processedEvents_single r day e true Hall
                  (fullyInside_overlaps r day e Hin)).
    split; [exact Hd|]. split; [now rewrite WeekView_processedDayEvents_eq|].
    rewrite position_height. unfold specHeightPercentage.
    apply Q.max_compat; [|reflexivity].
    unfold percentOfDay.
    rewrite (fullyInside_duration day e Hin Hwhole). field. }
  split.
  { intros r. rewrite WeekView_processedDayEvents_eq.
    split; destruct r; vm_compute; reflexivity. }
  split; [vm_compute; reflexivity|].
  split; [vm_compute; reflexivity|].
  split; [vm_compute; reflexivity|].
  split.
  { intros r. rewrite WeekView_processedDayEvents_eq.
    split; destruct r; vm_compute; reflexivity. }
  split; [vm_compute; reflexivity|].
  split; [vm_compute; reflexivity|].
  split; [vm_compute; reflexivity|].
  split; [vm_compute; reflexivity|].
  split; [vm_compute; reflexivity|].
  intros H. vm_compute in H. discriminate H.
Qed.

(** ** Positions inside one day *)

(** C4, as the code has it. A timed event that lies inside the day with
    a positive duration gets exactly one record on that day, in both
    views; its top is at least 0; top plus the proportional height
    durationMinutes / 1440 * 100 is at most 100; top plus the rendered
    height is at most 100 when the event lasts at least 15 minutes or
    starts no later than 23:45, and is below 101 in every case. *)
Theorem position_inside_day (r : Release) (day : Date) (e : Event) :
  allDay e = false ->
  fullyInside day e ->
  let p := positionEvent day e in
  DayView.processedEvents r day [e] = Ret [p] /\
  WeekView.processedDayEvents r day [e] = Ret [p] /\
  (0 <= topPercentage p)%Q /\
  (topPercentage p + percentOfDay (durationMinutes day e) <= 100)%Q /\
  (15 <= durationMinutes day e \/ startMinutes day e <= 1425 ->
   (topPercentage p + heightPercentage p <= 100)%Q) /\
  (topPercentage p + heightPercentage p < 101)%Q.
Proof.
  intros Hall Hin p.
  assert (Hd : DayView.processedEvents r day [e] = Ret [p]).
  { now rewrite (DayView_processedEvents_single r day e true Hall
                   (fullyInside_overlaps r day e Hin)). }
  destruct (fullyInside_minutes day e Hin) as [Hdur Hsum].
  pose proof (startMinutes_range day e) as Hsm.
  assert (Hprop : (topPercentage p + percentOfDay (durationMinutes day e) <= 100)%Q).
  { subst p. rewrite position_top, percentOfDay_plus.
    apply Qle_trans with (percentOfDay 1439); [now apply percentOfDay_le|].
    vm_compute. discriminate. }
  split; [exact Hd|]. split; [now rewrite WeekView_processedDayEvents_eq|].
  split; [|split; [exact Hprop|split]].
  - subst p. rewrite position_top.
    apply Qle_trans with (percentOfDay 0); [vm_compute; discriminate|].
    apply percentOfDay_le. lia.
  - intros Hcase. subst p. rewrite position_height.
    destruct (Q.max_spec (percentOfDay (durationMinutes day e)) MIN_VISIBLE_HEIGHT)
      as [[Hlt ->]|[Hle ->]].
    + destruct Hcase as [Hlong|Hearly].
      * exfalso. apply (Qlt_not_le _ _ Hlt). now apply percentOfDay_floor.
      * rewrite position_top.
        apply Qle_trans with (percentOfDay 1425 + MIN_VISIBLE_HEIGHT)%Q.
        -- apply Qplus_le_compat; [now apply percentOfDay_le|apply Qle_refl].
        -- vm_compute. discriminate.
    + exact Hprop.
  - subst p. rewrite position_height.
    destruct (Q.max_spec (percentOfDay (durationMinutes day e)) MIN_VISIBLE_HEIGHT)
      as [[Hlt ->]|[Hle ->]].
    + rewrite position_top.
      apply Qle_lt_trans with (percentOfDay 1439 + MIN_VISIBLE_HEIGHT)%Q.
      * apply Qplus_le_compat; [apply percentOfDay_le; lia|apply Qle_refl].
      * vm_compute. reflexivity.
    + apply Qle_lt_trans with 100%Q; [exact Hprop|]. vm_compute. reflexivity.
Qed.

(** C4, counterexample. An event from 23:55 to 23:58 lies inside the
    day and lasts three minutes; it is drawn at 99.65% with the floor
    height 1%, past the end of the axis. *)
Lemma late_short_event_exceeds_axis :
  allDay lateShort = false /\
  fullyInside jan1 lateShort /\
  DayView.processedEvents V3 jan1 [lateShort] = Ret [positionEvent jan1 lateShort] /\
  ~ (topPercentage (positionEvent jan1 lateShort)
     + heightPercentage (positionEvent jan1 lateShort) <= 100)%Q.
Proof.
  split; [reflexivity|]. split.
  - unfold fullyInside. rewrite <- !Z.leb_le, <- Z.ltb_lt.
    repeat split; vm_compute; reflexivity.
  - split; [vm_compute; reflexivity|].
    intros H. vm_compute in H. apply H. reflexivity.
Qed.

(** A ninety-minute meeting in the morning. *)
Lemma position_inside_day_meeting :
  allDay meeting = false /\
  fullyInside jan1 meeting /\
  DayView.processedEvents V3 jan1 [meeting] = Ret [positionEvent jan1 meeting] /\
  (topPercentage (positionEvent jan1 meeting)
   + heightPercentage (positionEvent jan1 meeting) <= 100)%Q.
Proof.
  assert (Hin : fullyInside jan1 meeting).
  { unfold fullyInside. rewrite <- !Z.leb_le, <- Z.ltb_lt.
    repeat split; vm_compute; reflexivity. }
  split; [reflexivity|]. split; [exact Hin|].
  destruct (position_inside_day V3 jan1 meeting eq_refl Hin)
    as (Hd & _ & _ & _ & Hsum & _).
  split; [exact Hd|]. apply Hsum. left. vm_compute. discriminate.
Defined.

(** ** Events that end when or before they start *)

Lemma filter_other_keys (rows : list DbEvent) (k : Z) :
  ~ In k (map db_id rows) -> filter (fun r => db_id r =? k) rows = [].
Proof.
  induction rows as [|r rs IH]; simpl; intros Hnotin; [reflexivity|].
  destruct (Z.eqb_spec (db_id r) k) as [Heq|Hne]; [tauto|].
  apply IH. tauto.
Qed.

Lemma filter_unique_key (rows : list DbEvent) (row : DbEvent) :
  NoDup (map db_id rows) -> In row rows ->
  filter (fun r => db_id r =? db_id row) rows = [row].
Proof.
  induction rows as [|r rs IH]; simpl; intros Hnd Hin; [contradiction|].
  inversion Hnd as [|k ks Hnotin Hnd']; subst.
  destruct Hin as [->|Hin].
  - rewrite Z.eqb_refl. f_equal. now apply filter_other_keys.
  - destruct (Z.eqb_spec (db_id r) (db_id row)) as [Heq|Hne].
    + exfalso. apply Hnotin. rewrite Heq. now apply in_map.
    + now apply IH.
Qed.

(** An event stored under a unique id with an owner is returned by
    [getEvent], whatever its dates. *)
Lemma getEvent_finds (db : Storage.Db) (row : DbEvent) (u : Z) :
  In row (Storage.events db) ->
  NoDup (map db_id (Storage.events db)) ->
  db_userId row = Some u ->
  exists e, Storage.getEvent (db_id row) db = Ret (Some e) /\
            Storage.mapDbEventToEvent row = Ret e.
Proof.
  intros Hin Hnd Hu. unfold Storage.getEvent.
  rewrite (filter_unique_key _ _ Hnd Hin).
  destruct (mapDbEventToEvent_owned u row Hu) as (e & He & _).
  exists e. rewrite He. simpl. auto.
Qed.

Lemma zero_length_height (day : Date) (e : Event) :
  endDate e = startDate e ->
  (heightPercentage (positionEvent day e) == MIN_VISIBLE_HEIGHT)%Q.
Proof.
  intros H. rewrite position_height. unfold durationMinutes. rewrite H.
  unfold isSameDay. rewrite Z.eqb_refl. simpl.
  unfold differenceInMinutes. rewrite Z.sub_diag.
  vm_compute. reflexivity.
Qed.

(** C3, as the code has it. The layout has no test on the duration. An
    event stored with endDate <= startDate stays retrievable through
    [getEvent]. When endDate = startDate it is laid out, without error,
    on the day whose window strictly contains its instant, with the floor
    height, and on no other day. When endDate < startDate the outcome is
    that of the library's overlap test: a release that validates
    intervals throws [RangeError], a release that sorts the bounds lays
    the event out on every day with dayStart < startDate and
    endDate < dayEnd. *)
Theorem degenerate_event_layout (db : Storage.Db) (row : DbEvent) (u : Z)
    (day : Date) :
  In row (Storage.events db) ->
  NoDup (map db_id (Storage.events db)) ->
  db_userId row = Some u ->
  db_allDay row = false ->
  db_endDate row <= db_startDate row ->
  exists e,
    Storage.getEvent (db_id row) db = Ret (Some e) /\
    startDate e = db_startDate row /\
    endDate e = db_endDate row /\
    (endDate e = startDate e ->
     (heightPercentage (positionEvent day e) == MIN_VISIBLE_HEIGHT)%Q /\
     forall r,
       DayView.processedEvents r day [e]
       = Ret (if (startOfDay day <? startDate e) && (startDate e <? endOfDay day)
              then [positionEvent day e] else [])) /\
    (endDate e < startDate e ->
     DayView.processedEvents V2 day [e] = Throw RangeError /\
     DayView.processedEvents V3 day [e]
     = Ret (if (startOfDay day <? startDate e) && (endDate e <? endOfDay day)
            then [positionEvent day e] else [])).
Proof.
  intros Hin Hnd Hu Hall Hle.
  destruct (getEvent_finds db row u Hin Hnd Hu) as (e & Hget & Hmap).
  destruct (mapDbEventToEvent_owned u row Hu) as (e' & He' & _ & _ & Hs & He & Ha).
  assert (e' = e) by congruence. subst e'.
  exists e. split; [exact Hget|]. split; [exact Hs|]. split; [exact He|].
  assert (Htimed : allDay e = false) by congruence.
  split.
  - intros Hzero. split; [now apply zero_length_height|].
    intros r. apply DayView_processedEvents_single; [exact Htimed|].
    rewrite overlapsDay_ordered by lia. now rewrite Hzero.
  - intros Hrev. split.
    + rewrite DayView_processedEvents_eq. simpl. rewrite Htimed. simpl.
      now rewrite overlapsDay_reversed_V2.
    + apply DayView_processedEvents_single; [exact Htimed|].
      now apply overlapsDay_reversed_V3.
Qed.

(** C3, counterexample. An event that starts and ends at 10:00 on
    2024-01-01 gets a positioned record on that day, with either
    release of the date library. *)
Lemma zero_length_event_is_positioned :
  allDay zeroLength = false /\
  endDate zeroLength <= startDate zeroLength /\
  DayView.processedEvents V2 jan1 [zeroLength] = Ret [positionEvent jan1 zeroLength] /\
  DayView.processedEvents V3 jan1 [zeroLength] = Ret [positionEvent jan1 zeroLength] /\
  WeekView.processedDayEvents V3 jan1 [zeroLength] = Ret [positionEvent jan1 zeroLength].
Proof.
  split; [reflexivity|]. split; [apply Z.leb_le; vm_compute; reflexivity|].
  repeat split; vm_compute; reflexivity.
Qed.

(** The zero-length event of the counterexample, stored and read back. *)
Lemma degenerate_event_layout_zero_length :
  exists e,
    Storage.getEvent 4 (dbOfEvents [zeroLengthRow]) = Ret (Some e) /\
    DayView.processedEvents V3 jan1 [e] = Ret [positionEvent jan1 e] /\
    DayView.processedEvents V3 jan2 [e] = Ret [].
Proof.
  assert (Hin : In zeroLengthRow (Storage.events (dbOfEvents [zeroLengthRow])))
    by (left; reflexivity).
  assert (Hnd : NoDup (map db_id (Storage.events (dbOfEvents [zeroLengthRow]))))
    by (repeat constructor; intros []).
  assert (Hle : db_endDate zeroLengthRow <= db_startDate zeroLengthRow)
    by (apply Z.leb_le; vm_compute; reflexivity).
  destruct (degenerate_event_layout (dbOfEvents [zeroLengthRow]) zeroLengthRow 1 jan1
              Hin Hnd eq_refl eq_refl Hle)
    as (e & Hget & Hs & He & Hzero & _).
  destruct (degenerate_event_layout (dbOfEvents [zeroLengthRow]) zeroLengthRow 1 jan2
              Hin Hnd eq_refl eq_refl Hle)
    as (e2 & Hget2 & _ & _ & Hzero2 & _).
  assert (e2 = e) by congruence. subst e2.
  assert (Heq : endDate e = startDate e) by (rewrite Hs, He; reflexivity).
  exists e. split; [exact Hget|]. split.
  - rewrite (proj2 (Hzero Heq) V3), Hs. reflexivity.
  - rewrite (proj2 (Hzero2 Heq) V3), Hs. reflexivity.
Defined.

(** ** An event across midnight *)

(** C2, on the code. The event from 2024-01-01 22:00 to 2024-01-02 02:00
    gets one record on each of the two days and none on the other days of
    its week. On the first day it is drawn at 91.67% with the 119 whole
    minutes up to 23:59:59.999 (8.26%). On the second day it is drawn at
    0% with the 1559 minutes from its own start on the day before to the
    end of the second day: the height is 108.26%, not the 8.33% of the two
    hours it occupies, because the duration is neither measured from
    midnight nor cut at the event's end. *)
Theorem overnight_event_heights :
  (exists p1,
     DayView.processedEvents V3 jan1 [overnight] = Ret [p1] /\
     (topPercentage p1 == 275 # 3)%Q /\
     durationMinutes jan1 overnight = 119 /\
     (heightPercentage p1 == percentOfDay 119)%Q) /\
  (exists p2,
     DayView.processedEvents V3 jan2 [overnight] = Ret [p2] /\
     (topPercentage p2 == 0)%Q /\
     durationMinutes jan2 overnight = 1559 /\
     (heightPercentage p2 == percentOfDay 1559)%Q /\
     (100 < heightPercentage p2)%Q) /\
  (percentOfDay 120 == 25 # 3)%Q /\
  WeekView.processedEvents V3 jan2 [overnight]
  = Ret [ (addDays jan1 (-1), []);
          (jan1, [positionEvent jan1 overnight]);
          (jan2, [positionEvent jan2 overnight]);
          (addDays jan1 2, []); (addDays jan1 3, []);
          (addDays jan1 4, []); (addDays jan1 5, []) ].
Proof.
  split; [|split; [|split]].
  - eexists. split; [vm_compute; reflexivity|]. repeat split.
  - eexists. split; [vm_compute; reflexivity|]. repeat split.
  - reflexivity.
  - vm_compute. reflexivity.
Qed.

(** ** All-day events *)

(** The week view selects all-day events by the window of the day: two
    anchors on the same day select the same events. *)
Lemma WeekView_allDay_ignores_clock (r : Release) (d1 d2 : Date)
    (events : list Event) :
  isSameDay d1 d2 = true ->
  WeekView.getAllDayEventsForDay r d1 events
  = WeekView.getAllDayEventsForDay r d2 events.
Proof.
  intros H. unfold WeekView.getAllDayEventsForDay, dayWindow, endOfDay.
  unfold isSameDay in H. apply Z.eqb_eq in H. now rewrite H.
Qed.

(** The day view asks whether the anchor instant lies in the event's
    interval. For events that span whole days the answer does not depend
    on the anchor's clock time. *)
Lemma DayView_allDay_whole_days (r : Release) (d1 d2 : Date) (events : list Event) :
  Forall wholeDays events ->
  isSameDay d1 d2 = true ->
  DayView.allDayEvents r d1 events = DayView.allDayEvents r d2 events.
Proof.
  intros Hwhole Hsame. unfold DayView.allDayEvents.
  apply filterM_ext. intros e He.
  destruct (allDay e); [|reflexivity].
  rewrite Forall_forall in Hwhole. destruct (Hwhole e He) as (Hs & Hend & Hle).
  unfold isWithinInterval, eventInterval.
  assert (Hb : bounds r {| start := startDate e; end_ := endDate e |}
               = Ret (startDate e, endDate e)).
  { destruct r; simpl.
    - apply Z.leb_le in Hle. now rewrite Hle.
    - now rewrite Z.min_l, Z.max_r by exact Hle. }
  rewrite Hb. simpl. f_equal.
  unfold isSameDay in Hsame. apply Z.eqb_eq in Hsame.
  assert (H1 : (startDate e <=? d1) = (startDate e <=? d2)).
  { apply eq_true_iff_eq. rewrite !Z.leb_le. day_arith. }
  assert (H2 : (d1 <=? endDate e) = (d2 <=? endDate e)).
  { apply eq_true_iff_eq. rewrite !Z.leb_le. day_arith. }
  now rewrite H1, H2.
Qed.

(** C7, on the code. An all-day event whose dates are 09:00 and 17:00
    of 2024-03-15 is selected by the day view when that day is viewed
    with an anchor at 12:00 and not selected when the same day is viewed
    with an anchor at 08:00; the week view selects it for both. *)
Theorem day_view_all_day_selection_depends_on_clock :
  let morning := newDate 2024 2 15 8 0 0 0 in
  let noon := newDate 2024 2 15 12 0 0 0 in
  isSameDay morning noon = true /\
  DayView.allDayEvents V2 morning [officeHours] = Ret [] /\
  DayView.allDayEvents V2 noon [officeHours] = Ret [officeHours] /\
  DayView.allDayEvents V3 morning [officeHours] = Ret [] /\
  DayView.allDayEvents V3 noon [officeHours] = Ret [officeHours] /\
  WeekView.getAllDayEventsForDay V3 morning [officeHours] = Ret [officeHours] /\
  WeekView.getAllDayEventsForDay V3 noon [officeHours] = Ret [officeHours].
Proof. repeat split; vm_compute; reflexivity. Qed.

(** ** The week window *)

(** The week window of an anchor starts at 00:00:00 of the latest Sunday
    at or before the anchor and ends at 23:59:59.999 six days later. *)
Lemma dateRange_week_is_sunday_week (anchor : Date) :
  resolvesWeek 0 anchor (UseCalendar.dateRange anchor UseCalendar.week).
Proof.
  unfold resolvesWeek, UseCalendar.dateRange, DateFns.startOfWeek, endOfWeek.
  cbn [start end_].
  assert (Hday : 0 <= getDay anchor < 7) by day_arith.
  replace (getDay anchor <? 0) with false by (symmetry; apply Z.ltb_ge; lia).
  rewrite !startOfDay_addDays, startOfDay_idem.
  unfold endOfDay. rewrite !startOfDay_addDays, startOfDay_idem.
  pose proof (startOfDay_bounds anchor) as Hb.
  unfold getDay at 1. rewrite dayNumber_addDays, dayNumber_startOfDay.
  unfold getDay in *. unfold addDays, MS_PER_DAY in *.
  remember (dayNumber anchor) as k eqn:Hk.
  remember (startOfDay anchor) as s eqn:Hs.
  repeat split; Z.to_euclidean_division_equations; lia.
Qed.

(** C5, on the code. The setting "monday" is a member of the
    enumeration; POST /api/settings stores it and GET /api/settings
    reads it back.  With that setting the week of Friday 2024-03-15 runs
    from Monday 2024-03-11 00:00:00 to Sunday 2024-03-17 23:59:59.999.
    The window the hook computes for that anchor runs from Sunday
    2024-03-10 00:00:00 to Saturday 2024-03-16 23:59:59.999: [dateRange]
    does not read the setting, and for every anchor its window is the
    week that starts on Sunday. *)
Theorem week_window_ignores_monday_setting :
  let anchor := newDate 2024 2 15 0 0 0 0 in
  let monday := mkPartial None (Some "monday") None None in
  let stored := mkSettings "dark" "monday" "12h" "dots" in
  inEnum startOfWeekEnum "monday" = true /\
  (exists db',
     Routes.postSettingsRoute monday None storedDark = (db', Routes.Json 200 stored) /\
     Routes.getSettingsRoute None db' = Routes.Json 200 stored) /\
  weekStartDay "monday" = 1 /\
  resolvesWeek 1 anchor
    {| start := newDate 2024 2 11 0 0 0 0;
       end_ := newDate 2024 2 17 23 59 59 999 |} /\
  UseCalendar.dateRange anchor UseCalendar.week
  = {| start := newDate 2024 2 10 0 0 0 0;
       end_ := newDate 2024 2 16 23 59 59 999 |} /\
  ~ resolvesWeek (weekStartDay "monday") anchor
      (UseCalendar.dateRange anchor UseCalendar.week) /\
  weekStartDay "sunday" = 0 /\
  (forall a : Date,
     resolvesWeek (weekStartDay "sunday") a
       (UseCalendar.dateRange a UseCalendar.week)).
Proof.
  cbv zeta. split; [reflexivity|].
  split; [eexists; split; vm_compute; reflexivity|].
  split; [reflexivity|]. split.
  { unfold resolvesWeek. cbn [start end_].
    rewrite <- Z.leb_le, <- Z.ltb_lt.
    repeat split; vm_compute; reflexivity. }
  split; [vm_compute; reflexivity|]. split.
  { intros (H & _). vm_compute in H. discriminate H. }
  split; [reflexivity|].
  exact dateRange_week_is_sunday_week.
Qed.

(** * Further properties of the storage layer *)

(** ** Creating, updating and deleting events *)

Lemma filter_id_app (j : Z) (rows more : list DbEvent) :
  filter (fun r => db_id r =? j) (rows ++ more)
  = filter (fun r => db_id r =? j) rows ++ filter (fun r => db_id r =? j) more.
Proof. apply filter_app. Qed.

Lemma idsBelowSeq_fresh (db : Storage.Db) :
  idsBelowSeq db -> ~ In (Storage.eventsSeq db) (map db_id (Storage.events db)).
Proof.
  unfold idsBelowSeq. rewrite Forall_forall. intros H Hin.
  apply in_map_iff in Hin. destruct Hin as (r & Hid & Hr).
  specialize (H r Hr). lia.
Qed.



Lemma filter_id_removed (id j : Z) (rows : list DbEvent) :
  filter (fun r => db_id r =? j) (filter (fun r => negb (db_id r =? id)) rows)
  = if j =? id then [] else filter (fun r => db_id r =? j) rows.
Proof.
  induction rows as [|r rs IH]; simpl; [now destruct (j =? id)|].
  destruct (Z.eqb_spec (db_id r) id) as [Hid|Hid]; simpl.
  - rewrite IH. destruct (Z.eqb_spec j id) as [Hj|Hj]; [reflexivity|].
    destruct (Z.eqb_spec (db_id r) j); [congruence|reflexivity].
  - destruct (Z.eqb_spec (db_id r) j) as [Hrj|Hrj]; rewrite IH.
    + destruct (Z.eqb_spec j id); [congruence|reflexivity].
    + reflexivity.
Qed.

Lemma deleteEvent_removes_only_that_event_aux (id : Z) (db : Storage.Db) :
  snd (Storage.deleteEvent id db)
  = existsb (fun r => db_id r =? id) (Storage.events db) /\
  Storage.getEvent id (fst (Storage.deleteEvent id db)) = Ret None /\
  Storage.deleteEvent id (fst (Storage.deleteEvent id db))
  = (fst (Storage.deleteEvent id db), false).
Proof.
  simpl. split; [|split].
  - induction (Storage.events db) as [|r rs IH]; simpl; [reflexivity|].
    destruct (db_id r =? id); simpl; [reflexivity|exact IH].
  - unfold Storage.getEvent. simpl. rewrite filter_id_removed.
    now rewrite Z.eqb_refl.
  - unfold Storage.deleteEvent. simpl. rewrite filter_id_removed, Z.eqb_refl.
    simpl. f_equal. f_equal.
    induction (Storage.events db) as [|r rs IH]; simpl; [reflexivity|].
    destruct (db_id r =? id) eqn:Hr; simpl; [exact IH|].
    rewrite Hr. simpl. now rewrite IH.
Qed.

(** X2. [deleteEvent] answers true exactly when a row had the id; after
    it [getEvent] finds nothing under the id, every other id reads as
    before, the settings are untouched, and deleting again answers false
    and changes nothing. *)
Theorem deleteEvent_removes_only_that_event (id : Z) (db : Storage.Db) :
  let db' := fst (Storage.deleteEvent id db) in
  snd (Storage.deleteEvent id db)
  = existsb (fun r => db_id r =? id) (Storage.events db) /\
  Storage.getEvent id db' = Ret None /\
  (forall j, j <> id -> Storage.getEvent j db' = Storage.getEvent j db) /\
  Storage.settings db' = Storage.settings db /\
  Storage.deleteEvent id db' = (db', false).
Proof.
  destruct (deleteEvent_removes_only_that_event_aux id db) as (H1 & H2 & H3).
  cbv zeta. split; [exact H1|]. split; [exact H2|].
  split; [|split; [reflexivity|exact H3]].
  intros j Hj. unfold Storage.getEvent. simpl. rewrite filter_id_removed.
  destruct (Z.eqb_spec j id); [congruence|reflexivity].
Qed.

Lemma filter_id_map (id j : Z) (set : DbEvent -> DbEvent) (rows : list DbEvent) :
  (forall r, db_id (set r) = db_id r) ->
  filter (fun r => db_id r =? j)
         (map (fun r => if db_id r =? id then set r else r) rows)
  = if j =? id then map set (filter (fun r => db_id r =? id) rows)
    else filter (fun r => db_id r =? j) rows.
Proof.
  intros Hset. induction rows as [|r rs IH]; simpl; [now destruct (j =? id)|].
  destruct (Z.eqb_spec (db_id r) id) as [Hr|Hr].
  - rewrite Hset, IH. destruct (Z.eqb_spec j id) as [Hj|Hj].
    + subst j. rewrite Hr, Z.eqb_refl. reflexivity.
    + destruct (Z.eqb_spec (db_id r) j); [congruence|reflexivity].
  - rewrite IH. destruct (Z.eqb_spec j id) as [Hj|Hj].
    + subst j. destruct (Z.eqb_spec (db_id r) id); [congruence|reflexivity].
    + reflexivity.
Qed.

(** X3. [updateEvent] on an id that no row has returns nothing and
    leaves the database as it is. *)
Theorem updateEvent_unknown_id (id : Z) (event : PartialInsertEvent)
    (now : Date) (db : Storage.Db) :
  ~ In id (map db_id (Storage.events db)) ->
  Storage.updateEvent id event now db = Ret (db, None) /\
  Routes.putEventRoute (Some id) event now db = (db, Routes.Failed 404).
Proof.
  intros H.
  assert (Hupd : Storage.updateEvent id event now db = Ret (db, None)).
  { unfold Storage.updateEvent, Storage.getEvent.
    now rewrite (filter_other_keys _ _ H). }
  split; [exact Hupd|]. unfold Routes.putEventRoute. now rewrite Hupd.
Qed.

Lemma updateEvent_unknown_id_example :
  ~ In 9 (map db_id (Storage.events oneEventDb)) /\
  Storage.updateEvent 9 (mkPartialInsertEvent (Some "moved") None None None
                                              None None None None)
                      (newDate 2024 0 1 8 0 0 0) oneEventDb
  = Ret (oneEventDb, None).
Proof.
  assert (H : ~ In 9 (map db_id (Storage.events oneEventDb))).
  { simpl. intros [H|[]]. discriminate H. }
  split; [exact H|].
  exact (proj1 (updateEvent_unknown_id 9 _ (newDate 2024 0 1 8 0 0 0) oneEventDb H)).
Defined.

(** X4. [updateEvent] on a stored event with an owner returns the
    event with every supplied field replaced and every omitted field
    kept.  The colour is read with [||]: a supplied colour replaces the
    stored one unless it is the empty string, which keeps it, as an
    omitted colour does; a stored NULL colour reads as "#3498db".  A
    notifications flag supplied as [null] reads as false.  The id, the
    owner and the creation time never change, the update time becomes
    the current time; [getEvent] reads the new event back, and no other
    event, no id, user or setting is touched. *)
Theorem updateEvent_merges_fields (row : DbEvent) (u : Z)
    (event : PartialInsertEvent) (now : Date) (db : Storage.Db) :
  In row (Storage.events db) ->
  NoDup (map db_id (Storage.events db)) ->
  db_userId row = Some u ->
  exists db' e,
    Storage.updateEvent (db_id row) event now db = Ret (db', Some e) /\
    id e = db_id row /\ userId e = u /\
    createdAt e = db_createdAt row /\ updatedAt e = Some now /\
    title e = nullish (upd_title event) (db_title row) /\
    description e = nullish (upd_description event) (db_description row) /\
    startDate e = nullish (upd_startDate event) (db_startDate row) /\
    endDate e = nullish (upd_endDate event) (db_endDate row) /\
    allDay e = nullish (upd_allDay event) (db_allDay row) /\
    location e = nullish (upd_location event) (db_location row) /\
    color e =
      match upd_color event with
      | Some c => if String.eqb c "" then nullish (db_color row) "#3498db" else c
      | None => nullish (db_color row) "#3498db"
      end /\
    notifications e =
      match upd_notifications event with
      | Some (Some b) => b
      | Some None => false
      | None => nullish (db_notifications row) false
      end /\
    Storage.getEvent (db_id row) db' = Ret (Some e) /\
    (forall j, j <> db_id row -> Storage.getEvent j db' = Storage.getEvent j db) /\
    Permutation (map db_id (Storage.events db')) (map db_id (Storage.events db)) /\
    Storage.users db' = Storage.users db /\
    Storage.settings db' = Storage.settings db /\
    Storage.eventsSeq db' = Storage.eventsSeq db.
Proof.
  intros Hin Hnd Hu.
  destruct (getEvent_finds db row u Hin Hnd Hu) as (existing & Hget & Hmap).
  unfold Storage.updateEvent. rewrite Hget. simpl.
  match goal with
  | |- context [map ?f (Storage.events db)] => set (F := f)
  end.
  assert (Hrows : map F (Storage.events db)
                  = map (fun r => if db_id r =? db_id row then F r else r)
                        (Storage.events db)).
  { apply map_ext. intros r. subst F. cbv beta.
    now destruct (db_id r =? db_id row). }
  assert (HFid : forall r, db_id (F r) = db_id r).
  { intros r. subst F. cbv beta. now destruct (db_id r =? db_id row). }
  assert (Hfilter : forall j, filter (fun r => db_id r =? j) (map F (Storage.events db))
            = if j =? db_id row then [F row]
              else filter (fun r => db_id r =? j) (Storage.events db)).
  { intros j. rewrite Hrows, (filter_id_map (db_id row) j F) by exact HFid.
    now rewrite (filter_unique_key _ _ Hnd Hin). }
  rewrite (Hfilter (db_id row)), Z.eqb_refl.
  unfold Storage.mapDbEventToEvent in Hmap. rewrite Hu in Hmap.
  injection Hmap as Hex.
  assert (Hnew : exists e, Storage.mapDbEventToEvent (F row) = Ret e /\
            id e = db_id row /\ userId e = u /\
            createdAt e = db_createdAt row /\ updatedAt e = Some now /\
            title e = nullish (upd_title event) (db_title row) /\
            description e = nullish (upd_description event) (db_description row) /\
            startDate e = nullish (upd_startDate event) (db_startDate row) /\
            endDate e = nullish (upd_endDate event) (db_endDate row) /\
            allDay e = nullish (upd_allDay event) (db_allDay row) /\
            location e = nullish (upd_location event) (db_location row) /\
            color e =
              match upd_color event with
              | Some c =>
                  if String.eqb c "" then nullish (db_color row) "#3498db" else c
              | None => nullish (db_color row) "#3498db"
              end /\
            notifications e =
              match upd_notifications event with
              | Some (Some b) => b
              | Some None => false
              | None => nullish (db_notifications row) false
              end).
  { unfold Storage.mapDbEventToEvent. subst F. cbv beta.
    rewrite Z.eqb_refl. cbn [db_userId]. rewrite Hu.
    eexists. split; [reflexivity|]. subst existing. simpl.
    repeat (split; [reflexivity|]).
    destruct (upd_notifications event) as [[b|]|]; reflexivity. }
  destruct Hnew as (e & He & Hfields).
  rewrite He. simpl. eexists. exists e. split; [reflexivity|].
  repeat match goal with
         | H : _ /\ _ |- _ => destruct H
         end.
  repeat (split; [assumption|]).
  split; [|split; [|split; [|split; [|split; reflexivity]]]].
  - unfold Storage.getEvent. cbn [Storage.events].
    rewrite (Hfilter (db_id row)), Z.eqb_refl. now rewrite He.
  - intros j Hj. unfold Storage.getEvent. cbn [Storage.events].
    rewrite (Hfilter j). destruct (Z.eqb_spec j (db_id row)); [congruence|reflexivity].
  - cbn [Storage.events]. rewrite map_map.
    rewrite (map_ext _ db_id HFid). apply Permutation_refl.
  - reflexivity.
Qed.

Lemma updateEvent_merges_fields_example :
  exists db' e,
    Storage.updateEvent 4 (mkPartialInsertEvent (Some "moved") None None
                             (Some (newDate 2024 0 1 11 0 0 0)) None (Some "")
                             None (Some None))
                        (newDate 2024 0 1 8 0 0 0) oneEventDb
    = Ret (db', Some e) /\
    title e = "moved" /\
    startDate e = newDate 2024 0 1 10 0 0 0 /\
    endDate e = newDate 2024 0 1 11 0 0 0 /\
    color e = "#3498db" /\
    notifications e = false /\
    Storage.getEvent 4 db' = Ret (Some e).
Proof.
  assert (Hin : In zeroLengthRow (Storage.events oneEventDb)) by (left; reflexivity).
  assert (Hnd : NoDup (map db_id (Storage.events oneEventDb)))
    by (repeat constructor; intros []).
  destruct (updateEvent_merges_fields zeroLengthRow 1
              (mkPartialInsertEvent (Some "moved") None None
                 (Some (newDate 2024 0 1 11 0 0 0)) None (Some "") None (Some None))
              (newDate 2024 0 1 8 0 0 0) oneEventDb Hin Hnd eq_refl)
    as (db' & e & Hupd & _ & _ & _ & _ & Ht & _ & Hs & He & _ & _ & Hc & Hn
        & Hget & _).
  exists db', e. repeat split; assumption.
Defined.

(** ** The order of the event lists *)

Lemma insertBy_sorted {A : Type} (le : A -> A -> bool) (x : A) (l : list A) :
  (forall a b, le a b = false -> le b a = true) ->
  (forall a b c, le a b = true -> le b c = true -> le a c = true) ->
  StronglySorted (fun a b => le a b = true) l ->
  StronglySorted (fun a b => le a b = true) (insertBy le x l).
Proof.
  intros Htotal Htrans. induction 1 as [|y ys Hsorted IH Hall]; simpl.
  - constructor; constructor.
  - destruct (le x y) eqn:Hxy.
    + constructor; [now constructor|]. constructor; [exact Hxy|].
      eapply Forall_impl; [|exact Hall]. intros z Hz. now apply Htrans with y.
    + constructor; [exact IH|]. apply Forall_forall. intros z Hz.
      apply In_insertBy in Hz. destruct Hz as [->|Hz].
      * now apply Htotal.
      * rewrite Forall_forall in Hall. now apply Hall.
Qed.

Lemma sortBy_sorted {A : Type} (le : A -> A -> bool) (l : list A) :
  (forall a b, le a b = false -> le b a = true) ->
  (forall a b c, le a b = true -> le b c = true -> le a c = true) ->
  StronglySorted (fun a b => le a b = true) (sortBy le l).
Proof.
  intros Htotal Htrans. induction l as [|x xs IH]; simpl.
  - constructor.
  - now apply insertBy_sorted.
Qed.

Lemma insertBy_length {A : Type} (le : A -> A -> bool) (x : A) (l : list A) :
  List.length (insertBy le x l) = S (List.length l).
Proof.
  induction l as [|y ys IH]; simpl; [reflexivity|].
  destruct (le x y); simpl; [reflexivity|now rewrite IH].
Qed.

Lemma sortBy_length {A : Type} (le : A -> A -> bool) (l : list A) :
  List.length (sortBy le l) = List.length l.
Proof.
  induction l as [|x xs IH]; simpl; [reflexivity|].
  now rewrite insertBy_length, IH.
Qed.

(** The events [mapM] returns stand for the rows, one for one and in
    the same order. *)
Lemma mapM_Forall2 {A B : Type} (f : A -> Exc B) (l : list A) (out : list B) :
  mapM f l = Ret out -> Forall2 (fun a b => f a = Ret b) l out.
Proof.
  revert out. induction l as [|x xs IH]; simpl; intros out H.
  - injection H as <-. constructor.
  - destruct (f x) as [y|] eqn:Hx; simpl in H; [|discriminate].
    destruct (mapM f xs) as [ys|] eqn:Hxs; simpl in H; [|discriminate].
    injection H as <-. constructor; [exact Hx|now apply IH].
Qed.

Lemma StronglySorted_Forall2 {A B : Type} (R : A -> A -> Prop) (S : B -> B -> Prop)
    (T : A -> B -> Prop) (l : list A) (out : list B) :
  (forall a a' b b', T a b -> T a' b' -> R a a' -> S b b') ->
  Forall2 T l out -> StronglySorted R l -> StronglySorted S out.
Proof.
  intros Hrel H2. induction H2 as [|a b l out Hab H2 IH]; intros Hs.
  - constructor.
  - inversion Hs as [|? ? Hs' Hall]; subst. constructor; [now apply IH|].
    clear IH Hs Hs'. induction H2 as [|a' b' l out Hab' H2 IH2]; constructor.
    + inversion Hall; subst. now apply (Hrel a a' b b').
    + apply IH2. now inversion Hall.
Qed.

Lemma mapDbEventToEvent_startDate (r : DbEvent) (e : Event) :
  Storage.mapDbEventToEvent r = Ret e -> startDate e = db_startDate r.
Proof.
  unfold Storage.mapDbEventToEvent. destruct (db_userId r); [|discriminate].
  now intros [= <-].
Qed.

(** X5. [getEvents] returns every event of the user, once for each of
    the user's rows, newest start first; [getEventsByDateRange] returns
    its events oldest start first. *)
Theorem event_lists_are_ordered (start end_ : Date) (userId : option Z)
    (db : Storage.Db) :
  (exists l, Storage.getEvents userId db = Ret l /\
     StronglySorted newestFirst l /\
     List.length l
     = List.length (filter (fun r => Storage.eq (db_userId r)
                                        (Storage.orDefaultUser userId))
                           (Storage.events db))) /\
  (exists l, Storage.getEventsByDateRange start end_ userId db = Ret l /\
     StronglySorted oldestFirst l).
Proof.
  split.
  - destruct (getEvents_owned userId db) as (l & Hl & _).
    exists l. split; [exact Hl|].
    unfold Storage.getEvents in Hl. apply mapM_Forall2 in Hl. split.
    + eapply StronglySorted_Forall2; [|exact Hl|].
      * intros a a' b b' Ha Ha' Hle. unfold newestFirst.
        rewrite (mapDbEventToEvent_startDate _ _ Ha),
                (mapDbEventToEvent_startDate _ _ Ha').
        apply Z.leb_le. exact Hle.
      * apply sortBy_sorted.
        -- intros a b H. apply Z.leb_gt in H. apply Z.leb_le. lia.
        -- intros a b c H1 H2. apply Z.leb_le in H1, H2. apply Z.leb_le. lia.
    + rewrite <- (Forall2_length Hl). apply sortBy_length.
  - destruct (getEventsByDateRange_contained start end_ userId db) as (l & Hl & _).
    exists l. split; [exact Hl|].
    unfold Storage.getEventsByDateRange in Hl. apply mapM_Forall2 in Hl.
    eapply StronglySorted_Forall2; [|exact Hl|].
    + intros a a' b b' Ha Ha' Hle. unfold oldestFirst.
      rewrite (mapDbEventToEvent_startDate _ _ Ha),
              (mapDbEventToEvent_startDate _ _ Ha').
      apply Z.leb_le. exact Hle.
    + apply sortBy_sorted.
      * intros a b H. apply Z.leb_gt in H. apply Z.leb_le. lia.
      * intros a b c H1 H2. apply Z.leb_le in H1, H2. apply Z.leb_le. lia.
Qed.

(** ** Settings rows *)

Lemma filter_owned_map_any (u v : Z) (set : SettingsRow -> SettingsRow)
    (rows : list SettingsRow) :
  (forall r, row_userId (set r) = row_userId r) ->
  filter (ownedBy v) (map (fun r => if ownedBy u r then set r else r) rows)
  = if v =? u then map set (filter (ownedBy u) rows) else filter (ownedBy v) rows.
Proof.
  intros Hset. destruct (Z.eqb_spec v u) as [->|Hne].
  - now apply filter_owned_map.
  - induction rows as [|r rs IH]; simpl; [reflexivity|].
    destruct (ownedBy u r) eqn:Hu.
    + assert (Hv : ownedBy v r = false).
      { destruct (ownedBy v r) eqn:Hv; [|reflexivity].
        apply ownedBy_iff in Hu, Hv. congruence. }
      unfold ownedBy at 1. rewrite Hset. fold (ownedBy v r).
      now rewrite Hv, IH.
    + now rewrite IH.
Qed.

(** The rows of any user after [updateSettings] for user [u]. *)
Lemma updateSettings_rows_of (newSettings : PartialSettings) (userId : option Z)
    (db db' : Storage.Db) (s : CalendarSettings) (v : Z) :
  Storage.updateSettings newSettings userId db = Ret (db', s) ->
  let u := Storage.orDefaultUser userId in
  (v <> u ->
   filter (ownedBy v) (Storage.settings db') = filter (ownedBy v) (Storage.settings db)) /\
  List.length (filter (ownedBy u) (Storage.settings db'))
  = Nat.max 1 (List.length (filter (ownedBy u) (Storage.settings db))).
Proof.
  intros Hupd u.
  destruct (updateSettings_any newSettings userId db (updateSettings_stored _ _ _ _ _ Hupd))
    as (db1 & Hupd1 & _ & _ & _ & _ & _ & Hrows & _).
  rewrite Hupd in Hupd1. injection Hupd1 as <- _. fold u in Hrows.
  rewrite Hrows. clear Hrows.
  destruct (filter (ownedBy u) (Storage.settings db)) as [|r0 rest] eqn:Hex.
  - split.
    + intros Hv. rewrite filter_app. simpl. unfold ownedBy at 2. simpl.
      destruct (Z.eqb_spec u v); [congruence|]. now rewrite app_nil_r.
    + rewrite filter_app, Hex. simpl. unfold ownedBy at 1. simpl.
      now rewrite Z.eqb_refl.
  - split.
    + intros Hv.
      rewrite (filter_owned_map_any u v) by (intros r; reflexivity).
      destruct (Z.eqb_spec v u); [congruence|reflexivity].
    + rewrite (filter_owned_map u) by (intros r; reflexivity).
      rewrite Hex, length_map. simpl. reflexivity.
Qed.

(** X6. [updateSettings] keeps the table at one row per user at most:
    when it can store the settings and no user had two rows before, none
    has after, and the user updated has exactly one. *)
Theorem updateSettings_keeps_one_row_per_user (newSettings : PartialSettings)
    (userId : option Z) (db : Storage.Db) :
  canStoreSettings (Storage.orDefaultUser userId) db ->
  oneRowPerUser db ->
  exists db' s,
    Storage.updateSettings newSettings userId db = Ret (db', s) /\
    oneRowPerUser db' /\
    List.length (filter (ownedBy (Storage.orDefaultUser userId))
                        (Storage.settings db')) = 1%nat.
Proof.
  intros Hcan Hone.
  destruct (updateSettings_any newSettings userId db Hcan) as (db' & Hupd & _).
  eexists. eexists. split; [exact Hupd|].
  assert (Hu : List.length (filter (ownedBy (Storage.orDefaultUser userId))
                                   (Storage.settings db')) = 1%nat).
  { destruct (updateSettings_rows_of _ _ _ _ _ (Storage.orDefaultUser userId) Hupd)
      as [_ Hlen].
    rewrite Hlen. specialize (Hone (Storage.orDefaultUser userId)). lia. }
  split; [|exact Hu].
  intros v. destruct (Z.eq_dec v (Storage.orDefaultUser userId)) as [->|Hv].
  - rewrite Hu. lia.
  - destruct (updateSettings_rows_of _ _ _ _ _ v Hupd) as [Hsame _].
    rewrite (Hsame Hv). apply Hone.
Qed.

(** User 2 is stored and has no row of settings yet; id 2 is unused. *)
Lemma updateSettings_keeps_one_row_per_user_example :
  canStoreSettings 2 storedDark /\
  oneRowPerUser storedDark /\
  exists db' s,
    Storage.updateSettings themeLight (Some 2) storedDark = Ret (db', s) /\
    oneRowPerUser db'.
Proof.
  assert (Hcan : canStoreSettings (Storage.orDefaultUser (Some 2)) storedDark).
  { right. split; [reflexivity|]. simpl. intros [H|[]]. discriminate H. }
  assert (H : oneRowPerUser storedDark).
  { intros u. unfold storedDark. cbn [Storage.settings filter].
    destruct (ownedBy u _); cbn; lia. }
  split; [exact Hcan|]. split; [exact H|].
  destruct (updateSettings_keeps_one_row_per_user themeLight (Some 2) storedDark Hcan H)
    as (db' & s & Hupd & Hone & _).
  exists db', s. split; assumption.
Defined.

(** X7. [updateSettings] for one user, when it can store the settings,
    leaves what [getSettings] reads for every other user as it was; when
    it cannot, it throws. *)
Theorem updateSettings_leaves_other_users (newSettings : PartialSettings)
    (userId : option Z) (other : Z) (db : Storage.Db) :
  other <> Storage.orDefaultUser userId ->
  (canStoreSettings (Storage.orDefaultUser userId) db ->
   exists db' s,
     Storage.updateSettings newSettings userId db = Ret (db', s) /\
     Storage.getSettings (Some other) db' = Storage.getSettings (Some other) db) /\
  (~ canStoreSettings (Storage.orDefaultUser userId) db ->
   exists err, Storage.updateSettings newSettings userId db = Throw err).
Proof.
  intros Hother. split.
  - intros Hcan.
    destruct (updateSettings_any newSettings userId db Hcan) as (db' & Hupd & _).
    eexists. eexists. split; [exact Hupd|].
    destruct (updateSettings_rows_of _ _ _ _ _ other Hupd) as [Hsame _].
    unfold Storage.getSettings. simpl.
    change (fun r : SettingsRow => Storage.eq (row_userId r) other) with (ownedBy other).
    now rewrite (Hsame Hother).
  - intros Hcannot.
    destruct (Storage.updateSettings newSettings userId db) as [[db' s]|err] eqn:Hupd;
      [|eauto].
    exfalso. apply Hcannot. exact (updateSettings_stored _ _ _ _ _ Hupd).
Qed.

Lemma updateSettings_leaves_other_users_example :
  1 <> Storage.orDefaultUser (Some 2) /\
  canStoreSettings 2 storedDark /\
  exists db' s,
    Storage.updateSettings themeLight (Some 2) storedDark = Ret (db', s) /\
    Storage.getSettings (Some 1) db' = mkSettings "dark" "sunday" "12h" "dots".
Proof.
  assert (H : 1 <> Storage.orDefaultUser (Some 2)) by discriminate.
  assert (Hcan : canStoreSettings (Storage.orDefaultUser (Some 2)) storedDark).
  { right. split; [reflexivity|]. simpl. intros [H'|[]]. discriminate H'. }
  split; [exact H|]. split; [exact Hcan|].
  destruct (proj1 (updateSettings_leaves_other_users themeLight (Some 2) 1 storedDark H)
                  Hcan)
    as (db' & s & Hupd & Hget).
  exists db', s. split; [exact Hupd|]. rewrite Hget. reflexivity.
Defined.

Lemma applyPartial_idem (base : CalendarSettings) (p : PartialSettings) :
  applyPartial (applyPartial base p) p = applyPartial base p.
Proof. unfold applyPartial. simpl. now rewrite !optStrOr_idem. Qed.

Lemma updateSettings_twice (newSettings : PartialSettings) (userId : option Z)
    (db db' : Storage.Db) (s : CalendarSettings) :
  Storage.updateSettings newSettings userId db = Ret (db', s) ->
  Storage.updateSettings newSettings userId db' = Ret (db', s).
Proof.
  intros Hupd.
  destruct (updateSettings_any newSettings userId db (updateSettings_stored _ _ _ _ _ Hupd))
    as (db1 & Hupd1 & Hget1 & Hus1 & Hev1 & Hes1 & Hne1 & Hrows1 & Hseq1).
  rewrite Hupd in Hupd1. injection Hupd1 as <- Hs.
  destruct (updateSettings_rows_of _ _ _ _ _ (Storage.orDefaultUser userId) Hupd)
    as [_ Hlen].
  assert (Hcan' : canStoreSettings (Storage.orDefaultUser userId) db').
  { left. apply hasSettingsRow_iff. intros Hnil. rewrite Hnil in Hlen.
    cbn [List.length] in Hlen. lia. }
  destruct (updateSettings_any newSettings userId db' Hcan')
    as (db2 & Hupd2 & _ & Hus2 & Hev2 & Hes2 & _ & Hrows2 & Hseq2).
  rewrite Hget1, applyPartial_idem, <- Hs in Hupd2, Hrows2.
  rewrite Hupd2. f_equal. f_equal.
  destruct (filter (ownedBy (Storage.orDefaultUser userId)) (Storage.settings db'))
    as [|r0 rest] eqn:Hex'; [cbn [List.length] in Hlen; lia|].
  assert (Hsettings : Storage.settings db2 = Storage.settings db').
  { rewrite Hrows2. rewrite <- (map_id (Storage.settings db')) at 2.
    apply map_ext_in. intros r Hr.
    destruct (ownedBy (Storage.orDefaultUser userId) r) eqn:Hown; [|reflexivity].
    rewrite Hrows1 in Hr.
    destruct (filter (ownedBy (Storage.orDefaultUser userId)) (Storage.settings db))
      as [|q0 qrest] eqn:Hex.
    - apply in_app_or in Hr. destruct Hr as [Hr|[<-|[]]].
      + exfalso.
        assert (Hin : In r (filter (ownedBy (Storage.orDefaultUser userId))
                                   (Storage.settings db)))
          by (apply filter_In; split; assumption).
        rewrite Hex in Hin. exact Hin.
      + rewrite Hs. reflexivity.
    - apply in_map_iff in Hr. destruct Hr as (q & Hq & _).
      destruct (ownedBy (Storage.orDefaultUser userId) q) eqn:Hq'.
      + subst r. rewrite Hs. reflexivity.
      + subst r. congruence. }
  destruct db2 as [u2 s2 e2 ss2 es2], db' as [u' s' e' ss' es']. simpl in *.
  congruence.
Qed.

(** X8. [updateSettings] is idempotent: when it can store the settings,
    the same partial update applied a second time returns the same
    settings and leaves the database as the first application left it. *)
Theorem updateSettings_is_idempotent (newSettings : PartialSettings)
    (userId : option Z) (db : Storage.Db) :
  canStoreSettings (Storage.orDefaultUser userId) db ->
  exists db' s,
    Storage.updateSettings newSettings userId db = Ret (db', s) /\
    Storage.updateSettings newSettings userId db' = Ret (db', s).
Proof.
  intros Hcan.
  destruct (updateSettings_any newSettings userId db Hcan) as (db' & Hupd & _).
  eexists. eexists. split; [exact Hupd|].
  exact (updateSettings_twice _ _ _ _ _ Hupd).
Qed.

Lemma updateSettings_is_idempotent_example :
  canStoreSettings 2 storedDark /\
  exists db' s,
    Storage.updateSettings themeLight (Some 2) storedDark = Ret (db', s) /\
    Storage.updateSettings themeLight (Some 2) db' = Ret (db', s).
Proof.
  assert (Hcan : canStoreSettings (Storage.orDefaultUser (Some 2)) storedDark).
  { right. split; [reflexivity|]. simpl. intros [H|[]]. discriminate H. }
  split; [exact Hcan|].
  exact (updateSettings_is_idempotent themeLight (Some 2) storedDark Hcan).
Defined.

(** ** Start-up *)

Lemma users_id_taken (k : Z) (rows : list UserRow) :
  existsb (fun u => user_id u =? k) rows = true <-> In k (map user_id rows).
Proof.
  rewrite existsb_exists, in_map_iff. split.
  - intros (r & Hr & Hid). apply Z.eqb_eq in Hid. eauto.
  - intros (r & Hid & Hr). exists r. split; [exact Hr|]. now apply Z.eqb_eq.
Qed.

Lemma users_filter_none (k : Z) (rows : list UserRow) :
  Nat.eqb (List.length (filter (fun u => user_id u =? k) rows)) 0 = true
  <-> ~ In k (map user_id rows).
Proof.
  rewrite Nat.eqb_eq. induction rows as [|x xs IH]; simpl.
  - tauto.
  - destruct (Z.eqb_spec (user_id x) k) as [Hx|Hx]; simpl.
    + split; [discriminate|]. intros H. exfalso. apply H. now left.
    + rewrite IH. split; [intros H [H'|H']; auto | intros H H'; apply H; now right].
Qed.

Lemma users_conflict (rows : list UserRow) :
  ~ In 1 (map user_id rows) ->
  existsb (fun u => (user_id u =? Storage.defaultUserId)
                    || String.eqb (username u) "default") rows = true
  <-> In "default"%string (map username rows).
Proof.
  intros Hmissing. rewrite existsb_exists, in_map_iff. split.
  - intros (r & Hr & Hc). apply orb_true_iff in Hc. destruct Hc as [Hc|Hc].
    + exfalso. apply Hmissing. apply in_map_iff. exists r.
      apply Z.eqb_eq in Hc. split; assumption.
    + apply String.eqb_eq in Hc. eauto.
  - intros (r & Hn & Hr). exists r. split; [exact Hr|].
    apply orb_true_iff. right. now apply String.eqb_eq.
Qed.


(** ** The routes on one event *)

Lemma existsb_id_In (id : Z) (rows : list DbEvent) :
  existsb (fun r => db_id r =? id) rows = true <-> In id (map db_id rows).
Proof.
  rewrite existsb_exists, in_map_iff. split.
  - intros (r & Hr & Hid). apply Z.eqb_eq in Hid. eauto.
  - intros (r & Hid & Hr). exists r. split; [exact Hr|]. now apply Z.eqb_eq.
Qed.

(** X10. DELETE /api/events/:id answers 400 to an id that is not a
    number and changes nothing; otherwise it answers 204 when a row had
    the id and 404 when none had. After either answer GET on the same id
    answers 404 and a second DELETE answers 404. *)
Theorem delete_route_then_get (id : Z) (db : Storage.Db) :
  let db' := fst (Routes.deleteEventRoute (Some id) db) in
  Routes.deleteEventRoute None db = (db, 400) /\
  snd (Routes.deleteEventRoute (Some id) db)
  = (if existsb (fun r => db_id r =? id) (Storage.events db) then 204 else 404) /\
  (snd (Routes.deleteEventRoute (Some id) db) = 204
   <-> In id (map db_id (Storage.events db))) /\
  Routes.getEventRoute (Some id) db' = Routes.Failed 404 /\
  Routes.deleteEventRoute (Some id) db' = (db', 404).
Proof.
  destruct (deleteEvent_removes_only_that_event_aux id db)
    as (Hsnd & Hget & Hagain).
  unfold Routes.deleteEventRoute, Routes.getEventRoute.
  destruct (Storage.deleteEvent id db) as [db1 success] eqn:Hdel.
  simpl in Hsnd, Hget, Hagain. subst success.
  assert (Hfst : fst (if existsb (fun r => db_id r =? id) (Storage.events db)
                      then (db1, 204) else (db1, 404)) = db1)
    by now destruct (existsb _ _).
  cbv zeta. rewrite Hfst, Hget, Hagain.
  split; [reflexivity|]. split; [now destruct (existsb _ _)|].
  split; [|split; reflexivity].
  rewrite <- existsb_id_In. destruct (existsb _ _); simpl; split; intros H;
    try reflexivity; discriminate.
Qed.

(** * Further properties of the client *)

(** ** The calendar algorithm *)

Lemma civil_parts (z : Z) :
  exists era yoe doy mp,
    0 <= yoe <= 399 /\ 0 <= doy <= 364 + leapAfter yoe /\ 0 <= mp <= 11 /\
    (153 * mp + 2) / 5 <= doy < (153 * (mp + 1) + 2) / 5 /\
    z = marchDays era yoe + doy /\
    civilFromDays z
    = (marchYear era yoe mp, marchMonth mp, doy - (153 * mp + 2) / 5 + 1).
Proof.
  unfold civilFromDays, marchYear, marchMonth, marchDays, leapAfter.
  set (z' := z + 719468). set (era := z' / 146097).
  set (doe := z' - era * 146097).
  assert (Hdoe : 0 <= doe < 146097) by (subst doe era; edlia).
  assert (Hz : z' = era * 146097 + doe) by (subst doe; lia).
  clearbody doe.
  set (yoe := (doe - doe / 1460 + doe / 36524 - doe / 146096) / 365).
  assert (Hyoe : 0 <= yoe <= 399) by (subst yoe; edlia).
  set (doy := doe - (365 * yoe + yoe / 4 - yoe / 100)).
  assert (Hdoy : 0 <= doy <= 365) by (subst doy yoe; edlia).
  assert (Hleap : doy <= 364 + (if (yoe + 1) mod 4 =? 0
                                then if (yoe + 1) mod 100 =? 0
                                     then if (yoe + 1) mod 400 =? 0 then 1 else 0
                                     else 1
                                else 0)).
  { subst doy yoe.
    destruct ((_ + 1) mod 4 =? 0) eqn:H4;
      [apply Z.eqb_eq in H4|apply Z.eqb_neq in H4];
      [destruct ((_ + 1) mod 100 =? 0) eqn:H100;
         [apply Z.eqb_eq in H100|apply Z.eqb_neq in H100];
         [destruct ((_ + 1) mod 400 =? 0) eqn:H400;
            [apply Z.eqb_eq in H400|apply Z.eqb_neq in H400]|]|];
      edlia. }
  exists era, yoe, doy, ((5 * doy + 2) / 153).
  split; [exact Hyoe|]. split; [lia|]. split; [edlia|]. split; [edlia|].
  split; [subst doy z'; lia|reflexivity].
Qed.

Lemma marchMonth_range (mp : Z) : 0 <= mp <= 11 -> 1 <= marchMonth mp <= 12.
Proof.
  intros H. unfold marchMonth.
  destruct (mp <? 10) eqn:E; [apply Z.ltb_lt in E|apply Z.ltb_ge in E]; lia.
Qed.

Lemma daysFromCivil_march (era yoe mp dd : Z) :
  0 <= yoe <= 399 -> 0 <= mp <= 11 ->
  daysFromCivil (marchYear era yoe mp) (marchMonth mp) dd
  = marchDays era yoe + (153 * mp + 2) / 5 + dd - 1.
Proof.
  intros Hy Hm. unfold daysFromCivil, marchYear, marchMonth, marchDays.
  destruct (mp <? 10) eqn:H10; [apply Z.ltb_lt in H10|apply Z.ltb_ge in H10].
  - replace (mp + 3 <=? 2) with false by (symmetry; apply Z.leb_gt; lia).
    replace (2 <? mp + 3) with true by (symmetry; apply Z.ltb_lt; lia).
    replace (mp + 3 - 3) with mp by lia.
    replace ((yoe + era * 400) / 400) with era by edlia.
    replace (yoe + era * 400 - era * 400) with yoe by lia. lia.
  - replace (mp - 9 <=? 2) with true by (symmetry; apply Z.leb_le; lia).
    replace (2 <? mp - 9) with false by (symmetry; apply Z.ltb_ge; lia).
    replace (mp - 9 + 9) with mp by lia.
    replace (yoe + era * 400 + 1 - 1) with (yoe + era * 400) by lia.
    replace ((yoe + era * 400) / 400) with era by edlia.
    replace (yoe + era * 400 - era * 400) with yoe by lia. lia.
Qed.

(** 1 March of the next year is 365 or 366 days on. *)
Lemma marchDays_next (era yoe : Z) :
  0 <= yoe <= 399 ->
  (if yoe <? 399 then marchDays era (yoe + 1) else marchDays (era + 1) 0)
  = marchDays era yoe + 365 + leapAfter yoe.
Proof.
  intros Hy. unfold marchDays, leapAfter.
  destruct (yoe <? 399) eqn:H399; [apply Z.ltb_lt in H399|apply Z.ltb_ge in H399].
  - destruct ((yoe + 1) mod 4 =? 0) eqn:H4;
      [apply Z.eqb_eq in H4|apply Z.eqb_neq in H4];
      [destruct ((yoe + 1) mod 100 =? 0) eqn:H100;
         [apply Z.eqb_eq in H100|apply Z.eqb_neq in H100];
         [destruct ((yoe + 1) mod 400 =? 0) eqn:H400;
            [apply Z.eqb_eq in H400|apply Z.eqb_neq in H400]|]|];
      edlia.
  - assert (yoe = 399) by lia. subst yoe. cbn. lia.
Qed.

Lemma leapAfter_range (yoe : Z) : 0 <= leapAfter yoe <= 1.
Proof.
  unfold leapAfter.
  destruct (_ mod 4 =? 0); [destruct (_ mod 100 =? 0); [destruct (_ mod 400 =? 0)|]|];
    lia.
Qed.

(** The year and month of a date, as a year and month counted from
    March. *)
Lemma marchYear_split (era yoe mp : Z) :
  0 <= yoe <= 399 -> 0 <= mp <= 11 ->
  marchYear era yoe mp = yoe + era * 400 + (if mp <? 10 then 0 else 1).
Proof.
  intros Hy Hm. unfold marchYear, marchMonth.
  destruct (mp <? 10) eqn:H10; [apply Z.ltb_lt in H10|apply Z.ltb_ge in H10].
  - replace (mp + 3 <=? 2) with false by (symmetry; apply Z.leb_gt; lia). lia.
  - replace (mp - 9 <=? 2) with true by (symmetry; apply Z.leb_le; lia). lia.
Qed.

(** The first day of the month after month [mp] of a March year. *)
Lemma next_month_first (era yoe mp : Z) :
  0 <= yoe <= 399 -> 0 <= mp <= 11 ->
  daysFromCivil (marchYear era yoe mp + marchMonth mp / 12)
                (marchMonth mp mod 12 + 1) 1
  = if mp <? 11 then marchDays era yoe + (153 * (mp + 1) + 2) / 5
    else marchDays era yoe + 365 + leapAfter yoe.
Proof.
  intros Hy Hm.
  destruct (mp <? 11) eqn:H11; [apply Z.ltb_lt in H11|apply Z.ltb_ge in H11].
  - assert (Hnext : marchYear era yoe mp + marchMonth mp / 12
                    = marchYear era yoe (mp + 1)
                    /\ marchMonth mp mod 12 + 1 = marchMonth (mp + 1)).
    { rewrite !marchYear_split by lia. unfold marchMonth.
      destruct (mp <? 10) eqn:H10; [apply Z.ltb_lt in H10|apply Z.ltb_ge in H10];
        destruct (mp + 1 <? 10) eqn:H10'; 
        [apply Z.ltb_lt in H10'|apply Z.ltb_ge in H10'
        |apply Z.ltb_lt in H10'|apply Z.ltb_ge in H10']; split; edlia. }
    destruct Hnext as [-> ->]. rewrite daysFromCivil_march by lia. lia.
  - assert (mp = 11) by lia. subst mp.
    rewrite <- marchDays_next by exact Hy.
    rewrite marchYear_split by lia.
    change (marchMonth 11) with 2. change (2 / 12) with 0.
    change (2 mod 12 + 1) with (marchMonth 0). change (11 <? 10) with false.
    cbv iota.
    destruct (yoe <? 399) eqn:H399; [apply Z.ltb_lt in H399|apply Z.ltb_ge in H399].
    + replace (yoe + era * 400 + 1 + 0) with (marchYear era (yoe + 1) 0)
        by (rewrite marchYear_split by lia; cbn; lia).
      rewrite daysFromCivil_march by lia. cbn. lia.
    + replace (yoe + era * 400 + 1 + 0) with (marchYear (era + 1) 0 0)
        by (rewrite marchYear_split by lia; cbn; lia).
      rewrite daysFromCivil_march by lia. cbn. lia.
Qed.

(** A month runs from the midnight that starts its first day to the last
    millisecond of its last day, holds the date, and has 28 to 31 days. *)
Lemma month_bounds (d : Date) :
  exists first next,
    startOfMonth d = first * MS_PER_DAY /\
    endOfMonth d = next * MS_PER_DAY - 1 /\
    first <= dayNumber d < next /\
    28 <= next - first <= 31.
Proof.
  unfold startOfMonth, endOfMonth, getFullYear, getMonth, newDate.
  destruct (civil_parts (dayNumber d))
    as (era & yoe & doy & mp & Hy & Hd & Hm & Hmp & Hz & Hc).
  rewrite Hc. cbn [fst snd].
  pose proof (marchMonth_range mp Hm) as Hmm.
  pose proof (leapAfter_range yoe) as Hleap.
  replace ((marchMonth mp - 1) / 12) with 0 by edlia.
  replace ((marchMonth mp - 1) mod 12 + 1) with (marchMonth mp) by edlia.
  replace (marchYear era yoe mp + 0) with (marchYear era yoe mp) by lia.
  replace (marchMonth mp - 1 + 1) with (marchMonth mp) by lia.
  rewrite daysFromCivil_march, next_month_first by assumption.
  exists (marchDays era yoe + (153 * mp + 2) / 5).
  exists (if mp <? 11 then marchDays era yoe + (153 * (mp + 1) + 2) / 5
          else marchDays era yoe + 365 + leapAfter yoe).
  split; [unfold MS_PER_DAY, MS_PER_HOUR, MS_PER_MINUTE; lia|].
  split; [unfold MS_PER_DAY, MS_PER_HOUR, MS_PER_MINUTE; lia|].
  rewrite Hz. clear Hc Hz.
  destruct (mp <? 11) eqn:H11; [apply Z.ltb_lt in H11|apply Z.ltb_ge in H11].
  - split; [lia|]. clear Hmp.
    assert (Hlen : 30 <= (153 * (mp + 1) + 2) / 5 - (153 * mp + 2) / 5 <= 31)
      by edlia.
    lia.
  - assert (mp = 11) by lia. subst mp.
    change ((153 * 11 + 2) / 5) with 337 in *. lia.
Qed.

Lemma daysFromCivil_january (y : Z) :
  daysFromCivil y 1 1 = marchDays ((y - 1) / 400) ((y - 1) mod 400) + 306.
Proof.
  unfold daysFromCivil, marchDays. cbn [Z.leb Z.ltb Z.compare Pos.compare Pos.compare_cont].
  change (1 <=? 2) with true. change (2 <? 1) with false. cbv iota.
  change ((153 * (1 + 9) + 2) / 5 + 1 - 1) with 306.
  replace (y - 1 - (y - 1) / 400 * 400) with ((y - 1) mod 400) by edlia. lia.
Qed.

(** A year runs from the midnight that starts 1 January to the last
    millisecond of 31 December, holds the date, and has 365 or 366
    days. *)
Lemma year_bounds (d : Date) :
  exists first next,
    startOfYear d = first * MS_PER_DAY /\
    endOfYear d = next * MS_PER_DAY - 1 /\
    first <= dayNumber d < next /\
    (next - first = 365 \/ next - first = 366).
Proof.
  unfold startOfYear, endOfYear, getFullYear, newDate.
  destruct (civil_parts (dayNumber d))
    as (era & yoe & doy & mp & Hy & Hd & Hm & Hmp & Hz & Hc).
  rewrite Hc. cbn [fst snd].
  change (0 / 12) with 0. change (0 mod 12 + 1) with 1.
  rewrite !Z.add_0_r, !daysFromCivil_january.
  rewrite marchYear_split by assumption.
  exists (marchDays ((yoe + era * 400 + (if mp <? 10 then 0 else 1) - 1) / 400)
                    ((yoe + era * 400 + (if mp <? 10 then 0 else 1) - 1) mod 400) + 306).
  exists (marchDays ((yoe + era * 400 + (if mp <? 10 then 0 else 1) + 1 - 1) / 400)
                    ((yoe + era * 400 + (if mp <? 10 then 0 else 1) + 1 - 1) mod 400) + 306).
  split; [unfold MS_PER_DAY, MS_PER_HOUR, MS_PER_MINUTE; lia|].
  split; [unfold MS_PER_DAY, MS_PER_HOUR, MS_PER_MINUTE; lia|].
  rewrite Hz. clear Hc Hz.
  pose proof (marchDays_next era yoe Hy) as Hnext.
  pose proof (leapAfter_range yoe) as Hleap.
  destruct (mp <? 10) eqn:H10; [apply Z.ltb_lt in H10|apply Z.ltb_ge in H10].
  - (* March to December: the year began in the March year before *)
    assert (Hdoy : doy < 306).
    { assert ((153 * (mp + 1) + 2) / 5 <= 306) by edlia. lia. }
    replace ((yoe + era * 400 + 0 + 1 - 1) / 400) with era by edlia.
    replace ((yoe + era * 400 + 0 + 1 - 1) mod 400) with yoe by edlia.
    destruct (Z.eq_dec yoe 0) as [->|Hy0].
    + replace ((0 + era * 400 + 0 - 1) / 400) with (era - 1) by edlia.
      replace ((0 + era * 400 + 0 - 1) mod 400) with 399 by edlia.
      pose proof (marchDays_next (era - 1) 399 ltac:(lia)) as Hprev.
      change (399 <? 399) with false in Hprev. cbv iota in Hprev.
      replace (era - 1 + 1) with era in Hprev by lia.
      change (leapAfter 399) with 1 in Hprev. lia.
    + replace ((yoe + era * 400 + 0 - 1) / 400) with era by edlia.
      replace ((yoe + era * 400 + 0 - 1) mod 400) with (yoe - 1) by edlia.
      pose proof (marchDays_next era (yoe - 1) ltac:(lia)) as Hprev.
      replace (yoe - 1 <? 399) with true in Hprev by (symmetry; apply Z.ltb_lt; lia).
      replace (yoe - 1 + 1) with yoe in Hprev by lia.
      pose proof (leapAfter_range (yoe - 1)). lia.
  - (* January and February: the year ends in this March year *)
    assert (Hdoy : 306 <= doy).
    { assert (306 <= (153 * mp + 2) / 5) by edlia. lia. }
    replace ((yoe + era * 400 + 1 - 1) / 400) with era by edlia.
    replace ((yoe + era * 400 + 1 - 1) mod 400) with yoe by edlia.
    destruct (yoe <? 399) eqn:H399; [apply Z.ltb_lt in H399|apply Z.ltb_ge in H399].
    + replace ((yoe + era * 400 + 1 + 1 - 1) / 400) with era by edlia.
      replace ((yoe + era * 400 + 1 + 1 - 1) mod 400) with (yoe + 1) by edlia.
      lia.
    + assert (yoe = 399) by lia. subst yoe.
      replace ((399 + era * 400 + 1 + 1 - 1) / 400) with (era + 1) by edlia.
      replace ((399 + era * 400 + 1 + 1 - 1) mod 400) with 0 by edlia.
      lia.
Qed.

(** ** The window of each view *)

Lemma week_bounds (d : Date) :
  exists first,
    DateFns.startOfWeek d 0 = first * MS_PER_DAY /\
    endOfWeek d 0 = (first + 7) * MS_PER_DAY - 1 /\
    first <= dayNumber d < first + 7 /\
    (first + 4) mod 7 = 0.
Proof.
  unfold DateFns.startOfWeek, endOfWeek, endOfDay.
  assert (Hday : 0 <= getDay d < 7) by day_arith.
  replace (getDay d <? 0) with false by (symmetry; apply Z.ltb_ge; lia).
  unfold startOfDay. rewrite !dayNumber_addDays.
  exists (dayNumber d - getDay d).
  unfold getDay in *. unfold MS_PER_DAY.
  remember (dayNumber d) as k eqn:Hk. clear Hk.
  repeat split; edlia.
Qed.

(** A window that runs over whole days [first .. next - 1] and holds the
    day of [d] holds [d]. *)
Lemma whole_days_hold (d : Date) (first next : Z) :
  first <= dayNumber d < next ->
  first * MS_PER_DAY <= d <= next * MS_PER_DAY - 1 /\
  first * MS_PER_DAY = startOfDay (first * MS_PER_DAY) /\
  next * MS_PER_DAY - 1 = endOfDay (next * MS_PER_DAY - 1).
Proof.
  intros H. pose proof (startOfDay_bounds d) as Hb.
  unfold endOfDay, startOfDay, dayNumber, MS_PER_DAY in *.
  repeat split; edlia.
Qed.

(** X11. For each of the four views the window [dateRange] computes
    holds the anchor date, starts at a midnight, ends with the last
    millisecond of a day, and spans 1 day, 7 days, 28 to 31 days, or 365
    or 366 days. *)
Theorem dateRange_holds_anchor (view : UseCalendar.CalendarViewType)
    (currentDate : Date) :
  let w := UseCalendar.dateRange currentDate view in
  start w <= currentDate <= end_ w /\
  start w = startOfDay (start w) /\
  end_ w = endOfDay (end_ w) /\
  exists n, end_ w + 1 = start w + n * MS_PER_DAY /\ windowDays view n.
Proof.
  assert (Hgen : forall first next (w : Interval),
            start w = first * MS_PER_DAY -> end_ w = next * MS_PER_DAY - 1 ->
            first <= dayNumber currentDate < next ->
            start w <= currentDate <= end_ w /\
            start w = startOfDay (start w) /\
            end_ w = endOfDay (end_ w) /\
            end_ w + 1 = start w + (next - first) * MS_PER_DAY).
  { intros first next w Hs He Hin.
    destruct (whole_days_hold currentDate first next Hin) as (H1 & H2 & H3).
    rewrite Hs, He. repeat split; try lia; assumption. }
  destruct view; cbv zeta; unfold UseCalendar.dateRange.
  - destruct (year_bounds currentDate) as (first & next & Hs & He & Hin & Hlen).
    destruct (Hgen first next
                {| start := startOfYear currentDate; end_ := endOfYear currentDate |}
                Hs He Hin) as (H1 & H2 & H3 & H4).
    repeat (split; [assumption|]). exists (next - first). split; assumption.
  - destruct (month_bounds currentDate) as (first & next & Hs & He & Hin & Hlen).
    destruct (Hgen first next
                {| start := startOfMonth currentDate; end_ := endOfMonth currentDate |}
                Hs He Hin) as (H1 & H2 & H3 & H4).
    repeat (split; [assumption|]). exists (next - first). split; assumption.
  - destruct (week_bounds currentDate) as (first & Hs & He & Hin & _).
    destruct (Hgen first (first + 7)
                {| start := DateFns.startOfWeek currentDate 0;
                   end_ := endOfWeek currentDate 0 |}
                Hs He Hin) as (H1 & H2 & H3 & H4).
    repeat (split; [assumption|]). exists 7. split; [|reflexivity].
    rewrite H4. f_equal. f_equal. lia.
  - assert (Hs : startOfDay currentDate = dayNumber currentDate * MS_PER_DAY)
      by reflexivity.
    assert (He : endOfDay currentDate = (dayNumber currentDate + 1) * MS_PER_DAY - 1)
      by (unfold endOfDay, startOfDay; lia).
    destruct (Hgen (dayNumber currentDate) (dayNumber currentDate + 1)
                {| start := startOfDay currentDate; end_ := endOfDay currentDate |}
                Hs He ltac:(lia)) as (H1 & H2 & H3 & H4).
    repeat (split; [assumption|]). exists 1. split; [|reflexivity].
    rewrite H4. f_equal. f_equal. lia.
Qed.

(** X12. In the week and day views [handleNext] and [handlePrevious]
    undo each other, and the window of the date they move to is the one
    that follows, or precedes, the current window with no gap and no
    overlap. *)
Theorem week_and_day_navigation_tiles (currentDate : Date) :
  let next := UseCalendar.handleNext in
  let prev := UseCalendar.handlePrevious in
  let window := UseCalendar.dateRange in
  (prev UseCalendar.week (next UseCalendar.week currentDate) = currentDate /\
   next UseCalendar.week (prev UseCalendar.week currentDate) = currentDate /\
   start (window (next UseCalendar.week currentDate) UseCalendar.week)
   = end_ (window currentDate UseCalendar.week) + 1 /\
   end_ (window (prev UseCalendar.week currentDate) UseCalendar.week) + 1
   = start (window currentDate UseCalendar.week)) /\
  (prev UseCalendar.day (next UseCalendar.day currentDate) = currentDate /\
   next UseCalendar.day (prev UseCalendar.day currentDate) = currentDate /\
   start (window (next UseCalendar.day currentDate) UseCalendar.day)
   = end_ (window currentDate UseCalendar.day) + 1 /\
   end_ (window (prev UseCalendar.day currentDate) UseCalendar.day) + 1
   = start (window currentDate UseCalendar.day)).
Proof.
  cbv zeta. unfold UseCalendar.handleNext, UseCalendar.handlePrevious,
    UseCalendar.dateRange. cbn [start end_].
  assert (Hshift : forall n, getDay (addDays currentDate (7 * n)) = getDay currentDate).
  { intros n. unfold getDay. rewrite dayNumber_addDays. edlia. }
  split.
  - change 7 with (7 * 1) at 1 3. change (-7) with (7 * -1).
    unfold DateFns.startOfWeek, endOfWeek. rewrite !Hshift.
    assert (Hday : 0 <= getDay currentDate < 7) by day_arith.
    replace (getDay currentDate <? 0) with false by (symmetry; apply Z.ltb_ge; lia).
    unfold endOfDay. rewrite !startOfDay_addDays.
    unfold addDays, MS_PER_DAY. repeat split; lia.
  - unfold endOfDay. rewrite !startOfDay_addDays.
    unfold addDays, MS_PER_DAY. repeat split; lia.
Qed.

(** ** The days of the week view *)

Lemma weekDays_eq (d : Date) :
  WeekView.weekDays d
  = map (fun k => addDays (DateFns.startOfWeek d 0) k) [0; 1; 2; 3; 4; 5; 6].
Proof.
  unfold WeekView.weekDays, eachDayOfInterval. cbn [start end_].
  destruct (week_bounds d) as (first & Hs & He & _ & _).
  assert (Hn : dayNumber (endOfWeek d 0) - dayNumber (DateFns.startOfWeek d 0) + 1 = 7).
  { rewrite Hs, He. unfold dayNumber, MS_PER_DAY. edlia. }
  rewrite Hn. change (Z.to_nat 7) with 7%nat. cbn [seq map Z.of_nat].
  assert (Hmid : startOfDay (DateFns.startOfWeek d 0) = DateFns.startOfWeek d 0).
  { rewrite Hs. unfold startOfDay, dayNumber, MS_PER_DAY. edlia. }
  rewrite Hmid. reflexivity.
Qed.

(** X13. The week view draws the seven days of the window the hook
    fetches: they start at the window's start, follow each other day by
    day from Sunday to Saturday, the last one ends with the window, and
    the day of the anchor is among them. *)
Theorem week_view_days_fill_window (currentDate : Date) :
  let w := UseCalendar.dateRange currentDate UseCalendar.week in
  WeekView.weekDays currentDate
  = map (fun k => addDays (start w) k) [0; 1; 2; 3; 4; 5; 6] /\
  map getDay (WeekView.weekDays currentDate) = [0; 1; 2; 3; 4; 5; 6] /\
  endOfDay (addDays (start w) 6) = end_ w /\
  In (startOfDay currentDate) (WeekView.weekDays currentDate).
Proof.
  cbv zeta. rewrite weekDays_eq. unfold UseCalendar.dateRange. cbn [start end_].
  destruct (week_bounds currentDate) as (first & Hs & He & Hin & Hsun).
  rewrite Hs, He. split; [reflexivity|]. split; [|split].
  - cbn [map]. unfold getDay. rewrite !dayNumber_addDays.
    assert (Hf : dayNumber (first * MS_PER_DAY) = first)
      by (unfold dayNumber, MS_PER_DAY; edlia).
    rewrite Hf. repeat f_equal; edlia.
  - unfold endOfDay. rewrite startOfDay_addDays.
    unfold startOfDay, addDays, dayNumber, MS_PER_DAY. edlia.
  - cbn [map In]. unfold startOfDay, addDays.
    assert (C : dayNumber currentDate = first \/ dayNumber currentDate = first + 1 \/
                dayNumber currentDate = first + 2 \/ dayNumber currentDate = first + 3 \/
                dayNumber currentDate = first + 4 \/ dayNumber currentDate = first + 5 \/
                dayNumber currentDate = first + 6) by lia.
    destruct C as [C|[C|[C|[C|[C|[C|C]]]]]]; rewrite C.
    + left. lia.
    + right; left. lia.
    + do 2 right; left. lia.
    + do 3 right; left. lia.
    + do 4 right; left. lia.
    + do 5 right; left. lia.
    + do 6 right; left. lia.
Qed.

Lemma displayDays_seven (today a0 a1 a2 a3 a4 a5 a6 : Date) :
  let week := [a0; a1; a2; a3; a4; a5; a6] in
  let shown := WeekView.displayDays true today week in
  List.length shown = 3%nat /\
  (forall day, In day shown -> In day week) /\
  (forall day, In day week -> isSameDay day today = true ->
     exists day', In day' shown /\ isSameDay day' today = true).
Proof.
  cbv zeta. unfold WeekView.displayDays. cbn [negb findIndex List.length].
  destruct (isSameDay a0 today) eqn:H0;
  [|destruct (isSameDay a1 today) eqn:H1;
    [|destruct (isSameDay a2 today) eqn:H2;
      [|destruct (isSameDay a3 today) eqn:H3;
        [|destruct (isSameDay a4 today) eqn:H4;
          [|destruct (isSameDay a5 today) eqn:H5;
            [|destruct (isSameDay a6 today) eqn:H6]]]]]];
    cbv -[isSameDay In]; cbn [In]; (split; [reflexivity|]);
    (split; [intros day Hd; tauto|]);
    intros day Hin Hday;
    try (match goal with
         | H : isSameDay ?a today = true |- _ => exists a; split; [tauto|exact H]
         end).
  exfalso. intuition (subst; congruence).
Qed.

(** X14. On a narrow screen the week view shows exactly three days of
    the week, and today is one of them whenever today is in the week. *)
Theorem mobile_week_shows_today (today currentDate : Date) :
  let week := WeekView.weekDays currentDate in
  let shown := WeekView.displayDays true today week in
  List.length shown = 3%nat /\
  (forall day, In day shown -> In day week) /\
  (forall day, In day week -> isSameDay day today = true ->
     exists day', In day' shown /\ isSameDay day' today = true) /\
  WeekView.displayDays false today week = week.
Proof.
  cbv zeta. rewrite weekDays_eq. cbn [map].
  destruct (displayDays_seven today
              (addDays (DateFns.startOfWeek currentDate 0) 0)
              (addDays (DateFns.startOfWeek currentDate 0) 1)
              (addDays (DateFns.startOfWeek currentDate 0) 2)
              (addDays (DateFns.startOfWeek currentDate 0) 3)
              (addDays (DateFns.startOfWeek currentDate 0) 4)
              (addDays (DateFns.startOfWeek currentDate 0) 5)
              (addDays (DateFns.startOfWeek currentDate 0) 6))
    as (H1 & H2 & H3).
  repeat split; assumption || reflexivity.
Qed.

(** ** The week view, the day view and the month cell agree *)

(** X15. When the week view's layout returns, it has one entry for
    each of the seven days of the week, in order, and the entry of a day
    holds exactly the records the day view computes for that day from
    the same events. *)
Theorem week_columns_are_day_layouts (r : Release) (currentDate : Date)
    (events : list Event) (columns : list (Date * list PositionedEvent)) :
  WeekView.processedEvents r currentDate events = Ret columns ->
  map fst columns = WeekView.weekDays currentDate /\
  Forall (fun column =>
            DayView.processedEvents r (fst column) events = Ret (snd column))
         columns.
Proof.
  unfold WeekView.processedEvents. intros H. apply mapM_Forall2 in H.
  induction H as [|day column days columns Hcol _ IH]; simpl.
  - split; constructor.
  - destruct IH as [IH1 IH2].
    destruct (WeekView.processedDayEvents r day events) as [recs|] eqn:Hday;
      simpl in Hcol; [|discriminate].
    injection Hcol as <-. simpl.
    rewrite WeekView_processedDayEvents_eq in Hday.
    split; [now rewrite IH1|]. constructor; assumption.
Qed.

Lemma week_columns_are_day_layouts_overnight :
  exists columns,
    WeekView.processedEvents V3 jan2 [overnight] = Ret columns /\
    map fst columns = WeekView.weekDays jan2 /\
    Forall (fun column =>
              DayView.processedEvents V3 (fst column) [overnight] = Ret (snd column))
           columns.
Proof.
  destruct (WeekView.processedEvents V3 jan2 [overnight]) as [columns|] eqn:H;
    [|vm_compute in H; discriminate H].
  exists columns. split; [reflexivity|].
  exact (week_columns_are_day_layouts V3 jan2 [overnight] columns H).
Defined.

(** X16. The top of every positioned record lies on the axis: it is at
    least 0% and below 100%. It is the share of the day that has passed
    at the event's start when the event starts on the day, and 0% on any
    other day. *)
Theorem top_is_on_the_axis (day : Date) (e : Event) :
  let p := positionEvent day e in
  (0 <= topPercentage p)%Q /\ (topPercentage p < 100)%Q /\
  topPercentage p
  = percentOfDay (if isSameDay (startDate e) day
                  then (startDate e - startOfDay day) / MS_PER_MINUTE
                  else 0).
Proof.
  cbv zeta. rewrite position_top. pose proof (startMinutes_range day e) as H.
  split; [|split].
  - apply Qle_trans with (percentOfDay 0); [vm_compute; discriminate|].
    apply percentOfDay_le. lia.
  - apply Qle_lt_trans with (percentOfDay 1439); [apply percentOfDay_le; lia|].
    vm_compute. reflexivity.
  - now rewrite startMinutes_eq.
Qed.

(** X17. What the month cell of a day selects is what the week view
    shows for that day: its all-day events are the week view's all-day
    events of the day, and its timed events are the ones the day view and
    the week view position, in the same order. *)
Theorem month_cell_splits_into_allday_and_timed (r : Release) (day : Date)
    (events selected : list Event) :
  MonthView.getEventsForDay r day events = Ret selected ->
  WeekView.getAllDayEventsForDay r day events = Ret (filter allDay selected) /\
  DayView.processedEvents r day events
  = Ret (map (positionEvent day) (filter (fun e => negb (allDay e)) selected)) /\
  WeekView.processedDayEvents r day events
  = Ret (map (positionEvent day) (filter (fun e => negb (allDay e)) selected)).
Proof.
  intros H.
  assert (Hboth :
    WeekView.getAllDayEventsForDay r day events = Ret (filter allDay selected) /\
    filterM (overlapsDay r day) (filter (fun e => negb (allDay e)) events)
    = Ret (filter (fun e => negb (allDay e)) selected)).
  { unfold MonthView.getEventsForDay, WeekView.getAllDayEventsForDay in *.
    fold (overlapsDay r day) in *.
    revert selected H. induction events as [|e es IH]; simpl; intros selected H.
    - injection H as <-. split; reflexivity.
    - change (areIntervalsOverlapping r (dayWindow day) (eventInterval e))
        with (overlapsDay r day e) in *.
      destruct (overlapsDay r day e) as [b|] eqn:Hb; simpl in H; [|discriminate].
      destruct (filterM _ es) as [kept|] eqn:Hk; simpl in H; [|discriminate].
      injection H as <-. destruct (IH kept eq_refl) as [IH1 IH2].
      destruct (allDay e) eqn:Hall; simpl.
      + rewrite IH1, IH2. simpl. split; [|now destruct b; simpl; rewrite ?Hall].
        destruct b; simpl; now rewrite ?Hall.
      + rewrite Hb, IH1, IH2. simpl. split; [now destruct b; simpl; rewrite ?Hall|].
        destruct b; simpl; now rewrite ?Hall. }
  destruct Hboth as [Hall Htimed].
  split; [exact Hall|].
  rewrite WeekView_processedDayEvents_eq, DayView_processedEvents_eq, Htimed.
  split; reflexivity.
Qed.

Lemma month_cell_splits_example :
  MonthView.getEventsForDay V3 (newDate 2024 2 15 0 0 0 0) [officeHours; meeting; officeHours]
  = Ret [officeHours; officeHours] /\
  WeekView.getAllDayEventsForDay V3 (newDate 2024 2 15 0 0 0 0)
    [officeHours; meeting; officeHours]
  = Ret [officeHours; officeHours].
Proof.
  assert (H : MonthView.getEventsForDay V3 (newDate 2024 2 15 0 0 0 0)
                [officeHours; meeting; officeHours]
              = Ret [officeHours; officeHours]) by (vm_compute; reflexivity).
  split; [exact H|].
  exact (proj1 (month_cell_splits_into_allday_and_timed V3 _ _ _ H)).
Defined.

(** ** From the query to the day view *)

(** X18. The day view draws what the server returns for its window: the
    range query on the day's window never throws; the layout of the
    fetched events returns when the date library sorts interval bounds;
    and whenever the layout returns, every fetched timed event that ends
    after it starts has its record on the day, with its top and its
    proportional height inside the axis. *)
Theorem day_view_draws_fetched_events (db : Storage.Db) (userId : option Z)
    (currentDate : Date) :
  let w := UseCalendar.dateRange currentDate UseCalendar.day in
  exists fetched,
    Storage.getEventsByDateRange (start w) (end_ w) userId db = Ret fetched /\
    (exists out, DayView.processedEvents V3 currentDate fetched = Ret out) /\
    forall r out,
      DayView.processedEvents r currentDate fetched = Ret out ->
      forall e, In e fetched -> allDay e = false -> startDate e < endDate e ->
        In (positionEvent currentDate e) out /\
        (topPercentage (positionEvent currentDate e)
         + percentOfDay (durationMinutes currentDate e) <= 100)%Q.
Proof.
  cbv zeta. unfold UseCalendar.dateRange. cbn [start end_].
  destruct (getEventsByDateRange_contained (startOfDay currentDate)
              (endOfDay currentDate) userId db) as (fetched & Hq & Hin).
  exists fetched. split; [exact Hq|].
  split; [apply DayView_processedEvents_V3_total|].
  intros r out Hout e He Htimed Hpos.
  pose proof He as He0.
  apply Hin in He. destruct He as (row & _ & _ & _ & Hs & Hend).
  assert (Hinside : fullyInside currentDate e) by (repeat split; assumption).
  split.
  - apply (DayView_processedEvents_In _ _ _ _ Hout).
    exists e. repeat split; try assumption.
    now apply fullyInside_overlaps.
  - destruct (fullyInside_minutes currentDate e Hinside) as [_ Hsum].
    rewrite position_top, percentOfDay_plus.
    apply Qle_trans with (percentOfDay 1439); [now apply percentOfDay_le|].
    vm_compute. discriminate.
Qed.

(** ** The grids of the month and year views *)

Lemma getDay_addDays (s : Date) (n : Z) :
  getDay (addDays s n) = (getDay s + n) mod 7.
Proof. unfold getDay. rewrite dayNumber_addDays. edlia. Qed.

Lemma groupWeeks_week (s : Date) (i : Z) (rest : list Date)
    (weeks : list (list Date)) :
  getDay s = 0 ->
  MonthView.groupWeeks (weekFrom s i ++ rest) [] weeks
  = MonthView.groupWeeks rest [] (weeks ++ [weekFrom s i]).
Proof.
  intros Hsun.
  assert (Hk : forall k, 0 <= k <= 6 -> getDay (addDays s (7 * i + k)) = k).
  { intros k Hk. rewrite getDay_addDays, Hsun. edlia. }
  unfold weekFrom. cbn [map app MonthView.groupWeeks].
  rewrite !Hk by lia. reflexivity.
Qed.

Lemma groupWeeks_weeks (s : Date) (indices : list Z) (weeks : list (list Date)) :
  getDay s = 0 ->
  MonthView.groupWeeks (List.concat (map (weekFrom s) indices)) [] weeks
  = weeks ++ map (weekFrom s) indices.
Proof.
  intros Hsun. revert weeks. induction indices as [|i rest IH]; intros weeks.
  - simpl. now rewrite app_nil_r.
  - cbn [map List.concat]. rewrite groupWeeks_week by exact Hsun.
    rewrite IH, <- app_assoc. reflexivity.
Qed.

(** Consecutive days, a multiple of seven of them, are whole weeks. *)
Lemma days_as_weeks (s : Date) (w : nat) :
  map (fun k => addDays s (Z.of_nat k)) (seq 0 (7 * w))
  = List.concat (map (weekFrom s) (map Z.of_nat (seq 0 w))).
Proof.
  induction w as [|w IH].
  - reflexivity.
  - replace (7 * S w)%nat with (7 * w + 7)%nat by lia.
    rewrite seq_app, map_app, IH.
    rewrite (seq_S w 0), !map_app, concat_app. f_equal.
    cbn [map List.concat seq Nat.add]. rewrite app_nil_r. unfold weekFrom. cbn [map].
    repeat (apply f_equal2; [f_equal; lia|]). reflexivity.
Qed.

(** The days of the month grid: whole weeks that begin on the Sunday
    on or before the first of the month and end on the Saturday on or
    after its last day. *)
Lemma calendarDays_weeks (d : Date) :
  exists s w,
    getDay s = 0 /\ (4 <= w <= 6)%nat /\
    MonthView.calendarDays d
    = map (fun k => addDays s (Z.of_nat k)) (seq 0 (7 * w)) /\
    forall t, startOfMonth d <= t <= endOfMonth d ->
              In (startOfDay t) (MonthView.calendarDays d).
Proof.
  unfold MonthView.calendarDays, eachDayOfInterval. cbn [start end_].
  destruct (month_bounds d) as (first & next & Hms & Hme & _ & Hlen).
  destruct (week_bounds (startOfMonth d)) as (f1 & Hs1 & _ & Hin1 & Hsun1).
  destruct (week_bounds (endOfMonth d)) as (f2 & _ & He2 & Hin2 & Hsun2).
  rewrite Hs1, He2.
  assert (Hd1 : dayNumber (startOfMonth d) = first)
    by (rewrite Hms; unfold dayNumber, MS_PER_DAY; edlia).
  assert (Hd2 : dayNumber (endOfMonth d) = next - 1)
    by (rewrite Hme; unfold dayNumber, MS_PER_DAY; edlia).
  rewrite Hd1 in Hin1. rewrite Hd2 in Hin2.
  assert (Hn1 : dayNumber (f1 * MS_PER_DAY) = f1)
    by (unfold dayNumber, MS_PER_DAY; edlia).
  assert (Hn2 : dayNumber ((f2 + 7) * MS_PER_DAY - 1) = f2 + 6)
    by (unfold dayNumber, MS_PER_DAY; edlia).
  assert (Hmid : startOfDay (f1 * MS_PER_DAY) = f1 * MS_PER_DAY)
    by (unfold startOfDay; now rewrite Hn1).
  rewrite Hn1, Hn2, Hmid.
  assert (Hw : exists w, f2 + 6 - f1 + 1 = 7 * Z.of_nat w /\ (4 <= w <= 6)%nat).
  { exists (Z.to_nat ((f2 + 7 - f1) / 7)). split; [|split]; edlia. }
  destruct Hw as (w & Hw & Hrange).
  exists (f1 * MS_PER_DAY), w.
  split; [unfold getDay; rewrite Hn1; exact Hsun1|]. split; [exact Hrange|].
  rewrite Hw. replace (Z.to_nat (7 * Z.of_nat w)) with (7 * w)%nat by lia.
  split; [reflexivity|].
  intros t Ht. rewrite Hms, Hme in Ht.
  apply in_map_iff. exists (Z.to_nat (dayNumber t - f1)).
  assert (Hdt : first <= dayNumber t <= next - 1)
    by (unfold dayNumber, MS_PER_DAY in *; edlia).
  split.
  - unfold startOfDay, addDays. rewrite Z2Nat.id by lia. lia.
  - apply in_seq. lia.
Qed.

(** X19. The month view's grid is made of whole weeks: grouping the
    calendar days gives four to six rows, each row holds seven days from
    Sunday to Saturday, the rows put end to end are the calendar days,
    and every day of the month is among them. *)
Theorem month_grid_is_whole_weeks (currentDate : Date) :
  let days := MonthView.calendarDays currentDate in
  let weeks := MonthView.calendarWeeks days in
  List.concat weeks = days /\
  (4 <= List.length weeks <= 6)%nat /\
  Forall (fun week => map getDay week = [0; 1; 2; 3; 4; 5; 6]) weeks /\
  forall t, startOfMonth currentDate <= t <= endOfMonth currentDate ->
            In (startOfDay t) days.
Proof.
  cbv zeta. destruct (calendarDays_weeks currentDate) as (s & w & Hsun & Hw & Hdays & Hin).
  split; [|split; [|split; [|exact Hin]]].
  - rewrite Hdays, days_as_weeks. unfold MonthView.calendarWeeks.
    now rewrite groupWeeks_weeks.
  - rewrite Hdays, days_as_weeks. unfold MonthView.calendarWeeks.
    rewrite groupWeeks_weeks by exact Hsun. simpl.
    now rewrite !length_map, length_seq.
  - rewrite Hdays, days_as_weeks. unfold MonthView.calendarWeeks.
    rewrite groupWeeks_weeks by exact Hsun. simpl.
    apply Forall_forall. intros week Hweek.
    apply in_map_iff in Hweek. destruct Hweek as (i & <- & _).
    unfold weekFrom. cbn [map]. rewrite !getDay_addDays, Hsun.
    repeat (apply f_equal2; [edlia|]). reflexivity.
Qed.

Lemma monthDays_eq (d : Date) :
  exists first n,
    startOfMonth d = first * MS_PER_DAY /\ 28 <= Z.of_nat n <= 31 /\
    eachDayOfInterval {| start := startOfMonth d; end_ := endOfMonth d |}
    = map (fun k => addDays (startOfMonth d) (Z.of_nat k)) (seq 0 n).
Proof.
  destruct (month_bounds d) as (first & next & Hms & Hme & _ & Hlen).
  exists first, (Z.to_nat (next - first)).
  split; [exact Hms|]. split; [lia|].
  unfold eachDayOfInterval. cbn [start end_]. rewrite Hms, Hme.
  assert (Hn1 : dayNumber (first * MS_PER_DAY) = first)
    by (unfold dayNumber, MS_PER_DAY; edlia).
  assert (Hn2 : dayNumber (next * MS_PER_DAY - 1) = next - 1)
    by (unfold dayNumber, MS_PER_DAY; edlia).
  unfold startOfDay. rewrite Hn1, Hn2. f_equal. f_equal. lia.
Qed.

Lemma datesOf_app (a b : list (option Date)) :
  datesOf (a ++ b) = datesOf a ++ datesOf b.
Proof. apply flat_map_app. Qed.

Lemma datesOf_repeat_None (n : nat) : datesOf (repeat None n) = [].
Proof. induction n as [|n IH]; simpl; [reflexivity|exact IH]. Qed.

Lemma datesOf_map_Some (l : list Date) : datesOf (map Some l) = l.
Proof. induction l as [|x xs IH]; simpl; [reflexivity|now rewrite IH]. Qed.

(** X20. The year view's grid of a month has a whole number of rows of
    seven cells, six at most; its dates are the 28 to 31 days of the
    month in order; and every date stands in the column of its weekday. *)
Theorem year_grid_aligns_weekdays (date : Date) :
  let cells := YearView.getDaysInMonth date in
  Z.of_nat (List.length cells) mod 7 = 0 /\
  (List.length cells <= 42)%nat /\
  datesOf cells
  = eachDayOfInterval {| start := startOfMonth date; end_ := endOfMonth date |} /\
  28 <= Z.of_nat (List.length (datesOf cells)) <= 31 /\
  forall i day, nth_error cells i = Some (Some day) ->
                getDay day = Z.of_nat i mod 7.
Proof.
  cbv zeta. unfold YearView.getDaysInMonth.
  destruct (monthDays_eq date) as (first & n & Hms & Hn & Hdays).
  rewrite Hdays.
  remember (getDay (startOfMonth date)) as s eqn:Hsdef.
  assert (Hs : 0 <= s < 7) by (subst s; unfold getDay; edlia).
  set (body := repeat None (Z.to_nat s) ++ map Some _).
  assert (Hbody : Z.of_nat (List.length body) = s + Z.of_nat n).
  { subst body. rewrite length_app, repeat_length, !length_map, length_seq. lia. }
  set (rest := (7 - Z.of_nat (List.length body) mod 7) mod 7).
  assert (Hrest : 0 <= rest < 7) by (subst rest; edlia).
  split; [|split; [|split; [|split]]].
  - rewrite length_app, repeat_length. subst rest. edlia.
  - rewrite length_app, repeat_length.
    assert (Z.of_nat (List.length body) + rest <= 42); [|lia].
    assert (Hm : (Z.of_nat (List.length body) + rest) mod 7 = 0)
      by (subst rest; edlia).
    rewrite Hbody in *. edlia.
  - rewrite datesOf_app, datesOf_repeat_None, app_nil_r. subst body.
    now rewrite datesOf_app, datesOf_repeat_None, datesOf_map_Some.
  - rewrite datesOf_app, datesOf_repeat_None, app_nil_r. subst body.
    rewrite datesOf_app, datesOf_repeat_None, datesOf_map_Some.
    cbn [app]. rewrite length_map, length_seq. exact Hn.
  - intros i day Hi.
    destruct (Nat.lt_ge_cases i (List.length body)) as [Hlt|Hge].
    + rewrite nth_error_app1 in Hi by exact Hlt. subst body.
      destruct (Nat.lt_ge_cases i (Z.to_nat s)) as [Hlt'|Hge'].
      * rewrite nth_error_app1 in Hi by (now rewrite repeat_length).
        apply nth_error_In, repeat_spec in Hi. discriminate Hi.
      * rewrite nth_error_app2 in Hi by (now rewrite repeat_length).
        rewrite repeat_length, nth_error_map in Hi.
        destruct (nth_error (map _ (seq 0 n)) (i - Z.to_nat s)) as [x|] eqn:Hx;
          [|discriminate].
        injection Hi as ->.
        rewrite nth_error_map in Hx.
        destruct (nth_error (seq 0 n) (i - Z.to_nat s)) as [k|] eqn:Hk;
          [|discriminate].
        cbn [option_map] in Hx.
        assert (Hday : day = addDays (startOfMonth date) (Z.of_nat k)) by congruence.
        clear Hx. subst day.
        assert (Hk' : k = (i - Z.to_nat s)%nat).
        { assert (Hlen : (i - Z.to_nat s < List.length (seq 0 n))%nat).
          { apply nth_error_Some. rewrite Hk. discriminate. }
          rewrite length_seq in Hlen.
          rewrite nth_error_seq in Hk.
          destruct (Nat.ltb_spec (i - Z.to_nat s) n); [|lia].
          assert (k = (0 + (i - Z.to_nat s))%nat) by congruence. lia. }
        rewrite getDay_addDays, <- Hsdef. subst k. edlia.
    + rewrite nth_error_app2 in Hi by exact Hge.
      apply nth_error_In, repeat_spec in Hi. discriminate Hi.
Qed.

(** ** Marks and badges of the year view *)

Lemma filterM_weaker {A : Type} (p q : A -> Exc bool) (l out : list A) :
  filterM p l = Ret out ->
  (forall x, In x l -> exists b, q x = Ret b /\ (b = true -> p x = Ret true)) ->
  exists out', filterM q l = Ret out' /\ forall x, In x out' -> In x out.
Proof.
  revert out. induction l as [|y ys IH]; simpl; intros out H Hq.
  - exists []. split; [reflexivity|]. intros x [].
  - destruct (p y) as [b|] eqn:Hy; simpl in H; [|discriminate].
    destruct (filterM p ys) as [kept|] eqn:Hys; simpl in H; [|discriminate].
    injection H as <-.
    destruct (IH kept eq_refl (fun x Hx => Hq x (or_intror Hx))) as (out' & Hout' & Hincl).
    destruct (Hq y (or_introl eq_refl)) as (b' & Hb' & Himp).
    rewrite Hb', Hout'. simpl. eexists. split; [reflexivity|].
    destruct b'.
    + rewrite (Himp eq_refl) in Hy. injection Hy as <-.
      intros x [<-|Hx]; [now left|right; now apply Hincl].
    + intros x Hx. destruct b; [right|]; now apply Hincl.
Qed.

(** X21. In the year view an event that marks a day of a month is
    counted in the badge of that month: the events selected for a day
    inside the month are among the events selected for the month, and an
    empty cell selects none. *)
Theorem year_day_marks_are_in_month_badge (r : Release) (month day : Date)
    (events inMonth : list Event) :
  YearView.getEventsForMonth r month events = Ret inMonth ->
  startOfMonth month <= day <= endOfMonth month ->
  YearView.getEventsForDay r None events = Ret [] /\
  exists onDay,
    YearView.getEventsForDay r (Some day) events = Ret onDay /\
    forall e, In e onDay -> In e inMonth.
Proof.
  intros Hmonth Hday. split; [reflexivity|].
  unfold YearView.getEventsForDay, YearView.getEventsForMonth in *.
  apply (filterM_weaker _ _ _ _ Hmonth).
  intros e He.
  destruct (month_bounds month) as (first & next & Hms & Hme & _ & Hlen).
  rewrite Hms, Hme in *.
  assert (Hds : first * MS_PER_DAY <= startOfDay day /\
                endOfDay day <= next * MS_PER_DAY - 1).
  { unfold endOfDay, startOfDay, dayNumber, MS_PER_DAY in *. split; edlia. }
  assert (Hm : bounds r {| start := first * MS_PER_DAY; end_ := next * MS_PER_DAY - 1 |}
               = Ret (first * MS_PER_DAY, next * MS_PER_DAY - 1)).
  { assert (Hle : first * MS_PER_DAY <= next * MS_PER_DAY - 1)
      by (unfold MS_PER_DAY; lia).
    destruct r; simpl.
    - apply Z.leb_le in Hle. now rewrite Hle.
    - now rewrite Z.min_l, Z.max_r by exact Hle. }
  unfold areIntervalsOverlapping. rewrite bounds_dayWindow, Hm. simpl.
  destruct (bounds r (eventInterval e)) as [[lo hi]|] eqn:Hb; simpl.
  - eexists. split; [reflexivity|]. intros Hov. f_equal.
    apply andb_true_iff in Hov. rewrite !Z.ltb_lt in Hov.
    apply andb_true_iff. rewrite !Z.ltb_lt. lia.
  - exfalso.
    assert (Hin : exists b, areIntervalsOverlapping r
                    {| start := first * MS_PER_DAY; end_ := next * MS_PER_DAY - 1 |}
                    (eventInterval e) = Ret b).
    { clear -Hmonth He. revert inMonth Hmonth.
      induction events as [|y ys IH]; [contradiction|]. simpl. intros inMonth H.
      destruct (areIntervalsOverlapping r _ (eventInterval y)) as [b|] eqn:Hy;
        simpl in H; [|discriminate].
      destruct (filterM _ ys) as [kept|] eqn:Hys; simpl in H; [|discriminate].
      destruct He as [<-|He]; [eauto|]. now apply (IH He kept). }
    destruct Hin as (b & Hov). unfold areIntervalsOverlapping in Hov.
    rewrite Hm, Hb in Hov. discriminate Hov.
Qed.

Lemma year_day_marks_example :
  exists onDay,
    YearView.getEventsForDay V3 (Some jan1) [overnight; officeHours] = Ret onDay /\
    forall e, In e onDay -> In e [overnight].
Proof.
  assert (Hm : YearView.getEventsForMonth V3 jan2 [overnight; officeHours]
               = Ret [overnight]) by (vm_compute; reflexivity).
  assert (Hd : startOfMonth jan2 <= jan1 <= endOfMonth jan2).
  { rewrite <- !Z.leb_le. split; vm_compute; reflexivity. }
  exact (proj2 (year_day_marks_are_in_month_badge V3 jan2 jan1 _ _ Hm Hd)).
Defined.

(** ** Time slots *)

Lemma minuteLoop_other_hour (fuel : nat) (hour endHour interval min : Z)
    (slots : list Utils.TimeSlot) :
  0 < interval -> hour <> endHour ->
  (if min <? 60 then (59 - min) / interval + 1 else 0) < Z.of_nat fuel ->
  exists added,
    Utils.minuteLoop fuel hour endHour interval min slots = Some (slots ++ added) /\
    Z.of_nat (List.length added) = (if min <? 60 then (59 - min) / interval + 1 else 0) /\
    Forall (fun s => Utils.hour s = hour /\ min <= Utils.minute s < 60) added.
Proof.
  intros Hi Hh. revert min slots.
  induction fuel as [|fuel IH]; intros min slots Hfuel.
  - exfalso. cbn [Z.of_nat] in Hfuel.
    destruct (Z.ltb_spec min 60) as [Hlt|Hge]; [|lia].
    assert (0 <= (59 - min) / interval) by (apply Z.div_pos; lia). lia.
  - cbn [Utils.minuteLoop].
    destruct (Z.ltb_spec min 60) as [Hlt|Hge].
    + replace (hour =? endHour) with false by (symmetry; now apply Z.eqb_neq).
      cbn [andb].
      assert (Hstep : (59 - min) / interval + 1
                      = (if min + interval <? 60
                         then (59 - (min + interval)) / interval + 1 else 0) + 1).
      { destruct (Z.ltb_spec (min + interval) 60) as [Hlt'|Hge'].
        - replace (59 - min) with ((59 - (min + interval)) + 1 * interval) by lia.
          rewrite Z.div_add by lia. lia.
        - rewrite Z.div_small by lia. lia. }
      destruct (IH (min + interval)
                  (slots ++ [Utils.mkTimeSlot hour min (Utils.formatTimeSlot hour min)]))
        as (added & Hrun & Hlen & Hall).
      { rewrite Hstep in Hfuel. lia. }
      exists (Utils.mkTimeSlot hour min (Utils.formatTimeSlot hour min) :: added).
      rewrite Hrun, <- app_assoc. split; [reflexivity|]. split.
      * cbn [List.length]. rewrite Hstep. lia.
      * constructor; [simpl; lia|].
        eapply Forall_impl; [|exact Hall]. simpl. intros s Hs. lia.
    + exists []. rewrite app_nil_r. split; [reflexivity|]. split; [reflexivity|constructor].
Qed.

Lemma minuteLoop_end_hour (fuel : nat) (endHour interval : Z)
    (slots : list Utils.TimeSlot) :
  0 < interval -> (2 <= fuel)%nat ->
  Utils.minuteLoop fuel endHour endHour interval 0 slots
  = Some (slots ++ [Utils.mkTimeSlot endHour 0 (Utils.formatTimeSlot endHour 0)]).
Proof.
  intros Hi Hfuel. destruct fuel as [|[|fuel]]; [lia|lia|].
  cbn [Utils.minuteLoop]. rewrite Z.eqb_refl. cbn.
  destruct (Z.ltb_spec interval 60) as [Hlt|Hge]; [|reflexivity].
  replace (0 <? interval) with true by (symmetry; apply Z.ltb_lt; lia).
  reflexivity.
Qed.

Lemma minuteLoop_never_ends (fuel : nat) (hour endHour interval min : Z)
    (slots : list Utils.TimeSlot) :
  interval <= 0 -> min <= 0 ->
  Utils.minuteLoop fuel hour endHour interval min slots = None.
Proof.
  intros Hi. revert min slots. induction fuel as [|fuel IH]; intros min slots Hmin.
  - reflexivity.
  - cbn [Utils.minuteLoop].
    replace (min <? 60) with true by (symmetry; apply Z.ltb_lt; lia).
    replace (0 <? min) with false by (symmetry; apply Z.ltb_ge; lia).
    rewrite andb_false_r. apply IH. lia.
Qed.

Lemma hourLoop_length (fuel remaining : nat) (hour endHour interval : Z)
    (slots : list Utils.TimeSlot) :
  0 < interval -> (61 <= fuel)%nat ->
  hour + Z.of_nat remaining = endHour + 1 ->
  exists added,
    Utils.hourLoop fuel remaining hour endHour interval slots = Some (slots ++ added) /\
    Z.of_nat (List.length added)
    = (if (0 <? remaining)%nat
       then (Z.of_nat remaining - 1) * (59 / interval + 1) + 1 else 0) /\
    Forall (fun s => hour <= Utils.hour s <= endHour /\ 0 <= Utils.minute s < 60)
           added.
Proof.
  intros Hi Hfuel. revert hour slots.
  induction remaining as [|remaining IH]; intros hour slots Hh.
  - exists []. rewrite app_nil_r. repeat split. constructor.
  - cbn [Utils.hourLoop].
    destruct remaining as [|remaining'].
    + assert (hour = endHour) by lia. subst hour.
      rewrite minuteLoop_end_hour by lia. cbn [Utils.hourLoop].
      eexists. split; [reflexivity|]. split; [reflexivity|].
      constructor; [simpl; lia|constructor].
    + assert (Hcount : 0 <= 59 / interval <= 59).
      { split; [apply Z.div_pos; lia|]. apply Z.div_le_upper_bound; nia. }
      destruct (minuteLoop_other_hour fuel hour endHour interval 0 slots Hi)
        as (added & Hrun & Hlen & Hall);
        [lia|change (0 <? 60) with true; cbv iota; rewrite Z.sub_0_r; lia|].
      rewrite Hrun.
      destruct (IH (hour + 1) (slots ++ added)) as (more & Hrest & Hlen' & Hall');
        [lia|].
      rewrite Hrest, <- app_assoc. exists (added ++ more).
      split; [reflexivity|]. split.
      * change (0 <? 60) with true in Hlen. cbv iota in Hlen.
        rewrite Z.sub_0_r in Hlen.
        change (0 <? S remaining')%nat with true in Hlen'.
        change (0 <? S (S remaining'))%nat with true. cbv iota in Hlen' |- *.
        rewrite length_app, Nat2Z.inj_add, Hlen, Hlen', !Nat2Z.inj_succ. nia.
      * apply Forall_app. split.
        -- eapply Forall_impl; [|exact Hall]. simpl. intros s [-> Hs]. lia.
        -- eapply Forall_impl; [|exact Hall']. simpl. intros s Hs. lia.
Qed.

(** X22. [generateTimeSlots] with a positive interval ends: the last
    hour gives one slot, at minute 0, and every hour before it gives one
    slot per interval that starts within the hour; every slot lies
    between the two hours. With an interval of 0 or less and a first hour
    not after the last, the inner loop never ends. *)
Theorem generateTimeSlots_count (fuel : nat) (startHour endHour interval : Z) :
  startHour <= endHour ->
  (0 < interval -> (61 <= fuel)%nat ->
   exists slots,
     Utils.generateTimeSlots fuel startHour endHour interval = Some slots /\
     Z.of_nat (List.length slots)
     = (endHour - startHour) * (59 / interval + 1) + 1 /\
     Forall (fun s => startHour <= Utils.hour s <= endHour /\
                      0 <= Utils.minute s < 60) slots) /\
  (interval <= 0 ->
   Utils.generateTimeSlots fuel startHour endHour interval = None).
Proof.
  intros Hle. unfold Utils.generateTimeSlots. split.
  - intros Hi Hfuel.
    destruct (hourLoop_length fuel (Z.to_nat (endHour - startHour + 1))
                startHour endHour interval [] Hi Hfuel) as (added & Hrun & Hlen & Hall);
      [lia|].
    exists added. split; [exact Hrun|]. split; [|exact Hall].
    rewrite Hlen.
    replace (0 <? Z.to_nat (endHour - startHour + 1))%nat with true
      by (symmetry; apply Nat.ltb_lt; lia).
    rewrite Z2Nat.id by lia. f_equal. f_equal. lia.
  - intros Hi.
    destruct (Z.to_nat (endHour - startHour + 1)) as [|remaining] eqn:Hn; [lia|].
    cbn [Utils.hourLoop]. now rewrite minuteLoop_never_ends by lia.
Qed.

Lemma generateTimeSlots_defaults :
  0 <= 23 /\
  exists slots,
    Utils.generateTimeSlots 61 0 23 60 = Some slots /\
    Z.of_nat (List.length slots) = 24.
Proof.
  assert (H : 0 <= 23) by lia. split; [exact H|].
  destruct (proj1 (generateTimeSlots_count 61 0 23 60 H) ltac:(lia) ltac:(lia))
    as (slots & Hrun & Hlen & _).
  exists slots. split; [exact Hrun|]. rewrite Hlen. reflexivity.
Defined.

(** * Months and years *)

(** ** Months on the day line *)

Lemma civil_round_trip (era yoe mp doy : Z) :
  0 <= yoe <= 399 -> 0 <= mp <= 11 ->
  (153 * mp + 2) / 5 <= doy < (153 * (mp + 1) + 2) / 5 ->
  doy <= 364 + leapAfter yoe ->
  civilFromDays (marchDays era yoe + doy)
  = (marchYear era yoe mp, marchMonth mp, doy - (153 * mp + 2) / 5 + 1).
Proof.
  intros Hy Hm Hmp Hd.
  destruct (civil_parts (marchDays era yoe + doy))
    as (era' & yoe' & doy' & mp' & Hy' & Hd' & Hm' & Hmp' & Hz' & Hc').
  rewrite Hc'. clear Hc'.
  pose proof (leapAfter_range yoe) as Hl.
  pose proof (leapAfter_range yoe') as Hl'.
  assert (Hdoy0 : 0 <= doy) by (clear - Hmp Hm; edlia).
  assert (Hera : era' = era).
  { clear Hmp Hmp'. unfold marchDays in Hz'. edlia. }
  subst era'.
  assert (Hstep : forall a b, 0 <= a <= 399 -> 0 <= b <= 399 -> a < b ->
            marchDays era a + 365 + leapAfter a <= marchDays era b).
  { intros a b Ha Hb Hab.
    pose proof (marchDays_next era a Ha) as Hn.
    replace (a <? 399) with true in Hn by (symmetry; apply Z.ltb_lt; lia).
    rewrite <- Hn. unfold marchDays. edlia. }
  assert (Hyoe : yoe' = yoe).
  { destruct (Z.lt_trichotomy yoe yoe') as [Hlt|[Heq|Hgt]]; [|congruence|].
    - pose proof (Hstep yoe yoe' Hy Hy' Hlt). lia.
    - pose proof (Hstep yoe' yoe Hy' Hy Hgt). lia. }
  subst yoe'.
  assert (Hdoy : doy' = doy) by lia. subst doy'.
  assert (Hmpe : mp' = mp) by (clear - Hm Hm' Hmp Hmp'; edlia).
  subst mp'. reflexivity.
Qed.

Lemma monthStart_march (N : Z) :
  monthStart (N + 2)
  = marchDays (N / 12 / 400) ((N / 12) mod 400) + (153 * (N mod 12) + 2) / 5.
Proof.
  unfold monthStart.
  assert (Hy : 0 <= (N / 12) mod 400 <= 399) by edlia.
  assert (Hm : 0 <= N mod 12 <= 11) by edlia.
  pose proof (daysFromCivil_march (N / 12 / 400) ((N / 12) mod 400) (N mod 12) 1 Hy Hm)
    as H.
  rewrite marchYear_split in H by assumption.
  replace ((N + 2) / 12)
    with ((N / 12) mod 400 + N / 12 / 400 * 400 + (if N mod 12 <? 10 then 0 else 1)).
  2:{ destruct (N mod 12 <? 10) eqn:E;
        [apply Z.ltb_lt in E|apply Z.ltb_ge in E]; edlia. }
  replace ((N + 2) mod 12 + 1) with (marchMonth (N mod 12)).
  2:{ unfold marchMonth. destruct (N mod 12 <? 10) eqn:E;
        [apply Z.ltb_lt in E|apply Z.ltb_ge in E]; edlia. }
  rewrite H. lia.
Qed.

(** The length of month [M], by its place in the March year. *)
Lemma monthStart_next (M : Z) :
  monthStart (M + 1) - monthStart M
  = if (M - 2) mod 12 <? 11
    then (153 * ((M - 2) mod 12 + 1) + 2) / 5 - (153 * ((M - 2) mod 12) + 2) / 5
    else 28 + leapAfter (((M - 2) / 12) mod 400).
Proof.
  replace (M + 1) with (M - 1 + 2) by lia.
  replace M with (M - 2 + 2) at 2 by lia.
  rewrite !monthStart_march.
  set (N := M - 2). replace (M - 1) with (N + 1) by (subst N; lia). clearbody N.
  assert (Hy : 0 <= (N / 12) mod 400 <= 399) by edlia.
  pose proof (marchDays_next (N / 12 / 400) ((N / 12) mod 400) Hy) as Hn.
  destruct (N mod 12 <? 11) eqn:E; [apply Z.ltb_lt in E|apply Z.ltb_ge in E].
  - replace ((N + 1) / 12) with (N / 12) by edlia.
    replace ((N + 1) mod 12) with (N mod 12 + 1) by edlia. lia.
  - assert (Hr : N mod 12 = 11) by edlia.
    replace ((N + 1) mod 12) with 0 by edlia.
    replace ((N + 1) / 12) with (N / 12 + 1) by edlia.
    rewrite Hr. change ((153 * 11 + 2) / 5) with 337.
    change ((153 * 0 + 2) / 5) with 0.
    destruct ((N / 12) mod 400 <? 399) eqn:E9;
      [apply Z.ltb_lt in E9|apply Z.ltb_ge in E9].
    + replace ((N / 12 + 1) / 400) with (N / 12 / 400) by edlia.
      replace ((N / 12 + 1) mod 400) with ((N / 12) mod 400 + 1) by edlia.
      lia.
    + replace ((N / 12 + 1) / 400) with (N / 12 / 400 + 1) by edlia.
      replace ((N / 12 + 1) mod 400) with 0 by edlia.
      lia.
Qed.

(** A month has 28 to 31 days. *)
Lemma monthStart_step (M : Z) : 28 <= monthStart (M + 1) - monthStart M <= 31.
Proof.
  rewrite monthStart_next.
  pose proof (leapAfter_range (((M - 2) / 12) mod 400)) as Hl.
  destruct ((M - 2) mod 12 <? 11) eqn:E; [apply Z.ltb_lt in E|lia].
  assert (0 <= (M - 2) mod 12) by edlia.
  assert (30 <= (153 * ((M - 2) mod 12 + 1) + 2) / 5
                - (153 * ((M - 2) mod 12) + 2) / 5 <= 31) by edlia.
  lia.
Qed.

(** The year, month and day of the [k]-th day of month [M]. *)
Lemma civil_of_month (M k : Z) :
  0 <= k < monthStart (M + 1) - monthStart M ->
  civilFromDays (monthStart M + k) = (M / 12, M mod 12 + 1, k + 1).
Proof.
  intros Hk. rewrite monthStart_next in Hk.
  replace M with (M - 2 + 2) at 1 by lia. rewrite monthStart_march.
  set (N := M - 2) in *.
  assert (Hy : 0 <= (N / 12) mod 400 <= 399) by edlia.
  assert (Hm : 0 <= N mod 12 <= 11) by edlia.
  pose proof (leapAfter_range ((N / 12) mod 400)) as Hl.
  rewrite <- Z.add_assoc.
  rewrite (civil_round_trip _ _ (N mod 12)); try assumption.
  - rewrite marchYear_split by assumption.
    f_equal; [f_equal|lia].
    + subst N. destruct ((M - 2) mod 12 <? 10) eqn:E;
        [apply Z.ltb_lt in E|apply Z.ltb_ge in E]; edlia.
    + subst N. unfold marchMonth. destruct ((M - 2) mod 12 <? 10) eqn:E;
        [apply Z.ltb_lt in E|apply Z.ltb_ge in E]; edlia.
  - destruct (N mod 12 <? 11) eqn:E; [apply Z.ltb_lt in E|apply Z.ltb_ge in E].
    + lia.
    + assert (Hr : N mod 12 = 11) by lia. rewrite Hr in *.
      change ((153 * 11 + 2) / 5) with 337.
      change ((153 * (11 + 1) + 2) / 5) with 367. lia.
  - destruct (N mod 12 <? 11) eqn:E; [apply Z.ltb_lt in E|apply Z.ltb_ge in E].
    + assert ((153 * (N mod 12 + 1) + 2) / 5 <= 337) by (clear - E Hm; edlia).
      lia.
    + assert (Hr : N mod 12 = 11) by lia. rewrite Hr in *.
      change ((153 * 11 + 2) / 5) with 337. lia.
Qed.

(** A day inside month [M] has the year and month of [M]. *)
Lemma month_of_day (z M : Z) :
  monthStart M <= z < monthStart (M + 1) ->
  civilFromDays z = (M / 12, M mod 12 + 1, z - monthStart M + 1).
Proof.
  intros Hz. replace z with (monthStart M + (z - monthStart M)) at 1 by lia.
  rewrite civil_of_month by lia. reflexivity.
Qed.

(** Every date lies in its month. *)
Lemma day_in_month (d : Date) :
  monthStart (monthOf d) <= dayNumber d < monthStart (monthOf d + 1).
Proof.
  unfold monthOf, monthStart, getFullYear, getMonth.
  destruct (civil_parts (dayNumber d))
    as (era & yoe & doy & mp & Hy & Hd & Hm & Hmp & Hz & Hc).
  rewrite Hc. cbn [fst snd].
  pose proof (marchMonth_range mp Hm) as Hmm.
  pose proof (leapAfter_range yoe) as Hleap.
  replace ((12 * marchYear era yoe mp + (marchMonth mp - 1)) / 12)
    with (marchYear era yoe mp) by edlia.
  replace ((12 * marchYear era yoe mp + (marchMonth mp - 1)) mod 12 + 1)
    with (marchMonth mp) by edlia.
  replace ((12 * marchYear era yoe mp + (marchMonth mp - 1) + 1) / 12)
    with (marchYear era yoe mp + marchMonth mp / 12) by edlia.
  replace ((12 * marchYear era yoe mp + (marchMonth mp - 1) + 1) mod 12)
    with (marchMonth mp mod 12) by edlia.
  rewrite daysFromCivil_march, next_month_first by assumption.
  rewrite Hz. clear Hc Hz.
  destruct (mp <? 11) eqn:H11; [apply Z.ltb_lt in H11|apply Z.ltb_ge in H11].
  - lia.
  - assert (mp = 11) by lia. subst mp.
    change ((153 * 11 + 2) / 5) with 337 in *. lia.
Qed.

(** The calendar fields of a date, by its month. *)
Lemma fields_of_date (d : Date) :
  getFullYear d = monthOf d / 12 /\
  getMonth d = monthOf d mod 12 /\
  getDate d = dayNumber d - monthStart (monthOf d) + 1.
Proof.
  pose proof (month_of_day _ _ (day_in_month d)) as H.
  unfold getFullYear, getMonth, getDate. rewrite H. cbn [fst snd].
  repeat split; lia.
Qed.

Lemma monthOf_unique (d : Date) (M : Z) :
  monthStart M <= dayNumber d < monthStart (M + 1) -> monthOf d = M.
Proof.
  intros H. unfold monthOf, getFullYear, getMonth.
  rewrite (month_of_day _ _ H). cbn [fst snd]. edlia.
Qed.

Lemma newDate_monthStart (y mi dd h m s ms : Z) :
  newDate y mi dd h m s ms
  = (monthStart (12 * y + mi) + (dd - 1)) * MS_PER_DAY
    + h * MS_PER_HOUR + m * MS_PER_MINUTE + s * 1000 + ms.
Proof.
  unfold newDate, monthStart.
  replace ((12 * y + mi) / 12) with (y + mi / 12) by edlia.
  replace ((12 * y + mi) mod 12) with (mi mod 12) by edlia.
  reflexivity.
Qed.

Lemma startOfMonth_eq (d : Date) :
  startOfMonth d = monthStart (monthOf d) * MS_PER_DAY.
Proof.
  unfold startOfMonth. rewrite newDate_monthStart.
  unfold monthOf. lia.
Qed.

Lemma endOfMonth_eq (d : Date) :
  endOfMonth d = monthStart (monthOf d + 1) * MS_PER_DAY - 1.
Proof.
  unfold endOfMonth. rewrite newDate_monthStart.
  replace (12 * getFullYear d + (getMonth d + 1)) with (monthOf d + 1)
    by (unfold monthOf; lia).
  unfold MS_PER_DAY, MS_PER_HOUR, MS_PER_MINUTE. lia.
Qed.

(** The day a whole number of days and a clock time make. *)
Lemma dayNumber_clock (z c : Z) :
  0 <= c < MS_PER_DAY -> dayNumber (z * MS_PER_DAY + c) = z.
Proof. intros H. day_arith. Qed.

Lemma clock_range (d : Date) : 0 <= d - startOfDay d < MS_PER_DAY.
Proof. day_arith. Qed.

(** [addMonths] lands in the month [amount] months on, on the same day
    of the month or on the last one, at the same clock time. *)
Lemma addMonths_eq (d : Date) (amount : Z) :
  let M := monthOf d + amount in
  addMonths d amount
  = (monthStart M + Z.min (getDate d) (monthStart (M + 1) - monthStart M) - 1)
    * MS_PER_DAY + (d - startOfDay d).
Proof.
  cbv zeta.
  destruct (fields_of_date d) as (Hfy & Hfm & Hfd).
  pose proof (day_in_month d) as Hin.
  pose proof (clock_range d) as Hc.
  unfold addMonths.
  destruct (amount =? 0) eqn:E0; [apply Z.eqb_eq in E0|apply Z.eqb_neq in E0].
  - subst amount. rewrite Z.add_0_r, Hfd.
    rewrite Z.min_l by lia. unfold startOfDay. lia.
  - rewrite newDate_monthStart.
    replace (12 * getFullYear d + (getMonth d + amount + 1))
      with (monthOf d + amount + 1) by (unfold monthOf; lia).
    set (M := monthOf d + amount).
    pose proof (monthStart_step M) as Hstep.
    set (c := d - startOfDay d) in *.
    set (e := (monthStart (M + 1) + (0 - 1)) * MS_PER_DAY + 0 * MS_PER_HOUR
              + 0 * MS_PER_MINUTE + 0 * 1000 + 0 + c).
    assert (He : e = (monthStart (M + 1) - 1) * MS_PER_DAY + c) by (subst e; lia).
    assert (Hde : dayNumber e = monthStart (M + 1) - 1)
      by (rewrite He; apply dayNumber_clock; exact Hc).
    assert (HMe : monthOf e = M)
      by (apply monthOf_unique; rewrite Hde; lia).
    destruct (fields_of_date e) as (Hey & Hem & Hed).
    rewrite HMe, Hde in Hed.
    rewrite Hed.
    destruct (monthStart (M + 1) - 1 - monthStart M + 1 <=? getDate d) eqn:El;
      [apply Z.leb_le in El|apply Z.leb_gt in El].
    + rewrite Z.min_r by lia. rewrite He. f_equal. f_equal. lia.
    + rewrite Z.min_l by lia. rewrite newDate_monthStart.
      replace (12 * getFullYear e + getMonth e) with (monthOf e) by reflexivity.
      rewrite HMe. lia.
Qed.

Lemma getDate_range (d : Date) :
  1 <= getDate d <= monthStart (monthOf d + 1) - monthStart (monthOf d).
Proof.
  destruct (fields_of_date d) as (_ & _ & ->). pose proof (day_in_month d). lia.
Qed.

Lemma addMonths_fields (d : Date) (amount : Z) :
  let a := addMonths d amount in
  monthOf a = monthOf d + amount /\
  getDate a = Z.min (getDate d)
                    (monthStart (monthOf a + 1) - monthStart (monthOf a)) /\
  a - startOfDay a = d - startOfDay d.
Proof.
  cbv zeta. pose proof (addMonths_eq d amount) as H. cbv zeta in H.
  remember (addMonths d amount) as x eqn:Hx. clear Hx.
  set (M := monthOf d + amount) in *.
  pose proof (monthStart_step M) as Hstep.
  pose proof (getDate_range d) as Hd.
  pose proof (clock_range d) as Hc.
  set (k := Z.min (getDate d) (monthStart (M + 1) - monthStart M)) in *.
  assert (Hk : 1 <= k <= monthStart (M + 1) - monthStart M) by (subst k; lia).
  assert (Hday : dayNumber x = monthStart M + k - 1).
  { replace x with ((monthStart M + k - 1) * MS_PER_DAY + (d - startOfDay d)).
    apply dayNumber_clock; exact Hc. }
  assert (HM : monthOf x = M)
    by (apply monthOf_unique; rewrite Hday; lia).
  split; [exact HM|]. split.
  - destruct (fields_of_date x) as (_ & _ & ->).
    rewrite HM, Hday. lia.
  - unfold startOfDay at 1. rewrite Hday. lia.
Qed.

(** ** Month and year navigation *)

(** X23. In the month view the window of the date [handleNext] moves to
    starts one millisecond after the current window ends, the window of
    the date [handlePrevious] moves to ends one millisecond before it
    starts, and going forth and back, or back and forth, returns to the
    current window. *)
Theorem month_navigation_tiles (currentDate : Date) :
  let next := UseCalendar.handleNext UseCalendar.month in
  let prev := UseCalendar.handlePrevious UseCalendar.month in
  let window := fun d => UseCalendar.dateRange d UseCalendar.month in
  start (window (next currentDate)) = end_ (window currentDate) + 1 /\
  end_ (window (prev currentDate)) + 1 = start (window currentDate) /\
  window (prev (next currentDate)) = window currentDate /\
  window (next (prev currentDate)) = window currentDate.
Proof.
  cbv zeta. unfold UseCalendar.handleNext, UseCalendar.handlePrevious,
    UseCalendar.dateRange. cbn [start end_].
  rewrite !startOfMonth_eq, !endOfMonth_eq.
  destruct (addMonths_fields currentDate 1) as (Hn & _ & _).
  destruct (addMonths_fields currentDate (-1)) as (Hp & _ & _).
  destruct (addMonths_fields (addMonths currentDate 1) (-1)) as (Hpn & _ & _).
  destruct (addMonths_fields (addMonths currentDate (-1)) 1) as (Hnp & _ & _).
  cbv zeta in Hn, Hp, Hpn, Hnp.
  remember (addMonths (addMonths currentDate 1) (-1)) as pn eqn:E1. clear E1.
  remember (addMonths (addMonths currentDate (-1)) 1) as np eqn:E2. clear E2.
  remember (addMonths currentDate 1) as n eqn:E3. clear E3.
  remember (addMonths currentDate (-1)) as p eqn:E4. clear E4.
  rewrite Hpn, Hnp, Hn, Hp.
  replace (monthOf currentDate + 1 + -1) with (monthOf currentDate) by lia.
  replace (monthOf currentDate + -1 + 1) with (monthOf currentDate) by lia.
  repeat split; lia.
Qed.

(** X24. In the month view [handleNext] keeps the clock time and the day
    of the month, or moves to the last day of the next month when that
    month is shorter.  [handlePrevious] then returns to the day of the
    month [handleNext] reached: to the date it started from exactly when
    the day of the month was kept, which is not always so. *)
Theorem month_navigation_clamps_day :
  let next := UseCalendar.handleNext UseCalendar.month in
  let prev := UseCalendar.handlePrevious UseCalendar.month in
  (forall d : Date,
     next d - startOfDay (next d) = d - startOfDay d /\
     getDate (next d) = Z.min (getDate d) (getDate (endOfMonth (next d))) /\
     prev (next d) = addDays d (getDate (next d) - getDate d) /\
     (prev (next d) = d <-> getDate (next d) = getDate d)) /\
  (exists d : Date, prev (next d) <> d).
Proof.
  cbv zeta. unfold UseCalendar.handleNext, UseCalendar.handlePrevious. split.
  - intros d.
    destruct (addMonths_fields d 1) as (Hn & Hnd & Hnc). cbv zeta in Hn, Hnd, Hnc.
    pose proof (addMonths_eq (addMonths d 1) (-1)) as Hp. cbv zeta in Hp.
    remember (addMonths (addMonths d 1) (-1)) as pn eqn:E1. clear E1.
    remember (addMonths d 1) as n eqn:E3. clear E3.
    pose proof (monthStart_step (monthOf n)) as Hstep.
    assert (Hlast : getDate (endOfMonth n)
                    = monthStart (monthOf n + 1) - monthStart (monthOf n)).
    { assert (Hday : dayNumber (endOfMonth n) = monthStart (monthOf n + 1) - 1).
      { rewrite endOfMonth_eq.
        replace (monthStart (monthOf n + 1) * MS_PER_DAY - 1)
          with ((monthStart (monthOf n + 1) - 1) * MS_PER_DAY + (MS_PER_DAY - 1)) by lia.
        apply dayNumber_clock. unfold MS_PER_DAY. lia. }
      assert (HM : monthOf (endOfMonth n) = monthOf n)
        by (apply monthOf_unique; rewrite Hday; lia).
      destruct (fields_of_date (endOfMonth n)) as (_ & _ & ->).
      rewrite HM, Hday. lia. }
    pose proof (getDate_range d) as Hd.
    pose proof (getDate_range n) as Hdn.
    assert (Hback : pn = addDays d (getDate n - getDate d)).
    { rewrite Hp, Hnc. rewrite Hn.
      replace (monthOf d + 1 + -1) with (monthOf d) by lia.
      rewrite Z.min_l by lia.
      destruct (fields_of_date d) as (_ & _ & Hfd).
      unfold addDays, startOfDay, MS_PER_DAY. lia. }
    split; [exact Hnc|]. split; [rewrite Hlast; exact Hnd|].
    split; [exact Hback|].
    rewrite Hback. unfold addDays, MS_PER_DAY. lia.
  - exists (newDate 2025 0 31 10 0 0 0). vm_compute. discriminate.
Qed.

Lemma getFullYear_january (y : Z) : getFullYear (newDate y 0 1 0 0 0 0) = y.
Proof.
  rewrite newDate_monthStart.
  replace ((monthStart (12 * y + 0) + (1 - 1)) * MS_PER_DAY + 0 * MS_PER_HOUR
           + 0 * MS_PER_MINUTE + 0 * 1000 + 0)
    with (monthStart (12 * y) * MS_PER_DAY + 0)
    by (rewrite (Z.add_0_r (12 * y));
        unfold MS_PER_DAY, MS_PER_HOUR, MS_PER_MINUTE; lia).
  unfold getFullYear. rewrite dayNumber_clock by (unfold MS_PER_DAY; lia).
  pose proof (monthStart_step (12 * y)).
  rewrite (month_of_day _ (12 * y)) by lia. cbn [fst]. edlia.
Qed.

(** X25. In the year view, away from the years 0 to 99, [handleNext]
    moves to the first instant after the current window, which starts a
    window of its own; the window of the date [handlePrevious] moves to
    ends one millisecond before the current window; and going forth and
    back, or back and forth, returns to 1 January of the current year,
    not to the date itself. *)
Theorem year_navigation_tiles (currentDate : Date)
    (Hyear : getFullYear currentDate < -1 \/ 100 < getFullYear currentDate) :
  let next := UseCalendar.handleNext UseCalendar.year in
  let prev := UseCalendar.handlePrevious UseCalendar.year in
  let window := fun d => UseCalendar.dateRange d UseCalendar.year in
  next currentDate = end_ (window currentDate) + 1 /\
  start (window (next currentDate)) = next currentDate /\
  start (window (prev currentDate)) = prev currentDate /\
  end_ (window (prev currentDate)) + 1 = start (window currentDate) /\
  prev (next currentDate) = start (window currentDate) /\
  next (prev currentDate) = start (window currentDate).
Proof.
  cbv zeta. unfold UseCalendar.handleNext, UseCalendar.handlePrevious,
    UseCalendar.dateRange, newDateYMD. cbn [start end_].
  set (y := getFullYear currentDate) in *.
  assert (Hn : (0 <=? y + 1) && (y + 1 <=? 99) = false).
  { apply andb_false_iff. rewrite Z.leb_gt, Z.leb_gt. lia. }
  assert (Hp : (0 <=? y - 1) && (y - 1 <=? 99) = false).
  { apply andb_false_iff. rewrite Z.leb_gt, Z.leb_gt. lia. }
  assert (H0 : (0 <=? y) && (y <=? 99) = false).
  { apply andb_false_iff. rewrite Z.leb_gt, Z.leb_gt. lia. }
  rewrite Hn, Hp. unfold startOfYear, endOfYear.
  rewrite !getFullYear_january.
  replace (y + 1 - 1) with y by lia. replace (y - 1 + 1) with y by lia.
  rewrite H0. fold y.
  repeat split; try reflexivity.
  - rewrite !newDate_monthStart. unfold MS_PER_DAY, MS_PER_HOUR, MS_PER_MINUTE. lia.
  - rewrite !newDate_monthStart. unfold MS_PER_DAY, MS_PER_HOUR, MS_PER_MINUTE. lia.
Qed.

Lemma year_navigation_tiles_2024 :
  let d := newDate 2024 2 15 14 30 0 0 in
  UseCalendar.handleNext UseCalendar.year d = endOfYear d + 1 /\
  UseCalendar.handlePrevious UseCalendar.year (UseCalendar.handleNext UseCalendar.year d)
  = startOfYear d.
Proof.
  cbv zeta.
  assert (H : getFullYear (newDate 2024 2 15 14 30 0 0) < -1
              \/ 100 < getFullYear (newDate 2024 2 15 14 30 0 0))
    by (right; vm_compute; reflexivity).
  destruct (year_navigation_tiles (newDate 2024 2 15 14 30 0 0) H)
    as (H1 & _ & _ & _ & H5 & _).
  split; [exact H1|exact H5].
Defined.

(** X26. From a date in the years 1 to 98 the year view does not move to
    the neighbouring years: the [Date] constructor reads the two-digit
    year as a year of the twentieth century, so [handleNext] lands in
    year 1901 + y and [handlePrevious] in year 1899 + y. *)
Theorem year_navigation_two_digit_years (currentDate : Date)
    (Hyear : 1 <= getFullYear currentDate <= 98) :
  getFullYear (UseCalendar.handleNext UseCalendar.year currentDate)
  = 1901 + getFullYear currentDate /\
  getFullYear (UseCalendar.handlePrevious UseCalendar.year currentDate)
  = 1899 + getFullYear currentDate.
Proof.
  unfold UseCalendar.handleNext, UseCalendar.handlePrevious, newDateYMD.
  set (y := getFullYear currentDate) in *.
  replace ((0 <=? y + 1) && (y + 1 <=? 99)) with true
    by (symmetry; apply andb_true_iff; rewrite !Z.leb_le; lia).
  replace ((0 <=? y - 1) && (y - 1 <=? 99)) with true
    by (symmetry; apply andb_true_iff; rewrite !Z.leb_le; lia).
  rewrite !getFullYear_january. lia.
Qed.

Lemma year_navigation_from_year_50 :
  let d := newDate 50 5 1 12 0 0 0 in
  getFullYear d = 50 /\
  getFullYear (UseCalendar.handleNext UseCalendar.year d) = 1951 /\
  getFullYear (UseCalendar.handlePrevious UseCalendar.year d) = 1949.
Proof.
  cbv zeta.
  assert (Hy : getFullYear (newDate 50 5 1 12 0 0 0) = 50) by (vm_compute; reflexivity).
  assert (H : 1 <= getFullYear (newDate 50 5 1 12 0 0 0) <= 98) by (rewrite Hy; lia).
  destruct (year_navigation_two_digit_years (newDate 50 5 1 12 0 0 0) H) as (H1 & H2).
  rewrite Hy in H1, H2. split; [exact Hy|]. split; [exact H1|exact H2].
Defined.

(** ** The twelve months of the year view *)

Lemma first_of_month (M : Z) :
  let m := monthStart M * MS_PER_DAY in
  monthOf m = M /\ startOfMonth m = m /\
  endOfMonth m + 1 = monthStart (M + 1) * MS_PER_DAY.
Proof.
  cbv zeta. pose proof (monthStart_step M) as Hstep.
  assert (Hday : dayNumber (monthStart M * MS_PER_DAY) = monthStart M).
  { rewrite <- (Z.add_0_r (monthStart M * MS_PER_DAY)).
    apply dayNumber_clock. unfold MS_PER_DAY. lia. }
  assert (HM : monthOf (monthStart M * MS_PER_DAY) = M)
    by (apply monthOf_unique; rewrite Hday; lia).
  rewrite startOfMonth_eq, endOfMonth_eq, HM. repeat split; lia.
Qed.

Lemma months_nth (currentDate : Date) (i : nat) (m : Date) :
  nth_error (YearView.months currentDate) i = Some m ->
  (i < 12)%nat /\
  m = monthStart (12 * constructedYear (getFullYear currentDate) + Z.of_nat i)
      * MS_PER_DAY.
Proof.
  unfold YearView.months, newDateYMD. cbv zeta.
  fold (constructedYear (getFullYear currentDate)).
  remember (constructedYear (getFullYear currentDate)) as y eqn:Hy. clear Hy.
  intros H.
  assert (Hm : forall k, newDate y k 1 0 0 0 0 = monthStart (12 * y + k) * MS_PER_DAY).
  { intros k. rewrite newDate_monthStart.
    unfold MS_PER_DAY, MS_PER_HOUR, MS_PER_MINUTE. lia. }
  do 12 (destruct i as [|i];
         [cbn [nth_error map] in H; split; [lia|];
          rewrite <- Hm; cbn [Z.of_nat Pos.of_succ_nat Pos.succ]; congruence|]).
  cbn [nth_error map] in H. destruct i; discriminate H.
Qed.

(** X27. The year view draws twelve months: the first day, at midnight,
    of each month of the year the [Date] constructor makes of the
    current year.  They follow each other with no gap and no overlap,
    from the start of that year to its end; away from the years 0 to 99
    that year is the window the hook fetches. *)
Theorem year_view_months_tile_year (currentDate : Date) :
  let shown := constructedYear (getFullYear currentDate) in
  let ms := YearView.months currentDate in
  List.length ms = 12%nat /\
  (forall i m, nth_error ms i = Some m ->
     getFullYear m = shown /\ getMonth m = Z.of_nat i /\ startOfMonth m = m) /\
  (forall i a b, nth_error ms i = Some a -> nth_error ms (S i) = Some b ->
     b = endOfMonth a + 1) /\
  (forall first last, nth_error ms 0 = Some first -> nth_error ms 11 = Some last ->
     startOfYear first = first /\ endOfMonth last = endOfYear first /\
     (shown = getFullYear currentDate ->
      UseCalendar.dateRange currentDate UseCalendar.year
      = {| start := first; end_ := endOfMonth last |})).
Proof.
  cbv zeta. split; [reflexivity|].
  set (y := constructedYear (getFullYear currentDate)).
  assert (Hfields : forall i m, nth_error (YearView.months currentDate) i = Some m ->
            getFullYear m = y /\ getMonth m = Z.of_nat i /\ startOfMonth m = m).
  { intros i m H. destruct (months_nth _ _ _ H) as (Hi & ->). fold y.
    destruct (first_of_month (12 * y + Z.of_nat i)) as (HM & Hs & _).
    cbv zeta in HM, Hs.
    destruct (fields_of_date (monthStart (12 * y + Z.of_nat i) * MS_PER_DAY))
      as (Hfy & Hfm & _).
    rewrite HM in Hfy, Hfm. rewrite Hfy, Hfm.
    split; [edlia|]. split; [edlia|exact Hs]. }
  split; [exact Hfields|]. split.
  - intros i a b Ha Hb.
    destruct (months_nth _ _ _ Ha) as (_ & ->).
    destruct (months_nth _ _ _ Hb) as (_ & ->). fold y.
    destruct (first_of_month (12 * y + Z.of_nat i)) as (_ & _ & He).
    cbv zeta in He. rewrite He. f_equal. f_equal. lia.
  - intros first last Hf Hl.
    destruct (Hfields _ _ Hf) as (Hfy & _ & _).
    destruct (months_nth _ _ _ Hf) as (_ & Hfe).
    destruct (months_nth _ _ _ Hl) as (_ & Hle). fold y in Hfe, Hle.
    destruct (first_of_month (12 * y + Z.of_nat 11)) as (_ & _ & He).
    cbv zeta in He. rewrite <- Hle in He.
    assert (Hsy : forall d, startOfYear d = monthStart (12 * getFullYear d) * MS_PER_DAY).
    { intros d. unfold startOfYear. rewrite newDate_monthStart.
      replace (12 * getFullYear d + 0) with (12 * getFullYear d) by lia. unfold MS_PER_DAY, MS_PER_HOUR, MS_PER_MINUTE. lia. }
    assert (Hey : forall d, endOfYear d + 1
                            = monthStart (12 * (getFullYear d + 1)) * MS_PER_DAY).
    { intros d. unfold endOfYear. rewrite newDate_monthStart.
      replace (12 * (getFullYear d + 1) + 0) with (12 * (getFullYear d + 1)) by lia.
      unfold MS_PER_DAY, MS_PER_HOUR, MS_PER_MINUTE. lia. }
    assert (H1 : startOfYear first = first).
    { rewrite Hsy, Hfy, Hfe. f_equal. f_equal. cbn [Z.of_nat]. lia. }
    assert (H2 : endOfMonth last = endOfYear first).
    { pose proof (Hey first) as H. rewrite Hfy in H.
      replace (12 * y + Z.of_nat 11 + 1) with (12 * (y + 1)) in He
        by (cbn [Z.of_nat Pos.of_succ_nat Pos.succ]; lia).
      lia. }
    split; [exact H1|]. split; [exact H2|].
    intros Hshown. unfold UseCalendar.dateRange.
    rewrite H2. rewrite <- H1 at 1.
    rewrite !Hsy. unfold endOfYear. rewrite Hfy, Hshown. reflexivity.
Qed.

(** ** Navigation on the calendar page *)

(** A setter of [Date], as a day in a month. *)
Lemma setter_eq (d : Date) (y mi dd : Z) :
  newDate y mi dd 0 0 0 0 + (d - startOfDay d)
  = (monthStart (12 * y + mi) + dd - 1) * MS_PER_DAY + (d - startOfDay d).
Proof.
  rewrite newDate_monthStart. unfold MS_PER_DAY, MS_PER_HOUR, MS_PER_MINUTE. lia.
Qed.

Lemma setDate_eq (d : Date) (n : Z) : setDate d (getDate d + n) = addDays d n.
Proof.
  unfold setDate. rewrite setter_eq. fold (monthOf d).
  destruct (fields_of_date d) as (_ & _ & ->).
  unfold addDays, startOfDay, MS_PER_DAY. lia.
Qed.

(** X28. In the week and day views the page's handlers, which move a copy
    of the date with [setDate], reach the same dates as the hook's, which
    add days. *)
Theorem page_week_and_day_navigation (currentDate : Date) :
  CalendarPage.handleNext UseCalendar.week currentDate
  = UseCalendar.handleNext UseCalendar.week currentDate /\
  CalendarPage.handlePrevious UseCalendar.week currentDate
  = UseCalendar.handlePrevious UseCalendar.week currentDate /\
  CalendarPage.handleNext UseCalendar.day currentDate
  = UseCalendar.handleNext UseCalendar.day currentDate /\
  CalendarPage.handlePrevious UseCalendar.day currentDate
  = UseCalendar.handlePrevious UseCalendar.day currentDate.
Proof.
  unfold CalendarPage.handleNext, CalendarPage.handlePrevious,
    UseCalendar.handleNext, UseCalendar.handlePrevious.
  change (getDate currentDate - 7) with (getDate currentDate + -7).
  change (getDate currentDate - 1) with (getDate currentDate + -1).
  rewrite !setDate_eq. repeat split; reflexivity.
Qed.

(** [setMonth] on the month [amount] months on keeps the day of the month
    where [addMonths] stops at the last day. *)
Lemma setMonth_eq (d : Date) (amount : Z) :
  setMonth d (getMonth d + amount)
  = addDays (addMonths d amount) (getDate d - getDate (addMonths d amount)).
Proof.
  unfold setMonth. rewrite setter_eq.
  replace (12 * getFullYear d + (getMonth d + amount)) with (monthOf d + amount)
    by (unfold monthOf; lia).
  destruct (addMonths_fields d amount) as (HM & Hd & _). cbv zeta in HM, Hd.
  pose proof (addMonths_eq d amount) as He. cbv zeta in He.
  remember (addMonths d amount) as a eqn:Ha. clear Ha.
  rewrite HM in Hd. rewrite Hd. rewrite He at 1.
  unfold addDays, MS_PER_DAY. lia.
Qed.

(** A day at most three days past the end of month [M] lies in the month
    after. *)
Lemma overflow_month (x : Date) (M k : Z) :
  dayNumber x = monthStart (M + 1) + k -> 0 <= k <= 3 -> monthOf x = M + 1.
Proof.
  intros Hx Hk. apply monthOf_unique. rewrite Hx.
  pose proof (monthStart_step (M + 1)). lia.
Qed.

(** X29. In the month view the page's handlers keep the day of the month
    where the hook's stop at the last day of a shorter month.  The two
    agree when the day exists in the month moved to.  When it does not,
    [handleNext] passes over that month, and its window, into the month
    after, and [handlePrevious] stays in the current month. *)
Theorem page_month_navigation_overflows :
  let window := fun d => CalendarPage.getDateRange d UseCalendar.month in
  (forall d : Date,
     let next := CalendarPage.handleNext UseCalendar.month d in
     let clamped := UseCalendar.handleNext UseCalendar.month d in
     next = addDays clamped (getDate d - getDate clamped) /\
     (getDate clamped = getDate d ->
      next = clamped /\ start (window next) = end_ (window d) + 1) /\
     (getDate clamped <> getDate d ->
      start (window next) = end_ (window clamped) + 1)) /\
  (forall d : Date,
     let prev := CalendarPage.handlePrevious UseCalendar.month d in
     let clamped := UseCalendar.handlePrevious UseCalendar.month d in
     prev = addDays clamped (getDate d - getDate clamped) /\
     (getDate clamped = getDate d ->
      prev = clamped /\ end_ (window prev) + 1 = start (window d)) /\
     (getDate clamped <> getDate d -> window prev = window d)) /\
  (exists d : Date,
     getDate (UseCalendar.handleNext UseCalendar.month d) <> getDate d) /\
  (exists d : Date,
     getDate (UseCalendar.handlePrevious UseCalendar.month d) <> getDate d).
Proof.
  cbv zeta.
  assert (Hgen : forall d amount,
            let x := setMonth d (getMonth d + amount) in
            let a := addMonths d amount in
            x = addDays a (getDate d - getDate a) /\
            (getDate a = getDate d -> x = a /\ monthOf x = monthOf d + amount) /\
            (getDate a <> getDate d -> monthOf x = monthOf d + amount + 1)).
  { intros d amount. cbv zeta.
    pose proof (setMonth_eq d amount) as Hx.
    destruct (addMonths_fields d amount) as (HM & Hd & Hc). cbv zeta in HM, Hd, Hc.
    pose proof (addMonths_eq d amount) as He. cbv zeta in He.
    remember (setMonth d (getMonth d + amount)) as x eqn:E1. clear E1.
    remember (addMonths d amount) as a eqn:E2. clear E2.
    split; [exact Hx|]. split.
    - intros Heq. rewrite Heq in Hx.
      assert (x = a) by (rewrite Hx; unfold addDays; lia).
      split; [assumption|]. congruence.
    - intros Hne. rewrite HM in Hd.
      pose proof (getDate_range d) as Hr.
      pose proof (monthStart_step (monthOf d)) as H0.
      pose proof (monthStart_step (monthOf d + amount)) as H1.
      pose proof (clock_range d) as Hcl.
      apply (overflow_month x (monthOf d + amount)
               (getDate d - (monthStart (monthOf d + amount + 1)
                             - monthStart (monthOf d + amount)) - 1)); [|lia].
      replace x
        with ((monthStart (monthOf d + amount + 1)
               + (getDate d - (monthStart (monthOf d + amount + 1)
                               - monthStart (monthOf d + amount)) - 1))
              * MS_PER_DAY + (d - startOfDay d)).
      2:{ rewrite Hx. unfold addDays. rewrite Hd. rewrite He.
          unfold MS_PER_DAY. lia. }
      apply dayNumber_clock. exact Hcl. }
  unfold CalendarPage.handleNext, CalendarPage.handlePrevious,
    UseCalendar.handleNext, UseCalendar.handlePrevious, CalendarPage.getDateRange.
  cbn [start end_].
  split; [|split; [|split]].
  - intros d. destruct (Hgen d 1) as (H1 & H2 & H3). cbv zeta in H1, H2, H3.
    destruct (addMonths_fields d 1) as (HM & _ & _). cbv zeta in HM.
    remember (setMonth d (getMonth d + 1)) as x eqn:E1. clear E1.
    remember (addMonths d 1) as a eqn:E2. clear E2.
    split; [exact H1|]. split.
    + intros Heq. destruct (H2 Heq) as (Hxa & Hm). split; [exact Hxa|].
      rewrite startOfMonth_eq, endOfMonth_eq, Hm. lia.
    + intros Hne. rewrite startOfMonth_eq, endOfMonth_eq, (H3 Hne), HM. lia.
  - intros d. change (getMonth d - 1) with (getMonth d + -1).
    destruct (Hgen d (-1)) as (H1 & H2 & H3). cbv zeta in H1, H2, H3.
    remember (setMonth d (getMonth d + -1)) as x eqn:E1. clear E1.
    remember (addMonths d (-1)) as a eqn:E2. clear E2.
    split; [exact H1|]. split.
    + intros Heq. destruct (H2 Heq) as (Hxa & Hm). split; [exact Hxa|].
      rewrite startOfMonth_eq, endOfMonth_eq, Hm.
      replace (monthOf d + -1 + 1) with (monthOf d) by lia. lia.
    + intros Hne. rewrite !startOfMonth_eq, !endOfMonth_eq, (H3 Hne).
      replace (monthOf d + -1 + 1) with (monthOf d) by lia. reflexivity.
  - exists (newDate 2025 0 31 10 0 0 0). vm_compute. discriminate.
  - exists (newDate 2025 2 31 10 0 0 0). vm_compute. discriminate.
Qed.

Lemma startOfYear_eq (d : Date) :
  startOfYear d = monthStart (12 * getFullYear d) * MS_PER_DAY.
Proof.
  unfold startOfYear. rewrite newDate_monthStart.
  replace (12 * getFullYear d + 0) with (12 * getFullYear d) by lia.
  unfold MS_PER_DAY, MS_PER_HOUR, MS_PER_MINUTE. lia.
Qed.

Lemma endOfYear_eq (d : Date) :
  endOfYear d = monthStart (12 * (getFullYear d + 1)) * MS_PER_DAY - 1.
Proof.
  unfold endOfYear. rewrite newDate_monthStart.
  replace (12 * (getFullYear d + 1) + 0) with (12 * (getFullYear d + 1)) by lia.
  unfold MS_PER_DAY, MS_PER_HOUR, MS_PER_MINUTE. lia.
Qed.

(** The same month of another year is as long, but for a February. *)
Lemma same_month_length (M n : Z) :
  let len := fun K => monthStart (K + 1) - monthStart K in
  len (M + 12 * n) = len M \/
  (M mod 12 = 1 /\ 28 <= len M <= 29 /\ 28 <= len (M + 12 * n) <= 29).
Proof.
  cbv beta zeta. rewrite !monthStart_next.
  replace ((M + 12 * n - 2) mod 12) with ((M - 2) mod 12) by edlia.
  pose proof (leapAfter_range (((M - 2) / 12) mod 400)).
  pose proof (leapAfter_range (((M + 12 * n - 2) / 12) mod 400)).
  destruct ((M - 2) mod 12 <? 11) eqn:E; [apply Z.ltb_lt in E|apply Z.ltb_ge in E].
  - left. reflexivity.
  - right. split; [edlia|lia].
Qed.

(** [setFullYear] keeps the month and the day of the month, but for
    29 February, which becomes 1 March of a common year. *)
Lemma setFullYear_fields (d : Date) (n : Z) :
  let x := setFullYear d (getFullYear d + n) in
  getFullYear x = getFullYear d + n /\
  x - startOfDay x = d - startOfDay d /\
  ((getMonth x = getMonth d /\ getDate x = getDate d) \/
   (getMonth d = 1 /\ getDate d = 29 /\ getMonth x = 2 /\ getDate x = 1)).
Proof.
  cbv zeta. unfold setFullYear. rewrite setter_eq.
  destruct (fields_of_date d) as (Hy & Hm & Hdom).
  pose proof (getDate_range d) as Hr.
  pose proof (clock_range d) as Hc.
  assert (HM : 12 * (getFullYear d + n) + getMonth d = monthOf d + 12 * n)
    by (unfold monthOf; lia).
  rewrite HM.
  assert (Hm11 : 0 <= getMonth d <= 11) by (rewrite Hm; edlia).
  set (M := monthOf d) in *. set (M' := M + 12 * n).
  pose proof (monthStart_step M') as Hs'.
  remember ((monthStart M' + getDate d - 1) * MS_PER_DAY + (d - startOfDay d))
    as x eqn:Hx.
  assert (Hday : dayNumber x = monthStart M' + getDate d - 1)
    by (rewrite Hx; apply dayNumber_clock; exact Hc).
  assert (Hclock : x - startOfDay x = d - startOfDay d)
    by (unfold startOfDay at 1; rewrite Hday; lia).
  destruct (fields_of_date x) as (Hxy & Hxm & Hxd).
  destruct (Z.le_gt_cases (getDate d) (monthStart (M' + 1) - monthStart M'))
    as [Hfit|Hover].
  - assert (HMx : monthOf x = M') by (apply monthOf_unique; rewrite Hday; lia).
    rewrite HMx in Hxy, Hxm, Hxd.
    split; [rewrite Hxy; subst M'; edlia|]. split; [exact Hclock|].
    left. split; [rewrite Hxm, Hm; subst M'; edlia|rewrite Hxd, Hday; lia].
  - destruct (same_month_length M n) as [Hsame|(Hfeb & HlM & HlM')];
      cbv beta zeta in *; [fold M' in Hsame; lia|fold M' in HlM'].
    assert (Hdom29 : getDate d = 29) by lia.
    assert (Hlen28 : monthStart (M' + 1) - monthStart M' = 28) by lia.
    assert (HMx : monthOf x = M' + 1).
    { apply (overflow_month x M' 0); [rewrite Hday; lia|lia]. }
    rewrite HMx in Hxy, Hxm, Hxd.
    split; [rewrite Hxy; subst M'; edlia|]. split; [exact Hclock|].
    right. split; [lia|]. split; [exact Hdom29|].
    split; [rewrite Hxm; subst M'; edlia|rewrite Hxd, Hday; lia].
Qed.

(** X30. In the year view the page's handlers, which move a copy of the
    date with [setFullYear], always reach the year after and the year
    before, also from the years 0 to 99: the window of the date reached
    follows, or precedes, the current window with no gap.  The clock
    time, the month and the day of the month are kept, but for
    29 February, which becomes 1 March. *)
Theorem page_year_navigation (currentDate : Date) :
  let window := fun d => CalendarPage.getDateRange d UseCalendar.year in
  let kept := fun x =>
    x - startOfDay x = currentDate - startOfDay currentDate /\
    ((getMonth x = getMonth currentDate /\ getDate x = getDate currentDate) \/
     (getMonth currentDate = 1 /\ getDate currentDate = 29 /\
      getMonth x = 2 /\ getDate x = 1)) in
  let next := CalendarPage.handleNext UseCalendar.year currentDate in
  let prev := CalendarPage.handlePrevious UseCalendar.year currentDate in
  getFullYear next = getFullYear currentDate + 1 /\
  getFullYear prev = getFullYear currentDate - 1 /\
  start (window next) = end_ (window currentDate) + 1 /\
  end_ (window prev) + 1 = start (window currentDate) /\
  kept next /\ kept prev.
Proof.
  cbv zeta. unfold CalendarPage.handleNext, CalendarPage.handlePrevious,
    CalendarPage.getDateRange. cbn [start end_].
  change (getFullYear currentDate - 1) with (getFullYear currentDate + -1).
  destruct (setFullYear_fields currentDate 1) as (Hn & Hnc & Hnk).
  destruct (setFullYear_fields currentDate (-1)) as (Hp & Hpc & Hpk).
  cbv zeta in Hn, Hnc, Hnk, Hp, Hpc, Hpk.
  remember (setFullYear currentDate (getFullYear currentDate + 1)) as n eqn:E1.
  remember (setFullYear currentDate (getFullYear currentDate + -1)) as p eqn:E2.
  clear E1 E2.
  rewrite !startOfYear_eq, !endOfYear_eq, Hn, Hp.
  replace (getFullYear currentDate + -1 + 1) with (getFullYear currentDate) by lia.
  repeat split; try assumption; lia.
Qed.
